(** * The class-enrollment transaction of [server/graphql/mutation/enroll-class.ts]

    A shallow embedding of [enrollClass], and of [getStudent] and
    [enrollTrial] beside it: the rows it reads and writes, the
    Sequelize transaction it opens, the collaborators it calls (pricing,
    promotion helper, payment gateway, event bus) and the order in which it
    calls them.

    - The function is a computation in a monad that passes a [World] along
      and may throw: [await] is sequencing, [throw] and a rejected promise
      are [Err], [try]/[catch] is [tryCatch].
    - The world holds the committed tables ([store]), the tables as the open
      transaction sees them ([staged]), the transaction's [finished] state,
      and the [trace] of the calls made so far.  A write issued with
      [{ transaction: tx }] changes [staged] only; [tx.commit()] installs
      [staged] as [store]; [tx.rollback()] drops it.  A write issued
      without a transaction, as in [enrollTrial], changes [store] at once.
      As in Sequelize,
      [commit] and [rollback] are refused on a finished transaction.
      [tx.rollback()] on an open transaction can reject like any other
      call; nothing staged is committed then either.
    - What lives outside this file ([getTotalPriceInCents], [applyPromo],
      [applyCredit], [getPromotionIfQualified], [getBalanceInCents], [sale],
      [ReferralCredits.purchase]) is a field of [Env].  [Env] also says, for
      every call, whether it fails and with which error, so that a property
      proved for every [Env] holds for every pattern of failures.
    - [Promise.all] of the student and class lookups is the student lookup
      followed by the class lookup: the class lookup does not reject.
      The lookups of students and classes are taken to reject in no other
      way than by [rejectOnEmpty].
      [student.parent] is the account the student row points to.
    - The logger and the Sentry breadcrumb write no row and decide nothing;
      they are left out. *)

From Stdlib Require Import String ZArith List Bool Lia Permutation.
Import ListNotations.

Local Open Scope string_scope.
Local Open Scope list_scope.
Local Open Scope Z_scope.

(** ** Rows *)

Definition Id := string.

Record Course := {
  course_id : Id;
  course_name : string;
  level : Z;
  isTrial : bool;
  isRegular : bool
}.

(** A class as [ClassModel.findAll] returns it with [include: [CourseModel]]. *)
Record Klass := {
  klass_id : Id;
  course : Course
}.

Record Account := {
  account_id : Id;
  firstName : string;
  paid : bool;
  refererId : option Id
}.

Record StudentRow := {
  row_id : Id;
  row_parentId : Id;
  row_name : string
}.

(** A student instance: the row together with its [parent] account. *)
Record Student := {
  student_id : Id;
  parentId : Id;
  student_name : string;
  parent : Account
}.

Record Promotion := {
  promotion_id : Id;
  code : string;
  counts : Z
}.

Inductive CreditType := Purchase | Referral.

Record Attribution := {
  attr_userId : Id;
  attr_classId : Id
}.

Record CreditDetails := {
  reason : string;
  createdBy : string;
  attribution : Attribution
}.

(** The values handed to [CreditModel.create]. *)
Record CreditAttrs := {
  cents : Z;
  userId : Id;
  type : CreditType;
  details : CreditDetails
}.

Record Credit := {
  credit_id : Id;
  credit_attrs : CreditAttrs
}.

(** The values handed to [EnrollmentModel.bulkCreate], one per class. *)
Record EnrollmentAttrs := {
  e_studentId : Id;
  e_classId : Id;
  source : string;
  campaign : string;
  e_promotionId : option Id;
  e_creditId : option Id
}.

Record Enrollment := {
  enrollment_id : Id;
  enrollment_attrs : EnrollmentAttrs
}.

(** What the gateway returns from [sale]. *)
Definition Details := string.

Record PaymentTransaction := {
  transaction_id : Id;
  transaction_details : Details
}.

(** The tables of the store.  [transactionEnrollments] holds the association
    written by [saleRecord.addEnrollments]. *)
Record Tables := {
  students : list StudentRow;
  accounts : list Account;
  classes : list Klass;
  promotions : list Promotion;
  credits : list Credit;
  enrollments : list Enrollment;
  transactions : list PaymentTransaction;
  transactionEnrollments : list (Id * Id)
}.

(** ** Requests *)

Record EnrollClassArgs := {
  classIds : list Id;
  studentId : Id;
  credit : Z;
  promotionId : option Id;
  paymentMethodNonce : option string;
  wholeSeries : bool
}.

Record Request := {
  req_userId : option Id;
  utmSource : option string;
  utmCampaign : option string
}.

(** ** Errors, calls and the world *)

Inductive Finished := FCommit | FRollback.

Inductive Error :=
| Unauthorized (message : string)
| BadRequest (message : string)
| EmptyResultError
| TransactionFinished (state : Finished)
| Failure (what : string).

(** The calls [enrollClass] issues to its collaborators, in the order in
    which the world's [trace] records them.  [CSale] carries [priceInCents];
    the gateway receives [priceInCents / 100]. *)
Inductive Call :=
| CGetBalanceInCents (account : Id)
| CTransaction
| CGetPromotionIfQualified (pid : Id)
| CIncrementCounts (pid : Id)
| CCreditCreate (attrs : CreditAttrs)
| CUpdatePaid (account : Id)
| CBulkCreate (rows : list EnrollmentAttrs)
| CSale (priceInCents : Z) (nonce : option string) (orderId : string)
| CTransactionCreate (d : Details)
| CAddEnrollments (saleRecord : Id) (ids : list Id)
| CCommit
| CRollback
| CEmitEnrollClassEvent (es : list Enrollment).

(** [store] is what is committed, and so what any other connection observes.
    [staged] and [finished] are the state of the transaction object [tx]:
    the rows as the transaction sees them and Sequelize's [tx.finished].
    [seq] feeds primary keys and is not transactional. *)
Record World := {
  store : Tables;
  staged : Tables;
  finished : option Finished;
  seq : nat;
  trace : list Call
}.

Inductive Result (A : Type) :=
| Ok (a : A)
| Err (e : Error).

Arguments Ok {A} a.
Arguments Err {A} e.

(** What [applyCredit] returns. *)
Record Applied := {
  used : Z;
  result : Z
}.

(** The collaborators whose code is not part of this module, and the
    failures of the calls made to them. *)
Record Env := {
  getTotalPriceInCents : list Klass -> bool -> Z;
  applyPromo : Z -> Promotion -> bool -> bool -> Z;
  applyCredit : Z -> Z -> Applied;
  getPromotionIfQualified : Tables -> Id -> Account -> Course -> option Promotion;
  getBalanceInCents : Tables -> Account -> Z;
  ReferralCredits_purchase : Z;
  sale : Z -> option string -> string -> Details;
  mkId : nat -> Id;
  fault : Call -> option Error
}.

(** ** The monad of the request: world passing with exceptions *)

Definition M (A : Type) := World -> Result A * World.

Definition ret {A} (a : A) : M A := fun w => (Ok a, w).

Definition throw {A} (e : Error) : M A := fun w => (Err e, w).

Definition bind {A B} (m : M A) (k : A -> M B) : M B :=
  fun w =>
    match m w with
    | (Ok a, w') => k a w'
    | (Err e, w') => (Err e, w')
    end.

(** [try { m } catch (err) { h err }] *)
Definition tryCatch {A} (m : M A) (h : Error -> M A) : M A :=
  fun w =>
    match m w with
    | (Ok a, w') => (Ok a, w')
    | (Err e, w') => h e w'
    end.

Declare Scope request_scope.
Delimit Scope request_scope with request.
Notation "x <- m ;; k" := (bind m (fun x => k))
  (at level 100, m at next level, right associativity) : request_scope.
Notation "' p <- m ;; k" := (bind m (fun x => match x with p => k end))
  (at level 100, p pattern, m at next level, right associativity) : request_scope.
Notation "m ;; k" := (bind m (fun _ => k))
  (at level 100, right associativity) : request_scope.
Local Open Scope request_scope.

(** ** World updates *)

Definition record (c : Call) (w : World) : World :=
  {| store := store w; staged := staged w; finished := finished w;
     seq := seq w; trace := trace w ++ [c] |}.

Definition withStaged (f : Tables -> Tables) (w : World) : World :=
  {| store := store w; staged := f (staged w); finished := finished w;
     seq := seq w; trace := trace w |}.

Definition advance (n : nat) (w : World) : World :=
  {| store := store w; staged := staged w; finished := finished w;
     seq := (seq w + n)%nat; trace := trace w |}.

(** The world once [sequelize.transaction()] has returned [tx]. *)
Definition begun (w : World) : World :=
  {| store := store w; staged := store w; finished := None;
     seq := seq w; trace := trace w |}.

(** The world once [tx.commit()] has succeeded. *)
Definition committed (w : World) : World :=
  {| store := staged w; staged := staged w; finished := Some FCommit;
     seq := seq w; trace := trace w ++ [CCommit] |}.

(** The world once [tx.commit()] has failed. *)
Definition commitFailed (w : World) : World :=
  {| store := store w; staged := staged w; finished := Some FCommit;
     seq := seq w; trace := trace w ++ [CCommit] |}.

(** The world once [tx.rollback()] has been called on an open
    transaction. *)
Definition rolledBack (w : World) : World :=
  {| store := store w; staged := store w; finished := Some FRollback;
     seq := seq w; trace := trace w ++ [CRollback] |}.

Definition incrementCounts (pid : Id) (t : Tables) : Tables :=
  {| students := students t; accounts := accounts t; classes := classes t;
     promotions :=
       map (fun p => if (promotion_id p =? pid)%string
                     then {| promotion_id := promotion_id p; code := code p;
                             counts := counts p + 1 |}
                     else p) (promotions t);
     credits := credits t; enrollments := enrollments t;
     transactions := transactions t;
     transactionEnrollments := transactionEnrollments t |}.

Definition insertCredit (c : Credit) (t : Tables) : Tables :=
  {| students := students t; accounts := accounts t; classes := classes t;
     promotions := promotions t; credits := credits t ++ [c];
     enrollments := enrollments t; transactions := transactions t;
     transactionEnrollments := transactionEnrollments t |}.

Definition setPaid (aid : Id) (t : Tables) : Tables :=
  {| students := students t;
     accounts :=
       map (fun a => if (account_id a =? aid)%string
                     then {| account_id := account_id a; firstName := firstName a;
                             paid := true; refererId := refererId a |}
                     else a) (accounts t);
     classes := classes t; promotions := promotions t; credits := credits t;
     enrollments := enrollments t; transactions := transactions t;
     transactionEnrollments := transactionEnrollments t |}.

Definition insertEnrollments (es : list Enrollment) (t : Tables) : Tables :=
  {| students := students t; accounts := accounts t; classes := classes t;
     promotions := promotions t; credits := credits t;
     enrollments := enrollments t ++ es; transactions := transactions t;
     transactionEnrollments := transactionEnrollments t |}.

Definition insertTransaction (p : PaymentTransaction) (t : Tables) : Tables :=
  {| students := students t; accounts := accounts t; classes := classes t;
     promotions := promotions t; credits := credits t;
     enrollments := enrollments t; transactions := transactions t ++ [p];
     transactionEnrollments := transactionEnrollments t |}.

Definition linkEnrollments (sid : Id) (ids : list Id) (t : Tables) : Tables :=
  {| students := students t; accounts := accounts t; classes := classes t;
     promotions := promotions t; credits := credits t;
     enrollments := enrollments t; transactions := transactions t;
     transactionEnrollments :=
       transactionEnrollments t ++ map (fun i => (sid, i)) ids |}.

(** JavaScript truthiness of an optional string: [undefined], [null] and
    the empty string are falsy. *)
Definition truthy (o : option string) : option string :=
  match o with
  | Some s => if (s =? "")%string then None else Some s
  | None => None
  end.

(** [o || ''] *)
Definition orEmpty (o : option string) : string :=
  match o with
  | Some s => s
  | None => ""
  end.

Section Enroll.

Variable env : Env.

(** ** Primitive calls *)

(** A call to a collaborator: it is recorded, and fails when the
    environment says so. *)
Definition attempt (c : Call) : M unit :=
  fun w =>
    match fault env c with
    | Some e => (Err e, record c w)
    | None => (Ok tt, record c w)
    end.

(** A read of the world. *)
Definition gets {A} (f : World -> A) : M A :=
  fun w => (Ok (f w), w).

(** [n] primary keys are taken from the sequence. *)
Definition take (n : nat) : M unit :=
  fun w => (Ok tt, advance n w).

(** A write issued with [{ transaction: tx }]. *)
Definition stage (f : Tables -> Tables) : M unit :=
  fun w => (Ok tt, withStaged f w).

Definition nextId : M Id :=
  id <- gets (fun w => mkId env (seq w)) ;;
  take 1 ;;
  ret id.

(** [StudentModel.findOne({ rejectOnEmpty: true, where: { id, parentId } })].
    The instance comes with its [parent]; a student row whose account row is
    missing is not found. *)
Definition getStudent (args : EnrollClassArgs) (uid : Id) : M Student :=
  fun w =>
    match find (fun s => (row_id s =? studentId args)%string && (row_parentId s =? uid)%string)
               (students (store w)) with
    | Some s =>
        match find (fun a => (account_id a =? row_parentId s)%string) (accounts (store w)) with
        | Some a =>
            (Ok {| student_id := row_id s; parentId := row_parentId s;
                   student_name := row_name s; parent := a |}, w)
        | None => (Err EmptyResultError, w)
        end
    | None => (Err EmptyResultError, w)
    end.

(** [ClassModel.findAll({ where: { id: { [Op.in]: classIds } } })] *)
Definition findAllClasses (ids : list Id) : M (list Klass) :=
  gets (fun w => filter (fun k => existsb (String.eqb (klass_id k)) ids)
                        (classes (store w))).

(** [student.parent.getBalanceInCents()] *)
Definition balanceInCents (a : Account) : M Z :=
  attempt (CGetBalanceInCents (account_id a)) ;;
  gets (fun w => getBalanceInCents env (store w) a).

(** [sequelize.transaction()] *)
Definition transaction : M unit :=
  attempt CTransaction ;;
  fun w => (Ok tt, begun w).

(** [tx.commit()]: refused on a finished transaction; otherwise the
    transaction is finished whether or not the store accepts the commit. *)
Definition commit : M unit :=
  fun w =>
    match finished w with
    | Some f => (Err (TransactionFinished f), record CCommit w)
    | None =>
        match fault env CCommit with
        | Some e => (Err e, commitFailed w)
        | None => (Ok tt, committed w)
        end
    end.

(** [tx.rollback()]: refused on a finished transaction; otherwise the
    transaction is finished and the staged rows are dropped, whether or not
    the store acknowledges the rollback. *)
Definition rollback : M unit :=
  fun w =>
    match finished w with
    | Some f => (Err (TransactionFinished f), record CRollback w)
    | None =>
        match fault env CRollback with
        | Some e => (Err e, rolledBack w)
        | None => (Ok tt, rolledBack w)
        end
    end.

(** [getPromotionIfQualified(promotionId, student.parent, mainKlass.course)],
    called without the transaction: it reads what is committed. *)
Definition promotionIfQualified (pid : Id) (a : Account) (c : Course)
  : M (option Promotion) :=
  attempt (CGetPromotionIfQualified pid) ;;
  gets (fun w => getPromotionIfQualified env (store w) pid a c).

(** [appliedPromo.increment('counts', txOpts)] *)
Definition increment (p : Promotion) : M unit :=
  attempt (CIncrementCounts (promotion_id p)) ;;
  stage (incrementCounts (promotion_id p)).

(** [CreditModel.create(attrs, txOpts)] *)
Definition CreditModel_create (attrs : CreditAttrs) : M Credit :=
  attempt (CCreditCreate attrs) ;;
  id <- nextId ;;
  let c := {| credit_id := id; credit_attrs := attrs |} in
  stage (insertCredit c) ;;
  ret c.

(** [student.parent.update({ paid: true }, txOpts)] *)
Definition updatePaid (a : Account) : M unit :=
  attempt (CUpdatePaid (account_id a)) ;;
  stage (setPaid (account_id a)).

Fixpoint assignIds (n : nat) (rows : list EnrollmentAttrs) : list Enrollment :=
  match rows with
  | [] => []
  | r :: rows' =>
      {| enrollment_id := mkId env n; enrollment_attrs := r |} :: assignIds (S n) rows'
  end.

(** [EnrollmentModel.bulkCreate(rows, txOpts)] *)
Definition EnrollmentModel_bulkCreate (rows : list EnrollmentAttrs) : M (list Enrollment) :=
  attempt (CBulkCreate rows) ;;
  es <- gets (fun w => assignIds (seq w) rows) ;;
  take (length rows) ;;
  stage (insertEnrollments es) ;;
  ret es.

(** [TransactionModel.create({ details }, txOpts)] *)
Definition TransactionModel_create (d : Details) : M PaymentTransaction :=
  attempt (CTransactionCreate d) ;;
  id <- nextId ;;
  let p := {| transaction_id := id; transaction_details := d |} in
  stage (insertTransaction p) ;;
  ret p.

(** [saleRecord.addEnrollments(enrollments, txOpts)] *)
Definition addEnrollments (saleRecord : PaymentTransaction) (es : list Enrollment) : M unit :=
  let ids := map enrollment_id es in
  attempt (CAddEnrollments (transaction_id saleRecord) ids) ;;
  stage (linkEnrollments (transaction_id saleRecord) ids).

(** [emitEnrollClassEvent(enrollments)] *)
Definition emitEnrollClassEvent (es : list Enrollment) : M unit :=
  attempt (CEmitEnrollClassEvent es).

(** ** [enrollClass], lines 88-113: what is checked before the transaction *)

Definition validate (args : EnrollClassArgs) (req : Request)
  : M (Id * Student * Klass * list Klass) :=
  match truthy (req_userId req) with
  | None => throw (Unauthorized "You must login first")
  | Some uid =>
      student <- getStudent args uid ;;
      klasses <- findAllClasses (classIds args) ;;
      match klasses with
      | [] => throw (BadRequest "invalid classIds")
      | k0 :: _ =>
          (if 0 <? credit args then
             balance <- balanceInCents (parent student) ;;
             if balance <? credit args
             then throw (BadRequest "you do not have enough credit")
             else ret tt
           else ret tt) ;;
          ret (uid, student, k0, klasses)
      end
  end.

(** Lines 115-123: the lowest level course; [k0] is [klasses[0]]. *)
Definition findMainKlass (k0 : Klass) (klasses : list Klass) : Klass :=
  if (1 <? length klasses)%nat then
    fold_left
      (fun mainKlass klass =>
         if level (course klass) <? level (course mainKlass) then klass else mainKlass)
      klasses k0
  else k0.

(** Line 130. *)
Definition isBundleOf (klasses : list Klass) (args : EnrollClassArgs) : bool :=
  (1 <? length klasses)%nat && negb (wholeSeries args).

(** ** Lines 143-160: apply promotion first *)

Definition promotionStep (args : EnrollClassArgs) (student : Student)
    (mainKlass : Klass) (isBundle : bool) (priceInCents : Z)
  : M (option Promotion * Z) :=
  match (if 0 <? priceInCents then truthy (promotionId args) else None) with
  | Some pid =>
      found <- promotionIfQualified pid (parent student) (course mainKlass) ;;
      match found with
      | None => throw (BadRequest ("promotion " ++ pid ++ " is not valid")%string)
      | Some appliedPromo =>
          increment appliedPromo ;;
          ret (Some appliedPromo,
               applyPromo env priceInCents appliedPromo isBundle (wholeSeries args))
      end
  | None => ret (None, priceInCents)
  end.

(** ** Lines 163-186: apply credit if there is any *)

Definition purchaseCredit (args : EnrollClassArgs) (uid : Id) (mainKlass : Klass)
    (priceInCents : Z) : CreditAttrs :=
  let applied := applyCredit env priceInCents (credit args) in
  let creditDetails :=
    {| reason := ("Purchase " ++ course_name (course mainKlass))%string;
       createdBy := "webportal";
       attribution := {| attr_userId := uid; attr_classId := klass_id mainKlass |} |} in
  {| cents := - used applied; userId := uid; type := Purchase;
     details := creditDetails |}.

Definition creditStep (args : EnrollClassArgs) (uid : Id) (mainKlass : Klass)
    (priceInCents : Z) : M (option Credit * Z) :=
  if (0 <? priceInCents) && (0 <? credit args) then
    let applied := applyCredit env priceInCents (credit args) in
    usedCredit <- CreditModel_create (purchaseCredit args uid mainKlass priceInCents) ;;
    ret (Some usedCredit, result applied)
  else ret (None, priceInCents).

(** ** Lines 188-211: first purchase of a regular course *)

Definition referralCredit (student : Student) (mainKlass : Klass) (referer : Id)
  : CreditAttrs :=
  let creditDetails :=
    {| reason := (firstName (parent student) ++ " has purchased "
                    ++ course_name (course mainKlass))%string;
       createdBy := "firstPurchase";
       attribution := {| attr_userId := parentId student;
                         attr_classId := klass_id mainKlass |} |} in
  {| cents := ReferralCredits_purchase env; userId := referer;
     type := Referral; details := creditDetails |}.

Definition firstPurchaseStep (student : Student) (mainKlass : Klass)
    (priceInCents : Z) : M unit :=
  if isRegular (course mainKlass) && negb (paid (parent student)) then
    updatePaid (parent student) ;;
    match (if 0 <? priceInCents then truthy (refererId (parent student)) else None) with
    | Some referer =>
        CreditModel_create (referralCredit student mainKlass referer) ;;
        ret tt
    | None => ret tt
    end
  else ret tt.

(** ** Lines 213-223: the enrollment rows *)

Definition enrollmentRows (req : Request) (student : Student) (klasses : list Klass)
    (appliedPromo : option Promotion) (usedCredit : option Credit)
  : list EnrollmentAttrs :=
  map (fun klass =>
         {| e_studentId := student_id student;
            e_classId := klass_id klass;
            source := orEmpty (utmSource req);
            campaign := orEmpty (utmCampaign req);
            e_promotionId := option_map promotion_id appliedPromo;
            e_creditId := option_map credit_id usedCredit |})
      klasses.

(** ** Lines 225-242: payment capture and its record *)

Definition chargeStep (args : EnrollClassArgs) (priceInCents : Z)
    (es : list Enrollment) : M unit :=
  if 0 <? priceInCents then
    let nonce := paymentMethodNonce args in
    let orderId := (hd "" (classIds args) ++ studentId args)%string in
    attempt (CSale priceInCents nonce orderId) ;;
    saleRecord <- TransactionModel_create (sale env priceInCents nonce orderId) ;;
    addEnrollments saleRecord es
  else ret tt.

(** ** Lines 143-242: everything between [try {] and [tx.commit()] *)

Definition inTransaction (args : EnrollClassArgs) (req : Request) (uid : Id)
    (student : Student) (klasses : list Klass) (mainKlass : Klass)
    (isBundle : bool) (priceInCents : Z) : M (list Enrollment) :=
  '(appliedPromo, afterPromo) <-
     promotionStep args student mainKlass isBundle priceInCents ;;
  '(usedCredit, remaining) <- creditStep args uid mainKlass afterPromo ;;
  firstPurchaseStep student mainKlass remaining ;;
  es <- EnrollmentModel_bulkCreate
          (enrollmentRows req student klasses appliedPromo usedCredit) ;;
  chargeStep args remaining es ;;
  ret es.

(** The same, on what [validate] returned. *)
Definition transactionBody (args : EnrollClassArgs) (req : Request)
    (v : Id * Student * Klass * list Klass) : M (list Enrollment) :=
  let '(uid, student, k0, klasses) := v in
  inTransaction args req uid student klasses (findMainKlass k0 klasses)
    (isBundleOf klasses args)
    (getTotalPriceInCents env klasses (wholeSeries args)).

(** ** [enrollClass] *)

Definition enrollClass (args : EnrollClassArgs) (req : Request) : M (list Enrollment) :=
  '(uid, student, k0, klasses) <- validate args req ;;
  let mainKlass := findMainKlass k0 klasses in
  let isBundle := isBundleOf klasses args in
  let priceInCents := getTotalPriceInCents env klasses (wholeSeries args) in
  transaction ;;
  tryCatch
    (es <- inTransaction args req uid student klasses mainKlass isBundle priceInCents ;;
     commit ;;
     emitEnrollClassEvent es ;;
     ret es)
    (fun err => rollback ;; throw err).

End Enroll.

(** ** [enrollTrial], lines 37-81 *)

Record EnrollTrialArgs := {
  trial_classId : Id;
  trial_studentId : Id
}.

(** The arguments of [enrollTrial] as [getStudent] takes them: it reads
    [studentId] and nothing else.  They are also what the same selection is
    as a request to [enrollClass]: the one class, no credit, no promotion. *)
Definition studentIdVars (args : EnrollTrialArgs) : EnrollClassArgs :=
  {| classIds := [trial_classId args]; studentId := trial_studentId args;
     credit := 0; promotionId := None; paymentMethodNonce := None;
     wholeSeries := false |}.

Definition withStore (f : Tables -> Tables) (w : World) : World :=
  {| store := f (store w); staged := staged w; finished := finished w;
     seq := seq w; trace := trace w |}.

(** A write issued without a transaction: it is committed at once. *)
Definition autocommit (f : Tables -> Tables) : M unit :=
  fun w => (Ok tt, withStore f w).

(** [ClassModel.findByPk(classId, { rejectOnEmpty: true, include: [CourseModel] })] *)
Definition ClassModel_findByPk (cid : Id) : M Klass :=
  fun w =>
    match find (fun k => (klass_id k =? cid)%string) (classes (store w)) with
    | Some k => (Ok k, w)
    | None => (Err EmptyResultError, w)
    end.

Section Trial.

Variable env : Env.

(** [EnrollmentModel.create(row)], without [txOpts].  In the trace it is the
    insertion of the one row. *)
Definition EnrollmentModel_create (row : EnrollmentAttrs) : M Enrollment :=
  attempt env (CBulkCreate [row]) ;;
  id <- nextId env ;;
  let enrollment := {| enrollment_id := id; enrollment_attrs := row |} in
  autocommit (insertEnrollments [enrollment]) ;;
  ret enrollment.

(** The row of lines 61-66: no promotion, no credit. *)
Definition trialRow (req : Request) (student : Student) (klass : Klass) : EnrollmentAttrs :=
  {| e_studentId := student_id student;
     e_classId := klass_id klass;
     source := orEmpty (utmSource req);
     campaign := orEmpty (utmCampaign req);
     e_promotionId := None;
     e_creditId := None |}.

(** [enrollTrial].  Both lookups of the [Promise.all] reject with the empty
    result of [rejectOnEmpty], so which one is reported first makes no
    difference.  The enrollment comes back with [student] and [class] set. *)
Definition enrollTrial (args : EnrollTrialArgs) (req : Request)
  : M (Enrollment * Student * Klass) :=
  match truthy (req_userId req) with
  | None => throw (Unauthorized "You must login first")
  | Some uid =>
      student <- getStudent (studentIdVars args) uid ;;
      klass <- ClassModel_findByPk (trial_classId args) ;;
      if negb (isTrial (course klass)) then
        throw (BadRequest "Only introductory class is available for express checkout")
      else
        enrollment <- EnrollmentModel_create (trialRow req student klass) ;;
        emitEnrollClassEvent env [enrollment] ;;
        ret (enrollment, student, klass)
  end.

End Trial.

(** ** [applyCredit] of [shared/pricing] *)

(** Modelled from the spec: [applyCredit] lives in [shared/pricing], which is
    not among the sources.  Section 4.3: "consumed = min(requested, price);
    new price = price - consumed". *)
Definition applyCredit_spec (price requested : Z) : Applied :=
  let consumed := Z.min requested price in
  {| used := consumed; result := price - consumed |}.

(** ** Reading traces *)

Definition isSale (c : Call) : bool :=
  match c with
  | CSale _ _ _ => true
  | _ => false
  end.

(** The amounts, in cents, of the gateway calls of a trace. *)
Fixpoint sales (l : list Call) : list Z :=
  match l with
  | [] => []
  | CSale p _ _ :: l' => p :: sales l'
  | _ :: l' => sales l'
  end.

(** A gateway call, if it is one, is for a positive amount. *)
Definition salePositive (c : Call) : bool :=
  match c with
  | CSale p _ _ => 0 <? p
  | _ => true
  end.

Definition isEmit (c : Call) : bool :=
  match c with
  | CEmitEnrollClassEvent _ => true
  | _ => false
  end.

Definition isIncrement (c : Call) : bool :=
  match c with
  | CIncrementCounts _ => true
  | _ => false
  end.

Definition isBalanceLookup (c : Call) : bool :=
  match c with
  | CGetBalanceInCents _ => true
  | _ => false
  end.

(** Neither a balance lookup nor the creation of a [Purchase] credit. *)
Definition noCreditCall (c : Call) : bool :=
  match c with
  | CGetBalanceInCents _ => false
  | CCreditCreate attrs =>
      match type attrs with
      | Purchase => false
      | Referral => true
      end
  | _ => true
  end.

Definition isPurchaseCredit (c : Call) : bool :=
  match c with
  | CCreditCreate attrs =>
      match type attrs with
      | Purchase => true
      | Referral => false
      end
  | _ => false
  end.

(** The calls of lines 188-211. *)
Definition isFirstPurchase (c : Call) : bool :=
  match c with
  | CUpdatePaid _ => true
  | CCreditCreate attrs =>
      match type attrs with
      | Referral => true
      | Purchase => false
      end
  | _ => false
  end.

(** The calls that can follow the gateway call. *)
Definition afterCapture (c : Call) : bool :=
  match c with
  | CTransactionCreate _ | CAddEnrollments _ _ | CCommit | CRollback
  | CEmitEnrollClassEvent _ => true
  | _ => false
  end.

Definition purchaseCredits (t : Tables) : list Credit :=
  filter (fun c => match type (credit_attrs c) with Purchase => true | Referral => false end)
         (credits t).

(** The calls of lines 143-160. *)
Definition isPromotionCall (c : Call) : bool :=
  match c with
  | CGetPromotionIfQualified _ | CIncrementCounts _ => true
  | _ => false
  end.

Definition referralCredits (t : Tables) : list Credit :=
  filter (fun c => match type (credit_attrs c) with Referral => true | Purchase => false end)
         (credits t).

Definition isCommit (c : Call) : bool :=
  match c with
  | CCommit => true
  | _ => false
  end.

(** The transaction of a trace was committed: [tx.commit()] was called and
    the store accepted it. *)
Definition commits (env : Env) (l : list Call) : bool :=
  existsb isCommit l
  && match fault env CCommit with None => true | Some _ => false end.

(** Where an error of the body comes from: the promotion that was asked for
    is not valid, or the last call made has failed with that error. *)
Definition Blamed (env : Env) (args : EnrollClassArgs) {A} (r : Result A) (w' : World)
  : Prop :=
  match r with
  | Ok _ => True
  | Err e =>
      (exists pid,
         truthy (promotionId args) = Some pid /\
         e = BadRequest ("promotion " ++ pid ++ " is not valid")%string) \/
      (exists c l, trace w' = l ++ [c] /\ fault env c = Some e)
  end.

(** ** Invariants of the steps *)

(** From [w] to [w'] nothing was committed and the transaction was not
    finished; the staged tables moved along [Q] and the calls made satisfy
    [P]. *)
Definition Within (P : Call -> bool) (Q : Tables -> Tables -> Prop) (w w' : World) : Prop :=
  store w' = store w /\
  finished w' = finished w /\
  Q (staged w) (staged w') /\
  exists l, trace w' = trace w ++ l /\ forallb P l = true.

Definition respects {A} (R : World -> World -> Prop) (m : M A) : Prop :=
  forall w, R w (snd (m w)).

Definition anyCall (c : Call) : bool := true.

Definition anyTables (t t' : Tables) : Prop := True.

Definition sameOn {A} (f : Tables -> A) (t t' : Tables) : Prop := f t' = f t.

(** The calls that lines 143-242 can make; a gateway call is made for a
    positive amount only. *)
Definition bodyCall (c : Call) : bool :=
  match c with
  | CGetPromotionIfQualified _ | CIncrementCounts _ | CCreditCreate _
  | CUpdatePaid _ | CBulkCreate _ | CTransactionCreate _ | CAddEnrollments _ _ => true
  | CSale p _ _ => 0 <? p
  | _ => false
  end.

(** The position of a call in the text of [enrollClass]. *)
Definition phase (c : Call) : nat :=
  match c with
  | CGetBalanceInCents _ => 0
  | CTransaction => 1
  | CGetPromotionIfQualified _ => 2
  | CIncrementCounts _ => 3
  | CCreditCreate attrs =>
      match type attrs with
      | Purchase => 4
      | Referral => 6
      end
  | CUpdatePaid _ => 5
  | CBulkCreate _ => 7
  | CSale _ _ _ => 8
  | CTransactionCreate _ => 9
  | CAddEnrollments _ _ => 10
  | CCommit => 11
  | CEmitEnrollClassEvent _ => 12
  | CRollback => 13
  end.

(** The calls of [l] are made in the order of the text, each position at
    most once, none before position [lo]. *)
Fixpoint ascending (lo : nat) (l : list Call) : bool :=
  match l with
  | [] => true
  | c :: l' => (lo <=? phase c)%nat && ascending (S (phase c)) l'
  end.

(** From [w] to [w'] the calls were made in the order of the text, at
    positions from [lo] up to but not including [hi]. *)
Definition Ordered (lo hi : nat) (w w' : World) : Prop :=
  exists l, trace w' = trace w ++ l /\ ascending lo l = true /\
            forallb (fun c => (phase c <? hi)%nat) l = true.

(** The calls made from [w] to [w']. *)
Definition since (w w' : World) : list Call :=
  skipn (length (trace w)) (trace w').

(** ** The writes of lines 143-242, in the order of the text *)

Definition whenSome {A} (o : option A) (f : A -> Tables -> Tables) (t : Tables) : Tables :=
  match o with
  | Some a => f a t
  | None => t
  end.

(** What a body that returns has written, given what it has done: the
    promotion it applied, the credit it used, whether it set [paid], the
    referral credit it gave, the rows it created and the sale it recorded. *)
Definition bodyWrites (student : Student) (appliedPromo : option Promotion)
    (usedCredit : option Credit) (paidNow : bool) (bonus : option Credit)
    (es : list Enrollment) (saleRecord : option PaymentTransaction) (t : Tables) : Tables :=
  whenSome saleRecord
    (fun p t => linkEnrollments (transaction_id p) (map enrollment_id es)
                  (insertTransaction p t))
    (insertEnrollments es
       (whenSome bonus insertCredit
          ((if paidNow then setPaid (account_id (parent student)) else fun t => t)
             (whenSome usedCredit insertCredit
                (whenSome appliedPromo (fun p => incrementCounts (promotion_id p)) t))))).

(** The conditions of lines 143, 163, 188, 191 and 225 under which each of
    these is done; [afterPromo] and [remaining] are [priceInCents] after
    lines 155 and 184. *)
Definition Applies (env : Env) (args : EnrollClassArgs) (uid : Id) (student : Student)
    (mainKlass : Klass) (isBundle : bool) (priceInCents : Z) (t : Tables)
    (appliedPromo : option Promotion) (afterPromo : Z)
    (usedCredit : option Credit) (remaining : Z)
    (bonus : option Credit) (saleRecord : option PaymentTransaction) : Prop :=
  match appliedPromo with
  | Some promo =>
      0 < priceInCents /\
      (exists pid, truthy (promotionId args) = Some pid /\
         getPromotionIfQualified env t pid (parent student) (course mainKlass)
           = Some promo) /\
      afterPromo = applyPromo env priceInCents promo isBundle (wholeSeries args)
  | None =>
      (priceInCents <= 0 \/ truthy (promotionId args) = None) /\
      afterPromo = priceInCents
  end /\
  match usedCredit with
  | Some c =>
      0 < afterPromo /\ 0 < credit args /\
      credit_attrs c = purchaseCredit env args uid mainKlass afterPromo /\
      remaining = result (applyCredit env afterPromo (credit args))
  | None => (afterPromo <= 0 \/ credit args <= 0) /\ remaining = afterPromo
  end /\
  match bonus with
  | Some c =>
      isRegular (course mainKlass) && negb (paid (parent student)) = true /\
      0 < remaining /\
      exists referer,
        truthy (refererId (parent student)) = Some referer /\
        credit_attrs c = referralCredit env student mainKlass referer
  | None =>
      isRegular (course mainKlass) && negb (paid (parent student)) = false \/
      remaining <= 0 \/ truthy (refererId (parent student)) = None
  end /\
  match saleRecord with
  | Some p =>
      0 < remaining /\
      transaction_details p =
        sale env remaining (paymentMethodNonce args)
          (hd "" (classIds args) ++ studentId args)%string
  | None => remaining <= 0
  end.

(** ** [priceInCents], from line 131 to line 225 *)

(** [priceInCents] after lines 143-160, from its value before them: the
    promotion is applied when the price is positive, a promotion id is
    given and the helper returns a promotion for it.  (When the helper
    returns nothing the request fails at line 151 and the price is not
    used.) *)
Definition priceAfterPromo (env : Env) (args : EnrollClassArgs) (student : Student)
    (mainKlass : Klass) (isBundle : bool) (t : Tables) (priceInCents : Z) : Z :=
  match (if 0 <? priceInCents then truthy (promotionId args) else None) with
  | Some pid =>
      match getPromotionIfQualified env t pid (parent student) (course mainKlass) with
      | Some appliedPromo =>
          applyPromo env priceInCents appliedPromo isBundle (wholeSeries args)
      | None => priceInCents
      end
  | None => priceInCents
  end.

(** [priceInCents] after lines 163-186, from its value before them. *)
Definition priceAfterCredit (env : Env) (args : EnrollClassArgs) (priceInCents : Z) : Z :=
  if (0 <? priceInCents) && (0 <? credit args)
  then result (applyCredit env priceInCents (credit args))
  else priceInCents.

(** [priceInCents] as lines 188-242 read it, for the classes found: the
    total of line 131, after promotion, after credit. *)
Definition remainingPrice (env : Env) (args : EnrollClassArgs) (student : Student)
    (k0 : Klass) (klasses : list Klass) (t : Tables) : Z :=
  priceAfterCredit env args
    (priceAfterPromo env args student (findMainKlass k0 klasses)
       (isBundleOf klasses args) t
       (getTotalPriceInCents env klasses (wholeSeries args))).

(** The calls of lines 188-211 when every one of them goes through, for a
    given [priceInCents]. *)
Definition firstPurchaseCalls (env : Env) (student : Student) (mainKlass : Klass)
    (priceInCents : Z) : list Call :=
  if isRegular (course mainKlass) && negb (paid (parent student)) then
    CUpdatePaid (account_id (parent student)) ::
    match (if 0 <? priceInCents then truthy (refererId (parent student)) else None) with
    | Some referer => [CCreditCreate (referralCredit env student mainKlass referer)]
    | None => []
    end
  else [].

(** ** A fixture: two accounts, three classes, one promotion *)

Module Fixture.

Definition intro : Course :=
  {| course_id := "intro"; course_name := "Intro to Scratch"; level := 0;
     isTrial := true; isRegular := false |}.

Definition scratch1 : Course :=
  {| course_id := "sn1"; course_name := "Scratch Ninja 1"; level := 1;
     isTrial := false; isRegular := true |}.

Definition scratch2 : Course :=
  {| course_id := "sn2"; course_name := "Scratch Ninja 2"; level := 2;
     isTrial := false; isRegular := true |}.

Definition kIntro : Klass := {| klass_id := "k0"; course := intro |}.
Definition kOne : Klass := {| klass_id := "k1"; course := scratch1 |}.
Definition kTwo : Klass := {| klass_id := "k2"; course := scratch2 |}.

Definition ann : Account :=
  {| account_id := "ann"; firstName := "Ann"; paid := false; refererId := Some "ref" |}.

Definition bob : Account :=
  {| account_id := "bob"; firstName := "Bob"; paid := false; refererId := None |}.

Definition referer : Account :=
  {| account_id := "ref"; firstName := "Rae"; paid := true; refererId := None |}.

Definition gift : Credit :=
  {| credit_id := "g1";
     credit_attrs :=
       {| cents := 5000; userId := "ann"; type := Referral;
          details := {| reason := "welcome"; createdBy := "admin";
                        attribution := {| attr_userId := "ann"; attr_classId := "" |} |} |} |}.

Definition save : Promotion :=
  {| promotion_id := "p1"; code := "SAVE10"; counts := 3 |}.

Definition tables : Tables :=
  {| students := [ {| row_id := "amy"; row_parentId := "ann"; row_name := "Amy" |};
                   {| row_id := "ben"; row_parentId := "bob"; row_name := "Ben" |} ];
     accounts := [ann; bob; referer];
     classes := [kTwo; kOne; kIntro];
     promotions := [save];
     credits := [gift];
     enrollments := [];
     transactions := [];
     transactionEnrollments := [] |}.

Definition world : World :=
  {| store := tables; staged := tables; finished := None; seq := 0; trace := [] |}.

Definition price (k : Klass) : Z :=
  if isTrial (course k) then 0 else 10000.

Definition balance (t : Tables) (a : Account) : Z :=
  fold_right Z.add 0
    (map (fun c => cents (credit_attrs c))
         (filter (fun c => (userId (credit_attrs c) =? account_id a)%string) (credits t))).

(** An environment over these tables; [faults] says which calls fail. *)
Definition env (faults : Call -> option Error) : Env :=
  {| getTotalPriceInCents := fun ks _ => fold_right Z.add 0 (map price ks);
     applyPromo := fun p _ _ _ => Z.max 0 (p - 1000);
     applyCredit := applyCredit_spec;
     getPromotionIfQualified :=
       fun t pid _ _ => find (fun p => (promotion_id p =? pid)%string) (promotions t);
     getBalanceInCents := balance;
     ReferralCredits_purchase := 2000;
     sale := fun _ _ orderId => ("sale:" ++ orderId)%string;
     mkId := fun n => String.concat "" (repeat "i" (S n));
     fault := faults |}.

Definition noFault (c : Call) : option Error := None.

(** The gateway declines every charge. *)
Definition declined (c : Call) : option Error :=
  if isSale c then Some (Failure "card declined") else None.

(** The gateway declines every charge and the connection is lost before
    the rollback. *)
Definition declinedAndLost (c : Call) : option Error :=
  match c with
  | CSale _ _ _ => Some (Failure "card declined")
  | CRollback => Some (Failure "connection lost")
  | _ => None
  end.

(** The event bus is down. *)
Definition busDown (c : Call) : option Error :=
  if isEmit c then Some (Failure "bus down") else None.

Definition asAnn : Request :=
  {| req_userId := Some "ann"; utmSource := Some "ads"; utmCampaign := None |}.

Definition asBob : Request :=
  {| req_userId := Some "bob"; utmSource := None; utmCampaign := None |}.

Definition anonymous : Request :=
  {| req_userId := None; utmSource := None; utmCampaign := None |}.

(** Amy, class k1, 3000 cents of credit. *)
Definition withCredit : EnrollClassArgs :=
  {| classIds := ["k1"]; studentId := "amy"; credit := 3000; promotionId := None;
     paymentMethodNonce := Some "nonce"; wholeSeries := false |}.

(** Amy, the trial class, 100 cents of credit. *)
Definition trialWithCredit : EnrollClassArgs :=
  {| classIds := ["k0"]; studentId := "amy"; credit := 100; promotionId := None;
     paymentMethodNonce := None; wholeSeries := false |}.

(** Amy, the trial class, a promotion id that names no promotion. *)
Definition trialWithUnknownPromo : EnrollClassArgs :=
  {| classIds := ["k0"]; studentId := "amy"; credit := 0; promotionId := Some "nope";
     paymentMethodNonce := None; wholeSeries := false |}.

(** Amy, class k1, a promotion id that names no promotion. *)
Definition unknownPromo : EnrollClassArgs :=
  {| classIds := ["k1"]; studentId := "amy"; credit := 0; promotionId := Some "nope";
     paymentMethodNonce := Some "nonce"; wholeSeries := false |}.

(** Amy, class k1 with promotion p1. *)
Definition withPromo : EnrollClassArgs :=
  {| classIds := ["k1"]; studentId := "amy"; credit := 0; promotionId := Some "p1";
     paymentMethodNonce := Some "nonce"; wholeSeries := false |}.

(** Ben, class k1: Bob has no referer. *)
Definition benRegular : EnrollClassArgs :=
  {| classIds := ["k1"]; studentId := "ben"; credit := 0; promotionId := None;
     paymentMethodNonce := Some "nonce"; wholeSeries := false |}.

(** Amy, classes k2 and k1 and an id that names no class. *)
Definition twoAndUnknown : EnrollClassArgs :=
  {| classIds := ["k2"; "zz"; "k1"]; studentId := "amy"; credit := 0;
     promotionId := None; paymentMethodNonce := Some "nonce"; wholeSeries := false |}.

(** Amy, more credit than Ann has. *)
Definition tooMuchCredit : EnrollClassArgs :=
  {| classIds := ["k1"]; studentId := "amy"; credit := 9000; promotionId := None;
     paymentMethodNonce := Some "nonce"; wholeSeries := false |}.

(** Amy as [getStudent] returns her. *)
Definition amy : Student :=
  {| student_id := "amy"; parentId := "ann"; student_name := "Amy"; parent := ann |}.

(** What validation returns for Amy and class k1. *)
Definition amyInOne : Id * Student * Klass * list Klass :=
  ("ann", amy, kOne, [kOne]).

(** The world after the balance lookup of a request with credit. *)
Definition lookedUp : World :=
  record (CGetBalanceInCents "ann") world.

(** The world in which the body of a request with credit starts. *)
Definition opened : World :=
  begun (record CTransaction lookedUp).

(** The card is declined: where the body of the request stops. *)
Definition declinedAt : World :=
  snd (transactionBody (env declined) withCredit asAnn amyInOne opened).

(** A free class with credit asked for. *)
Definition freeWithCredit : Result (list Enrollment) * World :=
  enrollClass (env noFault) trialWithCredit asAnn world.

(** A free class with a promotion id that names no promotion. *)
Definition freeWithUnknownPromo : Result (list Enrollment) * World :=
  enrollClass (env noFault) trialWithUnknownPromo asAnn world.

(** A first regular purchase on an account without referer. *)
Definition firstWithoutReferer : Result (list Enrollment) * World :=
  enrollClass (env noFault) benRegular asBob world.

(** A purchase with promotion p1. *)
Definition promoted : Result (list Enrollment) * World :=
  enrollClass (env noFault) withPromo asAnn world.

(** A purchase with promotion p1 while the event bus is down. *)
Definition unannounced : Result (list Enrollment) * World :=
  enrollClass (env busDown) withPromo asAnn world.

End Fixture.

(** Requests to [enrollTrial] over the same tables. *)
Module TrialFixture.

Import Fixture.

(** Amy, the trial class. *)
Definition amyIntro : EnrollTrialArgs :=
  {| trial_classId := "k0"; trial_studentId := "amy" |}.

(** Amy, class k1, which is no trial. *)
Definition amyOne : EnrollTrialArgs :=
  {| trial_classId := "k1"; trial_studentId := "amy" |}.

(** Ben, who is Bob's, the trial class. *)
Definition benIntro : EnrollTrialArgs :=
  {| trial_classId := "k0"; trial_studentId := "ben" |}.

(** Amy, an id that names no class. *)
Definition amyNowhere : EnrollTrialArgs :=
  {| trial_classId := "zz"; trial_studentId := "amy" |}.


(** Amy's trial enrollment while the event bus is down. *)
Definition trialUnannounced : Result (Enrollment * Student * Klass) * World :=
  enrollTrial (env busDown) amyIntro asAnn world.

(** Amy, classes k1 and k2 with promotion p1 and 3000 cents of credit. *)
Definition everything : EnrollClassArgs :=
  {| classIds := ["k1"; "k2"]; studentId := "amy"; credit := 3000;
     promotionId := Some "p1"; paymentMethodNonce := Some "nonce";
     wholeSeries := false |}.

Definition everythingDone : Result (list Enrollment) * World :=
  enrollClass (env noFault) everything asAnn world.

(** The rows it returns and the world it leaves. *)
Definition everythingRows : list Enrollment :=
  match fst everythingDone with
  | Ok es => es
  | Err _ => []
  end.

Definition everythingAfter : World := snd everythingDone.

(** What validation returns for it: the classes come in the order of the
    table, k2 before k1. *)
Definition amyInBoth : Id * Student * Klass * list Klass :=
  ("ann", amy, kTwo, [kTwo; kOne]).

(** The same request while the gateway declines. *)
Definition everythingDeclined : World :=
  snd (enrollClass (env declined) everything asAnn world).

(** After it, Ann buys class k1 again, with promotion p1. *)
Definition secondDone : Result (list Enrollment) * World :=
  enrollClass (env noFault) withPromo asAnn everythingAfter.


End TrialFixture.

(** * Properties *)

(** ** The monad *)

Lemma forallb_snoc {A} (f : A -> bool) l x :
  forallb f (l ++ [x]) = forallb f l && f x.
Proof. rewrite forallb_app. simpl. now rewrite andb_true_r. Qed.

(** ** Composing step invariants *)

Section Steps.

Variable env : Env.
Variable P : Call -> bool.
Variable Q : Tables -> Tables -> Prop.
Hypothesis Q_refl : forall t, Q t t.
Hypothesis Q_trans : forall t1 t2 t3, Q t1 t2 -> Q t2 t3 -> Q t1 t3.

Lemma Within_refl w : Within P Q w w.
Proof.
  repeat split; auto. exists []. now rewrite app_nil_r.
Qed.

Lemma Within_trans w1 w2 w3 :
  Within P Q w1 w2 -> Within P Q w2 w3 -> Within P Q w1 w3.
Proof.
  intros (S1 & F1 & Q1 & l1 & T1 & A1) (S2 & F2 & Q2 & l2 & T2 & A2).
  repeat split.
  - congruence.
  - congruence.
  - eauto.
  - exists (l1 ++ l2). split.
    + now rewrite T2, T1, app_assoc.
    + rewrite forallb_app, A1, A2. reflexivity.
Qed.

Lemma respects_ret {A} (a : A) : respects (Within P Q) (ret a).
Proof. intros w. apply Within_refl. Qed.

Lemma respects_throw {A} e : respects (Within P Q) (@throw A e).
Proof. intros w. apply Within_refl. Qed.

Lemma respects_gets {A} (f : World -> A) : respects (Within P Q) (gets f).
Proof. intros w. apply Within_refl. Qed.

Lemma respects_take n : respects (Within P Q) (take n).
Proof.
  intros w. repeat split; auto. exists []. simpl. now rewrite app_nil_r.
Qed.

Lemma respects_attempt c : P c = true -> respects (Within P Q) (attempt env c).
Proof.
  intros Pc w. unfold attempt.
  assert (Within P Q w (record c w)) as H.
  { repeat split; auto. exists [c]. split; [reflexivity|]. simpl. now rewrite Pc. }
  destruct (fault env c); exact H.
Qed.

Lemma respects_stage f : (forall t, Q t (f t)) -> respects (Within P Q) (stage f).
Proof.
  intros Qf w. repeat split; simpl; auto. exists []. now rewrite app_nil_r.
Qed.

Lemma respects_bind {A B} (m : M A) (k : A -> M B) :
  respects (Within P Q) m ->
  (forall a, respects (Within P Q) (k a)) ->
  respects (Within P Q) (bind m k).
Proof.
  intros Hm Hk w. unfold bind. specialize (Hm w).
  destruct (m w) as [[a|e] w1]; simpl in *.
  - eapply Within_trans; [exact Hm | apply Hk].
  - exact Hm.
Qed.

End Steps.

Lemma getStudent_same args uid w :
  snd (getStudent args uid w) = w.
Proof.
  unfold getStudent.
  destruct (find _ (students (store w))); [destruct (find _ (accounts (store w)))|];
    reflexivity.
Qed.

Lemma getStudent_within P Q args uid :
  (forall t, Q t t) -> respects (Within P Q) (getStudent args uid).
Proof.
  intros Q_refl w. rewrite getStudent_same. now apply Within_refl.
Qed.

Ltac side :=
  solve [ intros; first
            [ exact I
            | reflexivity
            | assumption
            | unfold sameOn in *; simpl in *; congruence
            | unfold sameOn, purchaseCredits; simpl; rewrite filter_app; simpl;
              now rewrite app_nil_r
            | lia
            | eauto ] ].

(** Walks a computation built from the primitive calls and proves that it
    respects [Within P Q], given that [P] accepts the calls it makes and [Q]
    the writes it stages. *)
Ltac within :=
  repeat first
    [ apply respects_ret; side
    | apply respects_throw; side
    | apply respects_gets; side
    | apply respects_take; side
    | apply respects_bind; [ side | | intros ? ]
    | apply respects_attempt; side
    | apply respects_stage; side
    | apply getStudent_within; side
    | match goal with
      | |- respects _ (match ?x with _ => _ end) => destruct x eqn:?
      | |- respects _ (if ?b then _ else _) => destruct b eqn:?
      end ].

Lemma since_app w w' l : trace w' = trace w ++ l -> since w w' = l.
Proof.
  intros E. unfold since. rewrite E, skipn_app, skipn_all, Nat.sub_diag. reflexivity.
Qed.

Lemma Within_since P Q w w' :
  Within P Q w w' -> trace w' = trace w ++ since w w' /\ forallb P (since w w') = true.
Proof.
  intros (_ & _ & _ & l & T & A). now rewrite (since_app _ _ _ T).
Qed.

Lemma Within_weaken (P P' : Call -> bool) (Q Q' : Tables -> Tables -> Prop) w w' :
  (forall c, P c = true -> P' c = true) ->
  (forall t t', Q t t' -> Q' t t') ->
  Within P Q w w' -> Within P' Q' w w'.
Proof.
  intros HP HQ (S & F & Qs & l & T & A).
  repeat split; auto. exists l. split; [exact T|].
  rewrite forallb_forall in *. auto.
Qed.

Lemma respects_weaken {A} (P P' : Call -> bool) (Q Q' : Tables -> Tables -> Prop)
    (m : M A) :
  (forall c, P c = true -> P' c = true) ->
  (forall t t', Q t t' -> Q' t t') ->
  respects (Within P Q) m -> respects (Within P' Q') m.
Proof.
  intros HP HQ H w. eapply Within_weaken; eauto.
Qed.

Lemma respects_run {A} (R : World -> World -> Prop) (m : M A) w r w' :
  respects R m -> m w = (r, w') -> R w w'.
Proof.
  intros H E. specialize (H w). now rewrite E in H.
Qed.

(** ** What each step may call and write *)

Section Frames.

Variable env : Env.
Variable P : Call -> bool.
Variable Q : Tables -> Tables -> Prop.
Hypothesis Q_refl : forall t, Q t t.
Hypothesis Q_trans : forall t1 t2 t3, Q t1 t2 -> Q t2 t3 -> Q t1 t3.

Lemma promotionStep_within args student mainKlass isBundle priceInCents :
  (forall pid, P (CGetPromotionIfQualified pid) = true) ->
  (forall pid, P (CIncrementCounts pid) = true) ->
  (forall pid t, Q t (incrementCounts pid t)) ->
  respects (Within P Q) (promotionStep env args student mainKlass isBundle priceInCents).
Proof.
  intros P1 P2 Q1. unfold promotionStep, promotionIfQualified, increment. within.
Qed.

Lemma creditStep_within args uid mainKlass priceInCents :
  (forall a, type a = Purchase -> P (CCreditCreate a) = true) ->
  (forall c t, type (credit_attrs c) = Purchase -> Q t (insertCredit c t)) ->
  respects (Within P Q) (creditStep env args uid mainKlass priceInCents).
Proof.
  intros P1 Q1. unfold creditStep. within.
Qed.

Lemma firstPurchaseStep_within student mainKlass priceInCents :
  (forall a, P (CUpdatePaid a) = true) ->
  (forall a, type a = Referral -> P (CCreditCreate a) = true) ->
  (forall a t, Q t (setPaid a t)) ->
  (forall c t, type (credit_attrs c) = Referral -> Q t (insertCredit c t)) ->
  respects (Within P Q) (firstPurchaseStep env student mainKlass priceInCents).
Proof.
  intros P1 P2 Q1 Q2. unfold firstPurchaseStep, updatePaid. within.
Qed.

Lemma bulkCreate_within rows :
  P (CBulkCreate rows) = true ->
  (forall es t, Q t (insertEnrollments es t)) ->
  respects (Within P Q) (EnrollmentModel_bulkCreate env rows).
Proof.
  intros P1 Q1. unfold EnrollmentModel_bulkCreate. within.
Qed.

Lemma chargeStep_within args priceInCents es :
  (forall n o, 0 < priceInCents -> P (CSale priceInCents n o) = true) ->
  (forall d, P (CTransactionCreate d) = true) ->
  (forall i ids, P (CAddEnrollments i ids) = true) ->
  (forall p t, Q t (insertTransaction p t)) ->
  (forall i ids t, Q t (linkEnrollments i ids t)) ->
  respects (Within P Q) (chargeStep env args priceInCents es).
Proof.
  intros P1 P2 P3 Q1 Q2.
  unfold chargeStep, TransactionModel_create, addEnrollments.
  destruct (0 <? priceInCents) eqn:Pos; [apply Z.ltb_lt in Pos|]; within.
Qed.

End Frames.

(** Discharges the side conditions of the lemmas above for a given
    choice of calls and tables. *)
Ltac frame :=
  intros;
  first [ reflexivity
        | exact I
        | unfold sameOn, purchaseCredits in *; simpl in *; congruence
        | match goal with H : type _ = _ |- _ => simpl; rewrite H; reflexivity end
        | match goal with
            H : type _ = _ |- _ =>
              unfold sameOn, purchaseCredits; simpl; rewrite filter_app; simpl;
              rewrite H; simpl; now rewrite app_nil_r
          end ].

(** ** Calls in the order of the text *)

Lemma ascending_weaken l : forall lo lo',
  (lo' <= lo)%nat -> ascending lo l = true -> ascending lo' l = true.
Proof.
  destruct l as [|c l]; simpl; intros lo lo' L A; [reflexivity|].
  apply andb_true_iff in A. destruct A as [A1 A2].
  apply Nat.leb_le in A1. rewrite A2, andb_true_r. apply Nat.leb_le. lia.
Qed.

Lemma ascending_app mid l1 : forall lo l2,
  (lo <= mid)%nat ->
  ascending lo l1 = true ->
  forallb (fun c => (phase c <? mid)%nat) l1 = true ->
  ascending mid l2 = true ->
  ascending lo (l1 ++ l2) = true.
Proof.
  induction l1 as [|c l1 IH]; simpl; intros lo l2 L A B A2.
  - now apply ascending_weaken with mid.
  - apply andb_true_iff in A. destruct A as [A0 A1].
    apply andb_true_iff in B. destruct B as [B0 B1].
    rewrite A0. simpl. apply IH; auto.
    apply Nat.ltb_lt in B0. lia.
Qed.

Lemma below_weaken mid hi l :
  (mid <= hi)%nat ->
  forallb (fun c => (phase c <? mid)%nat) l = true ->
  forallb (fun c => (phase c <? hi)%nat) l = true.
Proof.
  intros L B. rewrite forallb_forall in *. intros c I.
  specialize (B c I). apply Nat.ltb_lt in B. apply Nat.ltb_lt. lia.
Qed.

Lemma ascending_low l : forall lo,
  ascending lo l = true -> forallb (fun d => (lo <=? phase d)%nat) l = true.
Proof.
  induction l as [|d l IH]; simpl; intros lo A; [reflexivity|].
  apply andb_true_iff in A. destruct A as [A0 A1]. rewrite A0. simpl.
  specialize (IH _ A1). rewrite forallb_forall in *. intros x I.
  specialize (IH x I). apply Nat.leb_le in IH. apply Nat.leb_le in A0.
  apply Nat.leb_le. lia.
Qed.

(** Calls that share a position occur at most once. *)
Lemma ascending_once (f : Call -> bool) n l :
  (forall c, f c = true -> phase c = n) ->
  forall lo, ascending lo l = true -> (length (filter f l) <= 1)%nat.
Proof.
  intros Hf. induction l as [|c l IH]; simpl; intros lo A; [lia|].
  apply andb_true_iff in A. destruct A as [_ A].
  destruct (f c) eqn:Fc; [|now apply IH with (S (phase c))].
  assert (filter f l = []) as ->; [|simpl; lia].
  apply ascending_low in A. rewrite forallb_forall in A.
  destruct (filter f l) as [|d l'] eqn:Fl; [reflexivity|].
  assert (In d (filter f l)) as I by (rewrite Fl; now left).
  apply filter_In in I. destruct I as [I Fd].
  specialize (A d I). apply Nat.leb_le in A.
  rewrite (Hf _ Fc), (Hf _ Fd) in A. lia.
Qed.

Lemma ascending_split l1 : forall lo c l2,
  ascending lo (l1 ++ c :: l2) = true ->
  forallb (fun d => (phase d <? phase c)%nat) l1 = true /\
  forallb (fun d => (phase c <? phase d)%nat) l2 = true.
Proof.
  pose proof ascending_low as Low.
  induction l1 as [|d l1 IH]; simpl; intros lo c l2 A.
  - apply andb_true_iff in A. destruct A as [_ A]. split; [reflexivity|].
    apply Low in A. rewrite forallb_forall in *. intros x I.
    specialize (A x I). apply Nat.leb_le in A. apply Nat.ltb_lt. lia.
  - apply andb_true_iff in A. destruct A as [_ A].
    pose proof (Low _ _ A) as B. destruct (IH _ _ _ A) as [I1 I2].
    split; [|exact I2]. rewrite I1, andb_true_r.
    rewrite forallb_forall in B. specialize (B c).
    apply Nat.ltb_lt. assert (In c (l1 ++ c :: l2)) as I by (apply in_elt).
    specialize (B I). apply Nat.leb_le in B. lia.
Qed.

Lemma Ordered_refl lo hi w : Ordered lo hi w w.
Proof. exists []. now rewrite app_nil_r. Qed.

Lemma Ordered_call lo hi c w :
  ((lo <=? phase c)%nat && (phase c <? hi)%nat = true) ->
  Ordered lo hi w (record c w).
Proof.
  intros H. apply andb_true_iff in H. destruct H as [H1 H2].
  exists [c]. simpl. now rewrite H1, H2.
Qed.

Lemma Ordered_seq lo mid hi w w1 w2 :
  (lo <= mid)%nat -> (mid <= hi)%nat ->
  Ordered lo mid w w1 -> Ordered mid hi w1 w2 -> Ordered lo hi w w2.
Proof.
  intros L1 L2 (l1 & T1 & A1 & B1) (l2 & T2 & A2 & B2).
  exists (l1 ++ l2). split; [|split].
  - now rewrite T2, T1, app_assoc.
  - now apply ascending_app with mid.
  - rewrite forallb_app, B2, andb_true_r. now apply below_weaken with mid.
Qed.

Lemma Ordered_since lo hi w w' :
  Ordered lo hi w w' ->
  trace w' = trace w ++ since w w' /\
  ascending lo (since w w') = true /\
  forallb (fun c => (phase c <? hi)%nat) (since w w') = true.
Proof.
  intros (l & T & A & B). now rewrite (since_app _ _ _ T).
Qed.

(** A computation that makes no call. *)
Lemma Ordered_quiet lo hi w w1 w2 :
  trace w1 = trace w -> Ordered lo hi w1 w2 -> Ordered lo hi w w2.
Proof.
  intros E (l & T & A). exists l. now rewrite <- E.
Qed.

Section Order.

Variable env : Env.
Variables lo hi : nat.

Lemma ordered_ret {A} (a : A) : respects (Ordered lo hi) (ret a).
Proof. intros w. apply Ordered_refl. Qed.

Lemma ordered_throw {A} e : respects (Ordered lo hi) (@throw A e).
Proof. intros w. apply Ordered_refl. Qed.

Lemma ordered_gets {A} (f : World -> A) : respects (Ordered lo hi) (gets f).
Proof. intros w. apply Ordered_refl. Qed.

Lemma ordered_take n : respects (Ordered lo hi) (take n).
Proof. intros w. exists []. simpl. now rewrite app_nil_r. Qed.

Lemma ordered_stage f : respects (Ordered lo hi) (stage f).
Proof. intros w. exists []. simpl. now rewrite app_nil_r. Qed.

Lemma ordered_attempt c :
  ((lo <=? phase c)%nat && (phase c <? hi)%nat = true) ->
  respects (Ordered lo hi) (attempt env c).
Proof.
  intros H w. unfold attempt. destruct (fault env c); now apply Ordered_call.
Qed.

Lemma ordered_attempt_bind {B} c (k : unit -> M B) :
  ((lo <=? phase c)%nat && (phase c <? hi)%nat = true) ->
  (forall a, respects (Ordered (S (phase c)) hi) (k a)) ->
  respects (Ordered lo hi) (bind (attempt env c) k).
Proof.
  intros H Hk w. unfold bind, attempt.
  pose proof H as H'. apply andb_true_iff in H'. destruct H' as [H1 H2].
  apply Nat.leb_le in H1. apply Nat.ltb_lt in H2.
  destruct (fault env c).
  - now apply Ordered_call.
  - apply Ordered_seq with (mid := S (phase c)) (w1 := record c w); try lia.
    + apply Ordered_call. apply andb_true_iff.
      split; [now apply Nat.leb_le | apply Nat.ltb_lt; lia].
    + apply Hk.
Qed.

Lemma ordered_quiet_bind {A B} (m : M A) (k : A -> M B) :
  (forall w, trace (snd (m w)) = trace w) ->
  (forall a, respects (Ordered lo hi) (k a)) ->
  respects (Ordered lo hi) (bind m k).
Proof.
  intros Hm Hk w. unfold bind. specialize (Hm w).
  destruct (m w) as [[a|e] w1]; simpl in *.
  - apply Ordered_quiet with w1; [exact Hm | apply Hk].
  - apply Ordered_quiet with w1; [exact Hm | apply Ordered_refl].
Qed.

Lemma ordered_assoc {A B C} (m : M A) (k : A -> M B) (h : B -> M C) :
  respects (Ordered lo hi) (bind m (fun x => bind (k x) h)) ->
  respects (Ordered lo hi) (bind (bind m k) h).
Proof.
  intros H w. specialize (H w). unfold bind in *.
  destruct (m w) as [[a|e] w1]; exact H.
Qed.

End Order.

Ltac ordered :=
  repeat first
    [ match goal with
      | |- respects _ (ret _) => apply ordered_ret
      | |- respects _ (throw _) => apply ordered_throw
      | |- respects _ (bind (bind _ _) _) => apply ordered_assoc
      | |- respects _ (bind (attempt _ _) _) =>
          apply ordered_attempt_bind; [ reflexivity | intros ?; cbv beta zeta ]
      | |- respects _ (bind (gets _) _) =>
          apply ordered_quiet_bind; [ reflexivity | intros ?; cbv beta zeta ]
      | |- respects _ (bind (take _) _) =>
          apply ordered_quiet_bind; [ reflexivity | intros ?; cbv beta zeta ]
      | |- respects _ (bind (stage _) _) =>
          apply ordered_quiet_bind; [ reflexivity | intros ?; cbv beta zeta ]
      | |- respects _ (bind (ret _) _) =>
          apply ordered_quiet_bind; [ reflexivity | intros ?; cbv beta zeta ]
      | |- respects _ (bind (throw _) _) =>
          apply ordered_quiet_bind; [ reflexivity | intros ?; cbv beta zeta ]
      | |- respects _ (bind (getStudent _ _) _) =>
          apply ordered_quiet_bind;
            [ intros; now rewrite getStudent_same | intros ?; cbv beta zeta ]
      | |- respects _ (bind (if ?b then _ else _) _) => destruct b eqn:?
      | |- respects _ (bind (match ?x with _ => _ end) _) => destruct x eqn:?
      | |- respects _ (if ?b then _ else _) => destruct b eqn:?
      | |- respects _ (match ?x with _ => _ end) => destruct x eqn:?
      | |- respects _ (attempt _ _) => apply ordered_attempt; reflexivity
      | |- respects _ (gets _) => apply ordered_gets
      | |- respects _ (take _) => apply ordered_take
      | |- respects _ (stage _) => apply ordered_stage
      end ].

(** ** Validation *)

Lemma validate_within env args req :
  respects (Within isBalanceLookup eq) (validate env args req).
Proof.
  unfold validate, balanceInCents. within.
Qed.

Lemma validate_ordered env args req :
  respects (Ordered 0 1) (validate env args req).
Proof.
  unfold validate, balanceInCents, findAllClasses. ordered.
Qed.

(** What a successful validation has established. *)
Lemma validate_Ok_inv env args req w uid student k0 klasses w1 :
  validate env args req w = (Ok (uid, student, k0, klasses), w1) ->
  truthy (req_userId req) = Some uid /\
  getStudent args uid w = (Ok student, w) /\
  klasses = filter (fun k => existsb (String.eqb (klass_id k)) (classIds args))
                   (classes (store w)) /\
  (exists rest, klasses = k0 :: rest) /\
  ((credit args <= 0 /\ w1 = w) \/
   (0 < credit args /\
    fault env (CGetBalanceInCents (account_id (parent student))) = None /\
    credit args <= getBalanceInCents env (store w) (parent student) /\
    w1 = record (CGetBalanceInCents (account_id (parent student))) w)).
Proof.
  unfold validate. destruct (truthy (req_userId req)) as [u|]; [|discriminate].
  unfold bind at 1.
  pose proof (getStudent_same args u w) as G.
  destruct (getStudent args u w) as [[st|e] w0] eqn:GS; [|discriminate].
  simpl in G. subst w0.
  unfold bind at 1. unfold findAllClasses at 1. unfold gets at 1.
  destruct (filter _ (classes (store w))) as [|k rest] eqn:F; [discriminate|].
  unfold bind at 1.
  destruct (0 <? credit args) eqn:C.
  - unfold balanceInCents, bind, attempt, gets.
    destruct (fault env _) eqn:Fb; [discriminate|]. cbn [store record].
    destruct (getBalanceInCents env (store w) (parent st) <? credit args) eqn:B;
      unfold throw, ret; simpl; [discriminate|].
    intros E. inversion E; subst.
    apply Z.ltb_lt in C. apply Z.ltb_ge in B.
    repeat split; eauto.
  - unfold ret. intros E. inversion E; subst.
    apply Z.ltb_ge in C.
    repeat split; eauto.
Qed.

(** ** The steps, call by call *)

Section Exact.

Variable env : Env.

Lemma CreditModel_create_eq attrs w :
  CreditModel_create env attrs w =
  match fault env (CCreditCreate attrs) with
  | Some e => (Err e, record (CCreditCreate attrs) w)
  | None =>
      let c := {| credit_id := mkId env (seq w); credit_attrs := attrs |} in
      (Ok c, withStaged (insertCredit c) (advance 1 (record (CCreditCreate attrs) w)))
  end.
Proof.
  unfold CreditModel_create, nextId, bind, attempt, gets, take, stage, ret.
  destruct (fault env (CCreditCreate attrs)); reflexivity.
Qed.

Lemma bulkCreate_eq rows w :
  EnrollmentModel_bulkCreate env rows w =
  match fault env (CBulkCreate rows) with
  | Some e => (Err e, record (CBulkCreate rows) w)
  | None =>
      let es := assignIds env (seq w) rows in
      (Ok es,
       withStaged (insertEnrollments es)
         (advance (length rows) (record (CBulkCreate rows) w)))
  end.
Proof.
  unfold EnrollmentModel_bulkCreate, bind, attempt, gets, take, stage, ret.
  destruct (fault env (CBulkCreate rows)); reflexivity.
Qed.

Lemma promotionStep_skipped args student mainKlass isBundle priceInCents w :
  priceInCents <= 0 \/ truthy (promotionId args) = None ->
  promotionStep env args student mainKlass isBundle priceInCents w =
  (Ok (None, priceInCents), w).
Proof.
  intros H. unfold promotionStep.
  destruct (0 <? priceInCents) eqn:P.
  - destruct H as [H | ->]; [apply Z.ltb_lt in P; lia | reflexivity].
  - reflexivity.
Qed.

Lemma promotionStep_eq args student mainKlass isBundle priceInCents pid w :
  0 < priceInCents ->
  truthy (promotionId args) = Some pid ->
  promotionStep env args student mainKlass isBundle priceInCents w =
  match fault env (CGetPromotionIfQualified pid) with
  | Some e => (Err e, record (CGetPromotionIfQualified pid) w)
  | None =>
      match getPromotionIfQualified env (store w) pid (parent student)
              (course mainKlass) with
      | None =>
          (Err (BadRequest ("promotion " ++ pid ++ " is not valid")%string),
           record (CGetPromotionIfQualified pid) w)
      | Some promo =>
          let c := CIncrementCounts (promotion_id promo) in
          match fault env c with
          | Some e => (Err e, record c (record (CGetPromotionIfQualified pid) w))
          | None =>
              (Ok (Some promo,
                   applyPromo env priceInCents promo isBundle (wholeSeries args)),
               withStaged (incrementCounts (promotion_id promo))
                 (record c (record (CGetPromotionIfQualified pid) w)))
          end
      end
  end.
Proof.
  intros P T. apply Z.ltb_lt in P.
  unfold promotionStep. rewrite P, T.
  unfold promotionIfQualified, increment, bind, attempt, gets, stage, throw, ret.
  destruct (fault env (CGetPromotionIfQualified pid)); [reflexivity|].
  cbn [store record].
  destruct (getPromotionIfQualified env (store w) pid (parent student) (course mainKlass))
    as [promo|]; [|reflexivity].
  cbv zeta. destruct (fault env (CIncrementCounts (promotion_id promo))); reflexivity.
Qed.

Lemma creditStep_skipped args uid mainKlass priceInCents w :
  priceInCents <= 0 \/ credit args <= 0 ->
  creditStep env args uid mainKlass priceInCents w = (Ok (None, priceInCents), w).
Proof.
  intros H. unfold creditStep.
  destruct ((0 <? priceInCents) && (0 <? credit args)) eqn:C; [|reflexivity].
  apply andb_true_iff in C. destruct C as [C1 C2].
  apply Z.ltb_lt in C1, C2. lia.
Qed.

Lemma creditStep_eq args uid mainKlass priceInCents w :
  0 < priceInCents ->
  0 < credit args ->
  creditStep env args uid mainKlass priceInCents w =
  let attrs := purchaseCredit env args uid mainKlass priceInCents in
  match fault env (CCreditCreate attrs) with
  | Some e => (Err e, record (CCreditCreate attrs) w)
  | None =>
      let c := {| credit_id := mkId env (seq w); credit_attrs := attrs |} in
      (Ok (Some c, result (applyCredit env priceInCents (credit args))),
       withStaged (insertCredit c) (advance 1 (record (CCreditCreate attrs) w)))
  end.
Proof.
  intros P C. apply Z.ltb_lt in P, C.
  unfold creditStep. rewrite P, C. cbn [andb]. cbv zeta.
  unfold bind at 1. rewrite CreditModel_create_eq.
  destruct (fault env _); reflexivity.
Qed.

Lemma firstPurchaseStep_skipped student mainKlass priceInCents w :
  isRegular (course mainKlass) && negb (paid (parent student)) = false ->
  firstPurchaseStep env student mainKlass priceInCents w = (Ok tt, w).
Proof.
  intros H. unfold firstPurchaseStep. now rewrite H.
Qed.

Lemma firstPurchaseStep_eq student mainKlass priceInCents w :
  isRegular (course mainKlass) && negb (paid (parent student)) = true ->
  firstPurchaseStep env student mainKlass priceInCents w =
  let u := CUpdatePaid (account_id (parent student)) in
  match fault env u with
  | Some e => (Err e, record u w)
  | None =>
      let w1 := withStaged (setPaid (account_id (parent student))) (record u w) in
      match (if 0 <? priceInCents then truthy (refererId (parent student)) else None) with
      | None => (Ok tt, w1)
      | Some referer =>
          let attrs := referralCredit env student mainKlass referer in
          match fault env (CCreditCreate attrs) with
          | Some e => (Err e, record (CCreditCreate attrs) w1)
          | None =>
              let c := {| credit_id := mkId env (seq w1); credit_attrs := attrs |} in
              (Ok tt,
               withStaged (insertCredit c)
                 (advance 1 (record (CCreditCreate attrs) w1)))
          end
      end
  end.
Proof.
  intros H. unfold firstPurchaseStep. rewrite H.
  unfold updatePaid, bind at 1. unfold bind at 1. unfold attempt at 1.
  cbv zeta. destruct (fault env (CUpdatePaid _)); [reflexivity|].
  unfold stage at 1.
  destruct (if 0 <? priceInCents then truthy (refererId (parent student)) else None)
    as [referer|]; [|reflexivity].
  unfold bind. rewrite CreditModel_create_eq.
  destruct (fault env (CCreditCreate _)); reflexivity.
Qed.

Lemma chargeStep_free args priceInCents es w :
  priceInCents <= 0 ->
  chargeStep env args priceInCents es w = (Ok tt, w).
Proof.
  intros H. unfold chargeStep.
  destruct (0 <? priceInCents) eqn:P; [apply Z.ltb_lt in P; lia | reflexivity].
Qed.

Lemma inTransaction_eq args req uid student klasses mainKlass isBundle priceInCents w :
  inTransaction env args req uid student klasses mainKlass isBundle priceInCents w =
  match promotionStep env args student mainKlass isBundle priceInCents w with
  | (Err e, wa) => (Err e, wa)
  | (Ok (appliedPromo, afterPromo), wa) =>
      match creditStep env args uid mainKlass afterPromo wa with
      | (Err e, wb) => (Err e, wb)
      | (Ok (usedCredit, remaining), wb) =>
          match firstPurchaseStep env student mainKlass remaining wb with
          | (Err e, wc) => (Err e, wc)
          | (Ok _, wc) =>
              match EnrollmentModel_bulkCreate env
                      (enrollmentRows req student klasses appliedPromo usedCredit) wc with
              | (Err e, wd) => (Err e, wd)
              | (Ok es, wd) =>
                  match chargeStep env args remaining es wd with
                  | (Err e, we) => (Err e, we)
                  | (Ok _, we) => (Ok es, we)
                  end
              end
          end
      end
  end.
Proof.
  unfold inTransaction. unfold bind at 1.
  destruct (promotionStep _ _ _ _ _ _ _) as [[[appliedPromo afterPromo]|e] wa];
    [|reflexivity].
  unfold bind at 1.
  destruct (creditStep _ _ _ _ _ _) as [[[usedCredit remaining]|e] wb]; [|reflexivity].
  unfold bind at 1.
  destruct (firstPurchaseStep _ _ _ _ _) as [[[]|e] wc]; [|reflexivity].
  unfold bind at 1.
  destruct (EnrollmentModel_bulkCreate _ _ _) as [[es|e] wd]; [|reflexivity].
  unfold bind at 1.
  destruct (chargeStep _ _ _ _ _) as [[[]|e] we]; reflexivity.
Qed.

(** An error of the body is the invalid promotion or the error of the call
    that failed, which is the last call made. *)
Lemma inTransaction_blamed args req uid student klasses mainKlass isBundle priceInCents w :
  Blamed env args
    (fst (inTransaction env args req uid student klasses mainKlass isBundle priceInCents w))
    (snd (inTransaction env args req uid student klasses mainKlass isBundle priceInCents w)).
Proof.
  assert (forall c w0 e, fault env c = Some e ->
            Blamed env args (@Err (list Enrollment) e) (record c w0)) as Call.
  { intros c w0 e F. right. exists c, (trace w0). split; [reflexivity | exact F]. }
  rewrite inTransaction_eq.
  destruct (promotionStep env args student mainKlass isBundle priceInCents w)
    as [[[appliedPromo afterPromo]|e] wa] eqn:EP.
  2: { cbn [fst snd].
       destruct (Z_le_gt_dec priceInCents 0) as [Le | Gt].
       { rewrite promotionStep_skipped in EP by auto. discriminate. }
       destruct (truthy (promotionId args)) as [pid|] eqn:T.
       2: { rewrite promotionStep_skipped in EP by auto. discriminate. }
       rewrite (promotionStep_eq args student mainKlass isBundle priceInCents pid w)
         in EP by (auto; lia).
       destruct (fault env (CGetPromotionIfQualified pid)) eqn:F1.
       { inversion EP; subst. now apply Call. }
       destruct (getPromotionIfQualified env (store w) pid (parent student)
                   (course mainKlass)) as [promo|].
       - cbv zeta in EP.
         destruct (fault env (CIncrementCounts (promotion_id promo))) eqn:F2;
           [|discriminate].
         inversion EP; subst. now apply Call.
       - inversion EP; subst. left. exists pid. auto. }
  destruct (creditStep env args uid mainKlass afterPromo wa)
    as [[[usedCredit remaining]|e] wb] eqn:ECr.
  2: { cbn [fst snd].
       destruct (Z_le_gt_dec afterPromo 0) as [Le | Gt].
       { rewrite creditStep_skipped in ECr by auto. discriminate. }
       destruct (Z_le_gt_dec (credit args) 0) as [Le | Gt'].
       { rewrite creditStep_skipped in ECr by auto. discriminate. }
       rewrite creditStep_eq in ECr by lia. cbv zeta in ECr.
       destruct (fault env (CCreditCreate _)) eqn:F1; [|discriminate].
       inversion ECr; subst. now apply Call. }
  destruct (firstPurchaseStep env student mainKlass remaining wb) as [[[]|e] wc] eqn:EF.
  2: { cbn [fst snd].
       destruct (isRegular (course mainKlass) && negb (paid (parent student))) eqn:R.
       2: { rewrite firstPurchaseStep_skipped in EF by auto. discriminate. }
       rewrite firstPurchaseStep_eq in EF by auto. cbv zeta in EF.
       destruct (fault env (CUpdatePaid _)) eqn:F1.
       { inversion EF; subst. now apply Call. }
       destruct (if 0 <? remaining then truthy (refererId (parent student)) else None);
         [|discriminate].
       destruct (fault env (CCreditCreate _)) eqn:F2; [|discriminate].
       inversion EF; subst. now apply Call. }
  rewrite bulkCreate_eq.
  destruct (fault env (CBulkCreate _)) eqn:FB.
  { cbn [fst snd]. now apply Call. }
  cbv beta iota zeta.
  unfold chargeStep.
  destruct (0 <? remaining); [|exact I].
  unfold TransactionModel_create, addEnrollments, nextId, bind, attempt, gets, take,
    stage, ret.
  destruct (fault env (CSale _ _ _)) eqn:F1.
  { cbn [fst snd]. now apply Call. }
  destruct (fault env (CTransactionCreate _)) eqn:F2.
  { cbn [fst snd]. now apply Call. }
  cbn [seq record].
  destruct (fault env (CAddEnrollments _ _)) eqn:F3; [|exact I].
  cbn [fst snd]. right. eexists. eexists. split; [reflexivity | exact F3].
Qed.

(** A body that returns has gone through every step. *)
Lemma inTransaction_Ok_inv args req uid student klasses mainKlass isBundle priceInCents
    w es w' :
  inTransaction env args req uid student klasses mainKlass isBundle priceInCents w
    = (Ok es, w') ->
  exists appliedPromo afterPromo wa usedCredit remaining wb wc wd,
    promotionStep env args student mainKlass isBundle priceInCents w
      = (Ok (appliedPromo, afterPromo), wa) /\
    creditStep env args uid mainKlass afterPromo wa = (Ok (usedCredit, remaining), wb) /\
    firstPurchaseStep env student mainKlass remaining wb = (Ok tt, wc) /\
    EnrollmentModel_bulkCreate env
      (enrollmentRows req student klasses appliedPromo usedCredit) wc = (Ok es, wd) /\
    chargeStep env args remaining es wd = (Ok tt, w').
Proof.
  rewrite inTransaction_eq.
  destruct (promotionStep _ _ _ _ _ _ _) as [[[appliedPromo afterPromo]|e] wa] eqn:EP;
    [|discriminate].
  destruct (creditStep _ _ _ _ _ _) as [[[usedCredit remaining]|e] wb] eqn:ECr;
    [|discriminate].
  destruct (firstPurchaseStep _ _ _ _ _) as [[[]|e] wc] eqn:EF; [|discriminate].
  destruct (EnrollmentModel_bulkCreate _ _ _) as [[es0|e] wd] eqn:EB; [|discriminate].
  destruct (chargeStep _ _ _ _ _) as [[[]|e] we] eqn:EC; [|discriminate].
  intros E. inversion E; subst.
  exists appliedPromo, afterPromo, wa, usedCredit, remaining, wb, wc, wd.
  repeat split; auto.
Qed.

End Exact.

(** ** The body of the transaction *)

Section Runs.

Variable env : Env.
Variable args : EnrollClassArgs.
Variable req : Request.

Lemma inTransaction_within uid student klasses mainKlass isBundle priceInCents :
  respects (Within bodyCall anyTables)
    (inTransaction env args req uid student klasses mainKlass isBundle priceInCents).
Proof.
  unfold inTransaction, promotionStep, creditStep, firstPurchaseStep, chargeStep,
    promotionIfQualified, increment, updatePaid.
  within.
Qed.

Lemma inTransaction_ordered uid student klasses mainKlass isBundle priceInCents :
  respects (Ordered 2 11)
    (inTransaction env args req uid student klasses mainKlass isBundle priceInCents).
Proof.
  unfold inTransaction, promotionStep, creditStep, firstPurchaseStep, chargeStep,
    promotionIfQualified, increment, updatePaid, CreditModel_create,
    EnrollmentModel_bulkCreate, TransactionModel_create, addEnrollments, nextId.
  ordered.
Qed.

Lemma transactionBody_ordered v :
  respects (Ordered 2 11) (transactionBody env args req v).
Proof.
  destruct v as [[[uid student] k0] klasses]. apply inTransaction_ordered.
Qed.

Lemma transactionBody_within v :
  respects (Within bodyCall anyTables) (transactionBody env args req v).
Proof.
  destruct v as [[[uid student] k0] klasses]. apply inTransaction_within.
Qed.

(** The runs of [enrollClass], by the place where they stop: validation,
    [sequelize.transaction()], the body, [tx.commit()], the event, or the
    [return]. *)
Lemma enrollClass_eq w :
  enrollClass env args req w =
  match validate env args req w with
  | (Err e, w1) => (Err e, w1)
  | (Ok v, w1) =>
      match fault env CTransaction with
      | Some e => (Err e, record CTransaction w1)
      | None =>
          match transactionBody env args req v (begun (record CTransaction w1)) with
          | (Err e, w2) =>
              (Err (match fault env CRollback with Some e' => e' | None => e end),
               rolledBack w2)
          | (Ok es, w2) =>
              match fault env CCommit with
              | Some _ =>
                  (Err (TransactionFinished FCommit), record CRollback (commitFailed w2))
              | None =>
                  match fault env (CEmitEnrollClassEvent es) with
                  | Some _ =>
                      (Err (TransactionFinished FCommit),
                       record CRollback (record (CEmitEnrollClassEvent es) (committed w2)))
                  | None => (Ok es, record (CEmitEnrollClassEvent es) (committed w2))
                  end
              end
          end
      end
  end.
Proof.
  unfold enrollClass. unfold bind at 1.
  destruct (validate env args req w) as [[v|e] w1]; [|reflexivity].
  destruct v as [[[uid student] k0] klasses].
  unfold transaction, attempt. unfold bind at 1. unfold bind at 1.
  destruct (fault env CTransaction); [reflexivity|].
  unfold tryCatch. unfold bind at 1. cbn [transactionBody].
  pose proof (inTransaction_within uid student klasses (findMainKlass k0 klasses)
                (isBundleOf klasses args)
                (getTotalPriceInCents env klasses (wholeSeries args))
                (begun (record CTransaction w1))) as (_ & F & _).
  destruct (inTransaction _ _ _ _ _ _ _ _ _ _) as [[es|e] w2]; simpl in F.
  - unfold bind, commit, rollback, throw, emitEnrollClassEvent, attempt, ret.
    rewrite F.
    destruct (fault env CCommit); [reflexivity|].
    destruct (fault env (CEmitEnrollClassEvent es)); reflexivity.
  - unfold bind, rollback, throw. rewrite F.
    destruct (fault env CRollback); reflexivity.
Qed.

(** Every run of [enrollClass] makes its calls in the order of the text,
    each at most once. *)
Lemma enrollClass_ordered w :
  Ordered 0 14 w (snd (enrollClass env args req w)).
Proof.
  rewrite enrollClass_eq.
  pose proof (validate_ordered env args req w) as V.
  destruct (validate env args req w) as [[v|e] w1]; simpl in V.
  2: { simpl. apply Ordered_seq with (mid := 1%nat) (w1 := w1); auto; try lia.
       apply Ordered_refl. }
  apply Ordered_seq with (mid := 1%nat) (w1 := w1); auto; try lia.
  destruct (fault env CTransaction).
  { simpl. now apply Ordered_call. }
  apply Ordered_seq with (mid := 2%nat) (w1 := record CTransaction w1); try lia.
  { now apply Ordered_call. }
  apply Ordered_quiet with (begun (record CTransaction w1)); [reflexivity|].
  pose proof (transactionBody_ordered v (begun (record CTransaction w1))) as B.
  destruct (transactionBody env args req v _) as [[es|e] w2]; simpl in B.
  - apply Ordered_seq with (mid := 11%nat) (w1 := w2); auto; try lia.
    destruct (fault env CCommit); [|destruct (fault env (CEmitEnrollClassEvent es))];
      simpl.
    + exists [CCommit; CRollback]. simpl. now rewrite <- app_assoc.
    + exists [CCommit; CEmitEnrollClassEvent es; CRollback]. simpl.
      now rewrite <- !app_assoc.
    + exists [CCommit; CEmitEnrollClassEvent es]. simpl. now rewrite <- !app_assoc.
  - apply Ordered_seq with (mid := 11%nat) (w1 := w2); auto; try lia.
    exists [CRollback]. simpl. auto.
Qed.

Lemma no_commit_before l0 l2 :
  forallb isBalanceLookup l0 = true ->
  forallb bodyCall l2 = true ->
  existsb isCommit (l0 ++ CTransaction :: l2) = false /\
  existsb isEmit (l0 ++ CTransaction :: l2) = false.
Proof.
  intros A B.
  assert (forall (P : Call -> bool) l,
             (forall c, P c = true -> isCommit c = false /\ isEmit c = false) ->
             forallb P l = true ->
             existsb isCommit l = false /\ existsb isEmit l = false) as N.
  { intros P l HP. induction l as [|c l IH]; simpl; intros F; [auto|].
    apply andb_true_iff in F. destruct F as [F1 F2].
    destruct (HP c F1) as [-> ->]. now apply IH. }
  destruct (N isBalanceLookup l0) as [A1 A2]; auto.
  { intros []; simpl; intros; auto; discriminate. }
  destruct (N bodyCall l2) as [B1 B2]; auto.
  { intros []; simpl; intros; auto; discriminate. }
  rewrite !existsb_app. simpl. now rewrite A1, A2, B1, B2.
Qed.

(** A requested credit above the balance stops the request at line 111. *)
Lemma insufficient_credit w uid student :
  truthy (req_userId req) = Some uid ->
  getStudent args uid w = (Ok student, w) ->
  filter (fun k => existsb (String.eqb (klass_id k)) (classIds args))
         (classes (store w)) <> [] ->
  0 < credit args ->
  fault env (CGetBalanceInCents (account_id (parent student))) = None ->
  getBalanceInCents env (store w) (parent student) < credit args ->
  enrollClass env args req w =
    (Err (BadRequest "you do not have enough credit"),
     record (CGetBalanceInCents (account_id (parent student))) w).
Proof.
  intros U G F C Fb B. rewrite enrollClass_eq. unfold validate. rewrite U.
  unfold bind at 1. rewrite G. unfold bind at 1. unfold findAllClasses, gets at 1.
  destruct (filter _ _) as [|k0 rest]; [congruence|].
  apply Z.ltb_lt in C, B.
  unfold balanceInCents, bind, attempt, gets, throw. rewrite C, Fb. cbn [store record].
  now rewrite B.
Qed.

(** Up to the end of the body: balance lookups, [sequelize.transaction()],
    then calls of the body; nothing is committed. *)
Lemma run_prefix w v w1 rb w2 :
  validate env args req w = (Ok v, w1) ->
  transactionBody env args req v (begun (record CTransaction w1)) = (rb, w2) ->
  exists l0 l2,
    trace w1 = trace w ++ l0 /\
    trace w2 = trace w ++ (l0 ++ CTransaction :: l2) /\
    forallb isBalanceLookup l0 = true /\
    forallb bodyCall l2 = true /\
    store w1 = store w /\
    store w2 = store w /\
    staged w1 = staged w /\
    finished w2 = None.
Proof.
  intros EV EB.
  pose proof (validate_within env args req w) as V. rewrite EV in V.
  pose proof (transactionBody_within v (begun (record CTransaction w1))) as B.
  rewrite EB in B. simpl in V, B.
  destruct V as (S0 & _ & Q0 & l0 & T0 & A0).
  destruct B as (S2 & F2 & _ & l2 & T2 & A2).
  simpl in *.
  exists l0, l2. split; [exact T0|]. split.
  { rewrite T2, T0, <- !app_assoc. reflexivity. }
  repeat split; auto; congruence.
Qed.

(** What a run leaves in the store: the staged tables when the transaction
    was committed, and otherwise the tables it started with.  An event is
    emitted in the first case only. *)
Lemma enrollClass_commits w r w' :
  enrollClass env args req w = (r, w') ->
  (commits env (since w w') = true /\
   exists v w1 es w2,
     validate env args req w = (Ok v, w1) /\
     fault env CTransaction = None /\
     transactionBody env args req v (begun (record CTransaction w1)) = (Ok es, w2) /\
     store w' = staged w2 /\
     finished w' = Some FCommit /\
     (r = Ok es \/
      r = Err (TransactionFinished FCommit) /\
      fault env (CEmitEnrollClassEvent es) <> None) /\
     In (CEmitEnrollClassEvent es) (since w w') /\
     (forall es', In (CEmitEnrollClassEvent es') (since w w') -> es' = es)) \/
  (commits env (since w w') = false /\
   store w' = store w /\
   (exists e, r = Err e) /\
   existsb isEmit (since w w') = false).
Proof.
  rewrite enrollClass_eq.
  destruct (validate env args req w) as [[v|e] w1] eqn:EV.
  2: { intros E. inversion E; subst. right.
       pose proof (validate_within env args req w) as V. rewrite EV in V.
       destruct V as (S & _ & _ & l & T & A). simpl in *.
       rewrite (since_app _ _ _ T).
       destruct (no_commit_before l [] A eq_refl) as [C1 C2].
       rewrite existsb_app in C1, C2. apply orb_false_iff in C1, C2.
       unfold commits. destruct C1 as [-> _]. destruct C2 as [-> _].
       repeat split; eauto. }
  destruct (fault env CTransaction) eqn:FT.
  { intros E. inversion E; subst. right.
    pose proof (validate_within env args req w) as V. rewrite EV in V.
    destruct V as (S & _ & _ & l0 & T0 & A0). simpl in *.
    rewrite (since_app w _ (l0 ++ [CTransaction])).
    2: { simpl. now rewrite T0, app_assoc. }
    destruct (no_commit_before l0 [] A0 eq_refl) as [C1 C2].
    unfold commits. rewrite C1, C2. repeat split; eauto. }
  destruct (transactionBody env args req v _) as [[es|e] w2] eqn:EB.
  - destruct (run_prefix _ _ _ _ _ EV EB)
      as (l0 & l2 & _ & T & A0 & A2 & _ & S2 & _ & F2).
    destruct (no_commit_before l0 l2 A0 A2) as [C1 C2].
    assert (forall es', In (CEmitEnrollClassEvent es') (l0 ++ CTransaction :: l2) -> False)
      as NE.
    { intros es' I.
      assert (existsb isEmit (l0 ++ CTransaction :: l2) = true) as X.
      { apply existsb_exists. eexists. split; [exact I | reflexivity]. }
      congruence. }
    destruct (fault env CCommit) eqn:FC.
    + intros E. inversion E; subst. right.
      rewrite (since_app w _ ((l0 ++ CTransaction :: l2) ++ [CCommit; CRollback])).
      2: { simpl. rewrite T, <- !app_assoc. reflexivity. }
      unfold commits. rewrite FC, andb_false_r, existsb_app, C2. simpl.
      repeat split; eauto.
    + destruct (fault env (CEmitEnrollClassEvent es)) eqn:FE.
      * intros E. inversion E; subst. left.
        rewrite (since_app w _ ((l0 ++ CTransaction :: l2)
                   ++ [CCommit; CEmitEnrollClassEvent es; CRollback])).
        2: { simpl. rewrite T, <- !app_assoc. reflexivity. }
        split.
        { unfold commits. rewrite FC, existsb_app. simpl. now rewrite orb_true_r. }
        exists v, w1, es, w2. repeat split; auto.
        { right. split; congruence. }
        { apply in_or_app. right. simpl. auto. }
        intros es' I. apply in_app_or in I. destruct I as [I | I].
        { now apply NE in I. }
        destruct I as [I | [I | [I | []]]]; try discriminate. now inversion I.
      * intros E. inversion E; subst. left.
        rewrite (since_app w _ ((l0 ++ CTransaction :: l2)
                   ++ [CCommit; CEmitEnrollClassEvent es])).
        2: { simpl. rewrite T, <- !app_assoc. reflexivity. }
        split.
        { unfold commits. rewrite FC, existsb_app. simpl. now rewrite orb_true_r. }
        exists v, w1, es, w2. repeat split; auto.
        { apply in_or_app. right. simpl. auto. }
        intros es' I. apply in_app_or in I. destruct I as [I | I].
        { now apply NE in I. }
        destruct I as [I | [I | []]]; try discriminate. now inversion I.
  - destruct (run_prefix _ _ _ _ _ EV EB)
      as (l0 & l2 & _ & T & A0 & A2 & _ & S2 & _ & F2).
    destruct (no_commit_before l0 l2 A0 A2) as [C1 C2].
    intros E. inversion E; subst. right.
    rewrite (since_app w _ ((l0 ++ CTransaction :: l2) ++ [CRollback])).
    2: { simpl. rewrite T, <- !app_assoc. reflexivity. }
    unfold commits.
    rewrite (existsb_app isCommit (l0 ++ CTransaction :: l2)),
      (existsb_app isEmit (l0 ++ CTransaction :: l2)), C1, C2.
    simpl. repeat split; eauto.
Qed.

(** When validation and the body only make calls that [P] accepts, and [P]
    accepts the calls around them, every call of a run is accepted. *)
Lemma enrollClass_calls (P : Call -> bool) w :
  respects (Within P eq) (validate env args req) ->
  (forall v, respects (Within P anyTables) (transactionBody env args req v)) ->
  P CTransaction = true -> P CCommit = true -> P CRollback = true ->
  (forall es, P (CEmitEnrollClassEvent es) = true) ->
  forallb P (since w (snd (enrollClass env args req w))) = true.
Proof.
  intros HV HB PT PC PR PE.
  rewrite enrollClass_eq.
  specialize (HV w).
  destruct (validate env args req w) as [[v|e] w1].
  2: { now apply Within_since in HV. }
  destruct HV as (_ & _ & _ & l0 & T0 & A0). simpl in T0.
  destruct (fault env CTransaction).
  { rewrite (since_app w _ (l0 ++ [CTransaction])).
    - now rewrite forallb_snoc, A0, PT.
    - simpl. now rewrite T0, app_assoc. }
  specialize (HB v (begun (record CTransaction w1))).
  destruct (transactionBody env args req v _) as [[es|e] w2];
    destruct HB as (_ & _ & _ & l2 & T2 & A2); simpl in T2.
  - destruct (fault env CCommit); [|destruct (fault env (CEmitEnrollClassEvent es))];
      simpl.
    + rewrite (since_app w _ (l0 ++ CTransaction :: l2 ++ [CCommit; CRollback])).
      * rewrite forallb_app. simpl. rewrite forallb_app. simpl.
        now rewrite A0, PT, A2, PC, PR.
      * simpl. rewrite T2, T0, <- !app_assoc. reflexivity.
    + rewrite (since_app w _ (l0 ++ CTransaction :: l2
                                ++ [CCommit; CEmitEnrollClassEvent es; CRollback])).
      * rewrite forallb_app. simpl. rewrite forallb_app. simpl.
        now rewrite A0, PT, A2, PC, PR, PE.
      * simpl. rewrite T2, T0, <- !app_assoc. reflexivity.
    + rewrite (since_app w _ (l0 ++ CTransaction :: l2
                                ++ [CCommit; CEmitEnrollClassEvent es])).
      * rewrite forallb_app. simpl. rewrite forallb_app. simpl.
        now rewrite A0, PT, A2, PC, PE.
      * simpl. rewrite T2, T0, <- !app_assoc. reflexivity.
  - simpl. rewrite (since_app w _ (l0 ++ CTransaction :: l2 ++ [CRollback])).
    + rewrite forallb_app. simpl. rewrite forallb_app. simpl.
      now rewrite A0, PT, A2, PR.
    + simpl. rewrite T2, T0, <- !app_assoc. reflexivity.
Qed.

(** A projection of the tables that the body leaves alone is the same in
    the store after the run. *)
Lemma enrollClass_frame {A} (f : Tables -> A) w r w' :
  (forall v, respects (Within anyCall (sameOn f)) (transactionBody env args req v)) ->
  enrollClass env args req w = (r, w') ->
  f (store w') = f (store w).
Proof.
  intros HB E.
  destruct (enrollClass_commits w r w' E)
    as [(_ & v & w1 & es & w2 & EV & _ & EB & St & _) | (_ & St & _)].
  - pose proof (respects_run _ _ _ _ _ (HB v) EB) as (_ & _ & Q & _).
    pose proof (respects_run _ _ _ _ _ (validate_within env args req) EV) as (S1 & _).
    unfold sameOn in Q. simpl in Q. now rewrite St, Q, S1.
  - now rewrite St.
Qed.

(** The calls of the body are calls of the run. *)
Lemma body_calls_in_run w v w1 rb w2 r w' c :
  validate env args req w = (Ok v, w1) ->
  fault env CTransaction = None ->
  transactionBody env args req v (begun (record CTransaction w1)) = (rb, w2) ->
  enrollClass env args req w = (r, w') ->
  In c (since (begun (record CTransaction w1)) w2) ->
  In c (since w w').
Proof.
  intros EV FT EB E I.
  destruct (run_prefix _ _ _ _ _ EV EB) as (l0 & l2 & T1 & T & _).
  assert (trace w2 = trace (begun (record CTransaction w1)) ++ l2) as T2.
  { simpl. rewrite T, T1, <- !app_assoc. reflexivity. }
  rewrite (since_app _ _ _ T2) in I.
  assert (exists tl, trace w' = trace w2 ++ tl) as [tl T'].
  { rewrite enrollClass_eq, EV, FT, EB in E.
    destruct rb as [es|e].
    - destruct (fault env CCommit); [|destruct (fault env (CEmitEnrollClassEvent es))];
        inversion E; subst; simpl; rewrite <- ?app_assoc; eauto.
    - inversion E; subst; simpl; eauto. }
  rewrite (since_app w w' ((l0 ++ CTransaction :: l2) ++ tl)).
  2: { rewrite T', T, <- !app_assoc. reflexivity. }
  apply in_or_app. left. apply in_or_app. right. now right.
Qed.

End Runs.

(** ** Failure inside the transaction *)

(** C1.  When validation has passed, the transaction has been opened and a
    step between [try {] and [tx.commit()] fails with error [e] (promotion
    not valid, credit row, paid flag or referral credit, enrollment rows,
    payment capture, transaction record or its link), [e] is the error of
    that step: the invalid promotion, or the error with which the last call
    made has failed.  [enrollClass] then calls [tx.rollback()]: the
    committed tables are those the request started with, whatever the
    failed attempt had staged is dropped, and the transaction is finished
    as rolled back.  When the rollback goes through the request fails with
    [e] itself; when the rollback is rejected, [throw err] is not reached
    and the request fails with the error of the rollback. *)
Theorem enrollClass_failure_rolls_back env args req w v w1 e w2 :
  validate env args req w = (Ok v, w1) ->
  fault env CTransaction = None ->
  transactionBody env args req v (begun (record CTransaction w1)) = (Err e, w2) ->
  Blamed env args (@Err (list Enrollment) e) w2 /\
  exists w',
    enrollClass env args req w =
      (Err (match fault env CRollback with Some e' => e' | None => e end), w') /\
    store w' = store w /\
    staged w' = store w /\
    finished w' = Some FRollback /\
    trace w' = trace w2 ++ [CRollback].
Proof.
  intros V T B. split.
  { destruct v as [[[uid student] k0] klasses]. cbn [transactionBody] in B.
    pose proof (inTransaction_blamed env args req uid student klasses
                  (findMainKlass k0 klasses) (isBundleOf klasses args)
                  (getTotalPriceInCents env klasses (wholeSeries args))
                  (begun (record CTransaction w1))) as O.
    now rewrite B in O. }
  exists (rolledBack w2).
  rewrite enrollClass_eq, V, T, B.
  pose proof (validate_within env args req w) as (S1 & _).
  pose proof (transactionBody_within env args req v (begun (record CTransaction w1)))
    as (S2 & _).
  rewrite V in S1. rewrite B in S2. simpl in *.
  repeat split; congruence.
Qed.

(** ** Validation comes first *)

(** C6.  Each check of lines 88-113 fails the request before
    [sequelize.transaction()] is called: no caller identity gives
    [Unauthorized], a student that is not the caller's gives the empty-result
    error of [findOne], no class found gives [BadRequest], and a requested
    credit above the balance gives [BadRequest].  Whenever validation fails,
    [enrollClass] fails with the same error, no table and no transaction
    state has changed, and the only calls made are balance lookups. *)
Theorem validation_precedes_transaction env args req w :
  (truthy (req_userId req) = None ->
   enrollClass env args req w = (Err (Unauthorized "You must login first"), w)) /\
  (forall uid,
     truthy (req_userId req) = Some uid ->
     find (fun s => (row_id s =? studentId args)%string && (row_parentId s =? uid)%string)
          (students (store w)) = None ->
     enrollClass env args req w = (Err EmptyResultError, w)) /\
  (forall uid student,
     truthy (req_userId req) = Some uid ->
     getStudent args uid w = (Ok student, w) ->
     filter (fun k => existsb (String.eqb (klass_id k)) (classIds args))
            (classes (store w)) = [] ->
     enrollClass env args req w = (Err (BadRequest "invalid classIds"), w)) /\
  (forall uid student,
     truthy (req_userId req) = Some uid ->
     getStudent args uid w = (Ok student, w) ->
     filter (fun k => existsb (String.eqb (klass_id k)) (classIds args))
            (classes (store w)) <> [] ->
     0 < credit args ->
     fault env (CGetBalanceInCents (account_id (parent student))) = None ->
     getBalanceInCents env (store w) (parent student) < credit args ->
     enrollClass env args req w =
       (Err (BadRequest "you do not have enough credit"),
        record (CGetBalanceInCents (account_id (parent student))) w)) /\
  (forall e w',
     validate env args req w = (Err e, w') ->
     enrollClass env args req w = (Err e, w') /\
     store w' = store w /\ staged w' = staged w /\ finished w' = finished w /\
     forallb isBalanceLookup (since w w') = true).
Proof.
  split; [|split; [|split; [|split]]].
  - intros U. rewrite enrollClass_eq. unfold validate. now rewrite U.
  - intros uid U F. rewrite enrollClass_eq. unfold validate. rewrite U.
    unfold bind at 1. unfold getStudent. now rewrite F.
  - intros uid student U G F. rewrite enrollClass_eq. unfold validate. rewrite U.
    unfold bind at 1. rewrite G. unfold bind at 1. unfold findAllClasses, gets.
    now rewrite F.
  - intros uid student U G F C Fb B. now apply insufficient_credit with uid.
  - intros e w' V.
    pose proof (validate_within env args req w) as W. rewrite V in W.
    pose proof (Within_since _ _ _ _ W) as [_ A].
    destruct W as (S1 & S2 & S3 & _). simpl in *.
    rewrite enrollClass_eq, V. repeat split; auto.
Qed.

(** ** The main class *)

Lemma lowest_fold l : forall m,
  let r := fold_left
             (fun mainKlass klass =>
                if level (course klass) <? level (course mainKlass) then klass else mainKlass)
             l m in
  (r = m \/ In r l) /\
  level (course r) <= level (course m) /\
  (forall k, In k l -> level (course r) <= level (course k)).
Proof.
  induction l as [|k l IH]; intros m; simpl.
  - split; [now left | split; [lia | intros k []]].
  - destruct (level (course k) <? level (course m)) eqn:E.
    + apply Z.ltb_lt in E. destruct (IH k) as (I1 & I2 & I3).
      split; [|split].
      * destruct I1 as [-> | I1]; auto.
      * lia.
      * intros k' [<- | K]; auto.
    + apply Z.ltb_ge in E. destruct (IH m) as (I1 & I2 & I3).
      split; [|split].
      * destruct I1 as [-> | I1]; auto.
      * lia.
      * intros k' [<- | K]; [lia | auto].
Qed.



(** ** Enrollment rows and payment capture *)

Lemma sales_app l1 l2 : sales (l1 ++ l2) = sales l1 ++ sales l2.
Proof.
  induction l1 as [|c l1 IH]; simpl; [reflexivity|].
  destruct c; simpl; now rewrite ?IH.
Qed.

Lemma sales_none l : forallb (fun c => negb (isSale c)) l = true -> sales l = [].
Proof.
  induction l as [|c l IH]; simpl; [reflexivity|].
  intros H. apply andb_true_iff in H. destruct H as [H1 H2].
  destruct c; simpl in *; auto; discriminate.
Qed.

Lemma sales_length l : length (sales l) = length (filter isSale l).
Proof.
  induction l as [|c l IH]; simpl; [reflexivity|].
  destruct c; simpl; now rewrite ?IH.
Qed.

Lemma sales_positive l p :
  forallb salePositive l = true -> In p (sales l) -> 0 < p.
Proof.
  induction l as [|c l IH]; simpl; [intros _ []|].
  intros H I. apply andb_true_iff in H. destruct H as [H1 H2].
  destruct c; simpl in *; auto.
  destruct I as [<- | I]; auto. now apply Z.ltb_lt.
Qed.

Lemma assignIds_attrs env rows : forall n,
  map enrollment_attrs (assignIds env n rows) = rows.
Proof.
  induction rows as [|r rows IH]; simpl; intros n; [reflexivity|].
  now rewrite IH.
Qed.

Section Charge.

Variable env : Env.
Variable args : EnrollClassArgs.
Variable req : Request.

Lemma chargeStep_sales priceInCents es w r w' :
  0 < priceInCents ->
  chargeStep env args priceInCents es w = (r, w') ->
  sales (since w w') = [priceInCents].
Proof.
  intros Pos. apply Z.ltb_lt in Pos.
  unfold chargeStep. rewrite Pos.
  unfold TransactionModel_create, addEnrollments, nextId, bind, attempt, gets, take,
    stage, ret.
  destruct (fault env (CSale _ _ _)).
  { intros E. inversion E; subst.
    now rewrite (since_app w _ [CSale priceInCents (paymentMethodNonce args)
                                  (hd "" (classIds args) ++ studentId args)%string]). }
  destruct (fault env (CTransactionCreate _)).
  { intros E. inversion E; subst.
    erewrite since_app; [|simpl; rewrite <- app_assoc; reflexivity].
    reflexivity. }
  cbn [seq record]. destruct (fault env (CAddEnrollments _ _)).
  - intros E. inversion E; subst.
    erewrite since_app; [|simpl; rewrite <- !app_assoc; reflexivity].
    reflexivity.
  - intros E. inversion E; subst.
    erewrite since_app; [|simpl; rewrite <- !app_assoc; reflexivity].
    reflexivity.
Qed.

(** A body that returns [es] has staged exactly the rows [es], one per
    class found; with nothing left to pay it has made no gateway call and
    staged no payment transaction, and otherwise it has made one gateway
    call, for the price that remained after promotion and credit. *)
Lemma body_enrollments uid student klasses mainKlass isBundle priceInCents w es w' :
  inTransaction env args req uid student klasses mainKlass isBundle priceInCents w
    = (Ok es, w') ->
  exists appliedPromo afterPromo wa usedCredit remaining wb,
    promotionStep env args student mainKlass isBundle priceInCents w
      = (Ok (appliedPromo, afterPromo), wa) /\
    creditStep env args uid mainKlass afterPromo wa = (Ok (usedCredit, remaining), wb) /\
    enrollments (staged w') = enrollments (staged w) ++ es /\
    map enrollment_attrs es = enrollmentRows req student klasses appliedPromo usedCredit /\
    (remaining <= 0 ->
     sales (since w w') = [] /\ transactions (staged w') = transactions (staged w)) /\
    (0 < remaining -> sales (since w w') = [remaining]).
Proof.
  intros E. apply inTransaction_Ok_inv in E.
  destruct E as (ap & p1 & wa & uc & p2 & wb & wc & wd & EP & ECr & EF & EB & EC).
  exists ap, p1, wa, uc, p2, wb. split; [exact EP|]. split; [exact ECr|].
  set (both := fun t => (enrollments t, transactions t)).
  assert (Within (fun c => negb (isSale c)) (sameOn both) w wc) as W.
  { eapply Within_trans; [frame | |].
    { eapply respects_run; [|exact EP]. apply promotionStep_within; frame. }
    eapply Within_trans; [frame | |].
    { eapply respects_run; [|exact ECr]. apply creditStep_within; frame. }
    eapply respects_run; [|exact EF]. apply firstPurchaseStep_within; frame. }
  destruct W as (_ & _ & Q & l & T & A). unfold sameOn, both in Q.
  injection Q as Q1 Q2.
  apply sales_none in A.
  rewrite bulkCreate_eq in EB.
  destruct (fault env (CBulkCreate _)); [discriminate|].
  cbv zeta in EB. injection EB as Hes Hwd. symmetry in Hes, Hwd.
  set (rows := enrollmentRows req student klasses ap uc) in *.
  assert (Within anyCall (sameOn enrollments) wd w') as W2.
  { eapply respects_run; [|exact EC]. apply chargeStep_within; frame. }
  destruct W2 as (_ & _ & Q3 & l3 & T3 & _). unfold sameOn in Q3.
  assert (trace wd = trace w ++ l ++ [CBulkCreate rows]) as Td.
  { subst wd. simpl. now rewrite T, app_assoc. }
  assert (enrollments (staged wd) = enrollments (staged w) ++ es) as Ed.
  { subst wd es. simpl. now rewrite Q1. }
  assert (transactions (staged wd) = transactions (staged w)) as Xd.
  { subst wd. simpl. exact Q2. }
  split; [rewrite Q3; exact Ed|]. split.
  { subst es. apply assignIds_attrs. }
  split.
  - intros Z. rewrite (chargeStep_free env args p2 es wd Z) in EC.
    inversion EC; subst w'. split; [|exact Xd].
    rewrite (since_app _ _ _ Td), sales_app, A. reflexivity.
  - intros Pos. pose proof (chargeStep_sales _ _ _ _ _ Pos EC) as Sc.
    rewrite (since_app _ _ _ T3) in Sc.
    rewrite (since_app w w' ((l ++ [CBulkCreate rows]) ++ l3)).
    + now rewrite !sales_app, A, Sc.
    + now rewrite T3, Td, <- !app_assoc.
Qed.

End Charge.

Lemma sales_In l p : In p (sales l) <-> exists n o, In (CSale p n o) l.
Proof.
  induction l as [|c l IH]; simpl.
  - split; [intros [] | intros (n & o & [])].
  - split.
    + intros I.
      assert ((exists n o, c = CSale p n o) \/ In p (sales l)) as [(n & o & ->) | I'].
      { destruct c; simpl in I; auto. destruct I as [<- | I]; eauto. }
      * exists n, o. now left.
      * apply IH in I'. destruct I' as (n & o & I'). exists n, o. now right.
    + intros (n & o & [-> | I]).
      * now left.
      * assert (In p (sales l)) as I' by (apply IH; eauto).
        destruct c; simpl; auto.
Qed.


(** ** The event *)

Section Event.

Variable env : Env.
Variable args : EnrollClassArgs.
Variable req : Request.

(** C7.  When a run has emitted the event with enrollments [es], the
    transaction was committed before the event was emitted, the store holds
    the rows [es] after those it held before (also when the emission itself
    failed, in which case the request fails), and [es] is what a returning
    request returns.  A run whose transaction was not committed, or was
    rolled back, has emitted no event; a request that returns has emitted
    the event. *)
Theorem event_after_commit w r w' :
  enrollClass env args req w = (r, w') ->
  (forall es,
     In (CEmitEnrollClassEvent es) (since w w') ->
     fault env CCommit = None /\
     finished w' = Some FCommit /\
     enrollments (store w') = enrollments (store w) ++ es /\
     (forall l1 l2,
        since w w' = l1 ++ CEmitEnrollClassEvent es :: l2 -> In CCommit l1) /\
     (fault env (CEmitEnrollClassEvent es) = None -> r = Ok es) /\
     (fault env (CEmitEnrollClassEvent es) <> None ->
      r = Err (TransactionFinished FCommit))) /\
  (commits env (since w w') = false -> existsb isEmit (since w w') = false) /\
  (finished w' = Some FRollback -> existsb isEmit (since w w') = false) /\
  (forall es, r = Ok es -> In (CEmitEnrollClassEvent es) (since w w')).
Proof.
  intros E.
  destruct (enrollClass_commits env args req w r w' E)
    as [(C & v & w1 & es0 & w2 & EV & FT & EB & St & Fi & R & IE & U) | (C & St & R & NE)].
  - split; [|split; [|split]].
    + intros es I. apply U in I. subst es.
      unfold commits in C. apply andb_true_iff in C. destruct C as [C1 C2].
      destruct (fault env CCommit) eqn:FC; [discriminate|].
      split; [reflexivity|]. split; [exact Fi|].
      pose proof (respects_run _ _ _ _ _ (validate_within env args req) EV) as (S1 & _).
      destruct v as [[[uid student] k0] klasses].
      pose proof EB as EB0. cbn [transactionBody] in EB0.
      destruct (body_enrollments _ _ _ _ _ _ _ _ _ _ _ _ EB0)
        as (_ & _ & _ & _ & _ & _ & _ & _ & En & _).
      cbn [staged begun record store] in En.
      split; [now rewrite St, En, S1|]. split; [|split].
      * intros l1 l2 L.
        apply existsb_exists in C1. destruct C1 as (c & I & Ic).
        destruct c; try discriminate. clear Ic.
        rewrite L in I. apply in_app_or in I. destruct I as [I | [I | I]]; auto.
        { discriminate. }
        exfalso.
        destruct (Ordered_since _ _ _ _ (enrollClass_ordered env args req w))
          as (_ & A & _).
        rewrite E in A. simpl in A. rewrite L in A.
        apply ascending_split in A. destruct A as [_ A].
        rewrite forallb_forall in A. specialize (A _ I). discriminate.
      * intros FE. destruct R as [R | [_ R]]; [exact R | contradiction].
      * intros FE. destruct R as [-> | [R _]]; [|exact R].
        rewrite enrollClass_eq, EV, FT, EB, FC in E.
        destruct (fault env (CEmitEnrollClassEvent es0)); [discriminate | contradiction].
    + intros X. congruence.
    + intros X. congruence.
    + intros es ->. destruct R as [R | [R _]]; [|discriminate].
      inversion R; subst. exact IE.
  - split; [|split; [|split]].
    + intros es I. exfalso.
      assert (existsb isEmit (since w w') = true) as X.
      { apply existsb_exists. eexists. split; [exact I | reflexivity]. }
      congruence.
    + intros _. exact NE.
    + intros _. exact NE.
    + intros es ->. destruct R as [e R]. discriminate.
Qed.

End Event.

(** ** Requests that go through *)

Section Success.

Variable env : Env.
Variable args : EnrollClassArgs.
Variable req : Request.

Hypothesis no_fault : forall c, fault env c = None.

Lemma chargeStep_succeeds priceInCents es w :
  exists w', chargeStep env args priceInCents es w = (Ok tt, w').
Proof.
  unfold chargeStep.
  destruct (0 <? priceInCents); [|unfold ret; eauto].
  unfold TransactionModel_create, addEnrollments, nextId, bind, attempt, gets, take,
    stage, ret.
  rewrite no_fault. rewrite no_fault. cbn [seq record]. rewrite no_fault. eauto.
Qed.

Lemma body_succeeds uid student klasses mainKlass isBundle priceInCents w :
  (forall pid,
     0 < priceInCents ->
     truthy (promotionId args) = Some pid ->
     getPromotionIfQualified env (store w) pid (parent student) (course mainKlass)
       <> None) ->
  exists es w',
    inTransaction env args req uid student klasses mainKlass isBundle priceInCents w
      = (Ok es, w').
Proof.
  intros HP. rewrite inTransaction_eq.
  assert (exists ap p1 wa,
             promotionStep env args student mainKlass isBundle priceInCents w
               = (Ok (ap, p1), wa)) as (ap & p1 & wa & ->).
  { destruct (Z_le_gt_dec priceInCents 0) as [Le | Gt].
    { rewrite promotionStep_skipped; eauto. }
    destruct (truthy (promotionId args)) as [pid|] eqn:T.
    2: { rewrite promotionStep_skipped; eauto. }
    rewrite (promotionStep_eq env args student mainKlass isBundle priceInCents pid w)
      by (auto; lia).
    rewrite no_fault.
    destruct (getPromotionIfQualified env (store w) pid (parent student)
                (course mainKlass)) as [promo|] eqn:G.
    - cbv zeta. rewrite no_fault. eauto.
    - exfalso. apply (HP pid); auto. lia. }
  assert (exists uc p2 wb,
             creditStep env args uid mainKlass p1 wa = (Ok (uc, p2), wb))
    as (uc & p2 & wb & ->).
  { destruct (Z_le_gt_dec p1 0) as [Le | Gt].
    { rewrite creditStep_skipped; eauto. }
    destruct (Z_le_gt_dec (credit args) 0) as [Le | Gt'].
    { rewrite creditStep_skipped; eauto. }
    rewrite creditStep_eq by lia. cbv zeta. rewrite no_fault. eauto. }
  assert (exists wc, firstPurchaseStep env student mainKlass p2 wb = (Ok tt, wc))
    as (wc & ->).
  { destruct (isRegular (course mainKlass) && negb (paid (parent student))) eqn:R.
    2: { rewrite firstPurchaseStep_skipped; eauto. }
    rewrite firstPurchaseStep_eq by auto. cbv zeta. rewrite no_fault.
    destruct (if 0 <? p2 then truthy (refererId (parent student)) else None);
      [rewrite no_fault|]; eauto. }
  rewrite bulkCreate_eq, no_fault. cbv beta iota zeta.
  match goal with
  | |- context [chargeStep env args p2 ?es ?w0] =>
      destruct (chargeStep_succeeds p2 es w0) as (w' & ->)
  end.
  eauto.
Qed.

End Success.

(** ** Class ids that name no class *)

Section Classes.

Variable env : Env.
Variable args : EnrollClassArgs.
Variable req : Request.

(** C9.  The classes of a request are those of the store whose id is among
    [classIds]; ids that name no class select nothing.  A request that
    returns has created exactly one enrollment row per class found, in that
    order, each for an id that was supplied, and these rows are what the
    store holds in addition.  When the caller is known, the student is the
    caller's, at least one class is found, the credit asked for is within the
    balance, no call fails and the promotion, if one is consulted, qualifies,
    the request returns. *)
Theorem unknown_classIds_ignored w :
  let found := filter (fun k => existsb (String.eqb (klass_id k)) (classIds args))
                      (classes (store w)) in
  (forall es w',
     enrollClass env args req w = (Ok es, w') ->
     map (fun e => e_classId (enrollment_attrs e)) es = map klass_id found /\
     enrollments (store w') = enrollments (store w) ++ es /\
     (forall e, In e es -> In (e_classId (enrollment_attrs e)) (classIds args))) /\
  (forall uid student k0 rest,
     truthy (req_userId req) = Some uid ->
     getStudent args uid w = (Ok student, w) ->
     found = k0 :: rest ->
     credit args <= 0 \/ credit args <= getBalanceInCents env (store w) (parent student) ->
     (forall c, fault env c = None) ->
     (forall pid,
        0 < getTotalPriceInCents env found (wholeSeries args) ->
        truthy (promotionId args) = Some pid ->
        getPromotionIfQualified env (store w) pid (parent student)
          (course (findMainKlass k0 found)) <> None) ->
     exists es w', enrollClass env args req w = (Ok es, w')).
Proof.
  intros found. split.
  - intros es w' E.
    destruct (enrollClass_commits env args req w _ _ E)
      as [(_ & v & w1 & es0 & w2 & EV & FT & EB & St & _ & R & _ & _) | (_ & _ & [e R] & _)];
      [|discriminate].
    destruct R as [R | [R _]]; [|discriminate]. inversion R; subst es0. clear R.
    pose proof (respects_run _ _ _ _ _ (validate_within env args req) EV) as (S1 & _).
    destruct v as [[[uid student] k0] klasses]. cbn [transactionBody] in EB.
    destruct (validate_Ok_inv _ _ _ _ _ _ _ _ _ EV) as (_ & _ & K & _).
    destruct (body_enrollments _ _ _ _ _ _ _ _ _ _ _ _ EB)
      as (ap & _ & _ & uc & _ & _ & _ & _ & En & At & _).
    cbn [staged begun record store] in En.
    assert (map (fun e => e_classId (enrollment_attrs e)) es = map klass_id found) as Ids.
    { rewrite <- (map_map enrollment_attrs e_classId), At. unfold enrollmentRows.
      rewrite map_map. simpl. now rewrite K. }
    split; [exact Ids|]. split; [now rewrite St, En, S1|].
    intros e I.
    assert (In (e_classId (enrollment_attrs e)) (map klass_id found)) as I'.
    { rewrite <- Ids. now apply (in_map (fun e => e_classId (enrollment_attrs e))). }
    apply in_map_iff in I'. destruct I' as (k & <- & Ik).
    apply filter_In in Ik. destruct Ik as [_ Ik].
    apply existsb_exists in Ik. destruct Ik as (i & Ii & Eq).
    apply String.eqb_eq in Eq. now rewrite Eq.
  - intros uid student k0 rest U G F C NF HP.
    assert (exists w1, validate env args req w = (Ok (uid, student, k0, found), w1)
                       /\ store w1 = store w) as (w1 & EV & S1).
    { unfold validate. rewrite U. unfold bind at 1. rewrite G.
      unfold bind at 1. unfold findAllClasses, gets at 1. fold found. rewrite F.
      unfold bind at 1.
      destruct (0 <? credit args) eqn:Cr.
      - apply Z.ltb_lt in Cr. destruct C as [C | C]; [lia|].
        unfold balanceInCents, bind, attempt, gets. rewrite NF. cbn [store record].
        apply Z.ltb_ge in C. rewrite C. unfold ret. eauto.
      - unfold ret. eauto. }
    rewrite enrollClass_eq, EV, NF. cbn [transactionBody].
    destruct (body_succeeds env args req NF uid student found (findMainKlass k0 found)
                (isBundleOf found args)
                (getTotalPriceInCents env found (wholeSeries args))
                (begun (record CTransaction w1))) as (es & w2 & ->).
    { cbn [store begun record]. rewrite S1. exact HP. }
    rewrite !NF. eauto.
Qed.

End Classes.

(** ** Credit *)

Section Credit.

Variable env : Env.
Variable args : EnrollClassArgs.
Variable req : Request.

Lemma creditStep_off uid mainKlass priceInCents :
  credit args <= 0 ->
  creditStep env args uid mainKlass priceInCents = ret (None, priceInCents).
Proof.
  intros C. apply Z.ltb_ge in C. unfold creditStep.
  now rewrite C, andb_false_r.
Qed.

Lemma validate_no_lookup :
  credit args <= 0 ->
  respects (Within noCreditCall eq) (validate env args req).
Proof.
  intros C. apply Z.ltb_ge in C. unfold validate. rewrite C. within.
Qed.

Lemma body_no_purchase_credit v :
  credit args <= 0 ->
  respects (Within noCreditCall (sameOn purchaseCredits)) (transactionBody env args req v).
Proof.
  intros C. destruct v as [[[uid student] k0] klasses].
  unfold transactionBody, inTransaction.
  unfold promotionStep, firstPurchaseStep, chargeStep, promotionIfQualified, increment,
    updatePaid.
  within.
  rewrite creditStep_off by exact C. within.
Qed.

(** C10.  With a requested credit of zero or less: no run looks the balance
    up or creates a [Purchase] credit, and the [Purchase] credits of the
    store are those it held before; validation of a known caller with a
    student of theirs and a class found passes without touching the world;
    and the credit step returns the price it was given and no credit. *)
Theorem nonpositive_credit_skipped :
  credit args <= 0 ->
  (forall w r w',
     enrollClass env args req w = (r, w') ->
     forallb noCreditCall (since w w') = true /\
     purchaseCredits (store w') = purchaseCredits (store w)) /\
  (forall w uid student k0 rest,
     truthy (req_userId req) = Some uid ->
     getStudent args uid w = (Ok student, w) ->
     filter (fun k => existsb (String.eqb (klass_id k)) (classIds args))
            (classes (store w)) = k0 :: rest ->
     validate env args req w = (Ok (uid, student, k0, k0 :: rest), w)) /\
  (forall uid mainKlass priceInCents w,
     creditStep env args uid mainKlass priceInCents w = (Ok (None, priceInCents), w)).
Proof.
  intros C. split; [|split].
  - intros w r w' E. split.
    + pose proof (enrollClass_calls env args req noCreditCall w) as H.
      rewrite E in H. apply H; try reflexivity.
      * now apply validate_no_lookup.
      * intros v. eapply respects_weaken; [| |now apply body_no_purchase_credit]; auto.
        intros; exact I.
    + apply (enrollClass_frame env args req purchaseCredits w r w'); [|exact E].
      intros v. eapply respects_weaken; [| |now apply body_no_purchase_credit]; auto.
  - intros w uid student k0 rest U G F.
    unfold validate. rewrite U. unfold bind at 1. rewrite G.
    unfold bind at 1. unfold findAllClasses, gets at 1. rewrite F.
    apply Z.ltb_ge in C. rewrite C. reflexivity.
  - intros. now apply creditStep_skipped; right.
Qed.

End Credit.


(** ** The first purchase *)

Lemma setPaid_paid aid t a :
  In a (accounts (setPaid aid t)) -> account_id a = aid -> paid a = true.
Proof.
  unfold setPaid. simpl. intros I E. apply in_map_iff in I.
  destruct I as (b & <- & _).
  destruct (account_id b =? aid)%string eqn:B; [reflexivity|].
  simpl in E. apply String.eqb_neq in B. contradiction.
Qed.

Lemma firstPurchaseStep_staged env student mainKlass remaining w w' :
  firstPurchaseStep env student mainKlass remaining w = (Ok tt, w') ->
  staged w' =
    (if isRegular (course mainKlass) && negb (paid (parent student)) then
       match (if 0 <? remaining then truthy (refererId (parent student)) else None) with
       | Some referer =>
           insertCredit
             {| credit_id := mkId env (seq w);
                credit_attrs := referralCredit env student mainKlass referer |}
             (setPaid (account_id (parent student)) (staged w))
       | None => setPaid (account_id (parent student)) (staged w)
       end
     else staged w).
Proof.
  intros E.
  destruct (isRegular (course mainKlass) && negb (paid (parent student))) eqn:F.
  - rewrite firstPurchaseStep_eq in E by exact F. cbv zeta in E.
    destruct (fault env (CUpdatePaid _)); [discriminate|].
    destruct (if 0 <? remaining then truthy (refererId (parent student)) else None).
    + destruct (fault env (CCreditCreate _)); [discriminate|].
      now inversion E.
    + now inversion E.
  - rewrite firstPurchaseStep_skipped in E by exact F. now inversion E.
Qed.

(** The calls of the first-purchase step, by case. *)
Lemma firstPurchaseStep_calls env student mainKlass remaining w r w' :
  firstPurchaseStep env student mainKlass remaining w = (r, w') ->
  since w w' =
    if isRegular (course mainKlass) && negb (paid (parent student)) then
      CUpdatePaid (account_id (parent student)) ::
      match fault env (CUpdatePaid (account_id (parent student))) with
      | Some _ => []
      | None =>
          match (if 0 <? remaining then truthy (refererId (parent student)) else None) with
          | Some referer => [CCreditCreate (referralCredit env student mainKlass referer)]
          | None => []
          end
      end
    else [].
Proof.
  intros E.
  destruct (isRegular (course mainKlass) && negb (paid (parent student))) eqn:F.
  - rewrite firstPurchaseStep_eq in E by exact F. cbv zeta in E.
    destruct (fault env (CUpdatePaid _)).
    { inversion E; subst. now apply since_app. }
    destruct (if 0 <? remaining then truthy (refererId (parent student)) else None).
    + destruct (fault env (CCreditCreate _)); inversion E; subst;
        apply since_app; simpl; now rewrite <- app_assoc.
    + inversion E; subst. now apply since_app.
  - rewrite firstPurchaseStep_skipped in E by exact F. inversion E; subst.
    apply since_app. now rewrite app_nil_r.
Qed.

(** ** What a completed [enrollClass] has written *)

Section Effect.

Variable env : Env.
Variable args : EnrollClassArgs.
Variable req : Request.

Lemma chargeStep_staged priceInCents es w w' :
  chargeStep env args priceInCents es w = (Ok tt, w') ->
  staged w' =
    if 0 <? priceInCents then
      let p := {| transaction_id := mkId env (seq w);
                  transaction_details :=
                    sale env priceInCents (paymentMethodNonce args)
                      (hd "" (classIds args) ++ studentId args)%string |} in
      linkEnrollments (transaction_id p) (map enrollment_id es)
        (insertTransaction p (staged w))
    else staged w.
Proof.
  unfold chargeStep. destruct (0 <? priceInCents).
  - unfold TransactionModel_create, addEnrollments, nextId, bind, attempt, gets, take,
      stage, ret.
    destruct (fault env (CSale _ _ _)); [discriminate|].
    destruct (fault env (CTransactionCreate _)); [discriminate|].
    cbn [seq record transaction_id].
    destruct (fault env (CAddEnrollments _ _)); [discriminate|].
    intros E. inversion E; subst. reflexivity.
  - intros E. inversion E; subst. reflexivity.
Qed.

(** A body that returns has written [bodyWrites], under [Applies]. *)
Lemma body_effect uid student klasses mainKlass isBundle priceInCents w es w' :
  inTransaction env args req uid student klasses mainKlass isBundle priceInCents w
    = (Ok es, w') ->
  exists appliedPromo afterPromo usedCredit remaining bonus saleRecord,
    staged w' =
      bodyWrites student appliedPromo usedCredit
        (isRegular (course mainKlass) && negb (paid (parent student)))
        bonus es saleRecord (staged w) /\
    map enrollment_attrs es = enrollmentRows req student klasses appliedPromo usedCredit /\
    Applies env args uid student mainKlass isBundle priceInCents (store w)
      appliedPromo afterPromo usedCredit remaining bonus saleRecord /\
    sales (since w w') = (if 0 <? remaining then [remaining] else []).
Proof.
  intros E. pose proof (body_enrollments _ _ _ _ _ _ _ _ _ _ _ _ E) as Sl.
  apply inTransaction_Ok_inv in E.
  destruct E as (ap & p1 & wa & uc & p2 & wb & wc & wd & EP & ECr & EF & EB & EC).
  assert (sales (since w w') = (if 0 <? p2 then [p2] else [])) as Sales.
  { destruct Sl as (ap' & p1' & wa' & uc' & p2' & wb' & EP' & ECr' & _ & _ & S0 & S1).
    rewrite EP in EP'. inversion EP'; subst ap' p1' wa'.
    rewrite ECr in ECr'. inversion ECr'; subst uc' p2' wb'.
    destruct (Z.ltb_spec 0 p2) as [Pos|Neg]; [now apply S1 | now apply S0]. }
  clear Sl.
  (* the promotion *)
  assert (staged wa = whenSome ap (fun p => incrementCounts (promotion_id p)) (staged w) /\
          match ap with
          | Some promo =>
              0 < priceInCents /\
              (exists pid, truthy (promotionId args) = Some pid /\
                 getPromotionIfQualified env (store w) pid (parent student)
                   (course mainKlass) = Some promo) /\
              p1 = applyPromo env priceInCents promo isBundle (wholeSeries args)
          | None =>
              (priceInCents <= 0 \/ truthy (promotionId args) = None) /\ p1 = priceInCents
          end) as [Sa Pa].
  { destruct (Z.ltb_spec 0 priceInCents) as [Pos|Neg].
    - destruct (truthy (promotionId args)) as [pid|] eqn:TP.
      + rewrite (promotionStep_eq env args student mainKlass isBundle priceInCents pid w Pos TP)
          in EP.
        destruct (fault env (CGetPromotionIfQualified pid)); [discriminate|].
        destruct (getPromotionIfQualified env (store w) pid _ _) as [promo|] eqn:G;
          [|discriminate].
        cbv zeta in EP. destruct (fault env (CIncrementCounts _)); [discriminate|].
        inversion EP; subst. simpl. repeat split; eauto.
      + rewrite promotionStep_skipped in EP by (now right).
        inversion EP; subst. simpl. auto.
    - rewrite promotionStep_skipped in EP by (left; lia).
      inversion EP; subst. simpl. split; [reflexivity|]. split; [left; lia | reflexivity]. }
  (* the credit *)
  assert (staged wb = whenSome uc insertCredit (staged wa) /\
          match uc with
          | Some c =>
              0 < p1 /\ 0 < credit args /\
              credit_attrs c = purchaseCredit env args uid mainKlass p1 /\
              p2 = result (applyCredit env p1 (credit args))
          | None => (p1 <= 0 \/ credit args <= 0) /\ p2 = p1
          end) as [Sb Pb].
  { destruct (Z.ltb_spec 0 p1) as [Pos|Neg]; [destruct (Z.ltb_spec 0 (credit args)) as [C|C]|].
    - rewrite (creditStep_eq env args uid mainKlass p1 wa Pos C) in ECr.
      cbv zeta in ECr. destruct (fault env (CCreditCreate _)); [discriminate|].
      inversion ECr; subst. simpl. repeat split; auto.
    - rewrite creditStep_skipped in ECr by (right; lia).
      inversion ECr; subst. simpl. split; [reflexivity|]. split; [right; lia | reflexivity].
    - rewrite creditStep_skipped in ECr by (left; lia).
      inversion ECr; subst. simpl. split; [reflexivity|]. split; [left; lia | reflexivity]. }
  (* the first purchase *)
  pose proof (firstPurchaseStep_staged _ _ _ _ _ _ EF) as Sc.
  (* the rows *)
  rewrite bulkCreate_eq in EB.
  destruct (fault env (CBulkCreate _)); [discriminate|].
  cbv zeta in EB. injection EB as Hes Hwd. symmetry in Hes, Hwd.
  assert (staged wd = insertEnrollments es (staged wc)) as Sd.
  { subst wd es. reflexivity. }
  assert (map enrollment_attrs es = enrollmentRows req student klasses ap uc) as At.
  { subst es. apply assignIds_attrs. }
  (* the payment *)
  pose proof (chargeStep_staged _ _ _ _ EC) as Se.
  exists ap, p1, uc, p2.
  exists (if isRegular (course mainKlass) && negb (paid (parent student)) then
            match (if 0 <? p2 then truthy (refererId (parent student)) else None) with
            | Some referer =>
                Some {| credit_id := mkId env (seq wb);
                        credit_attrs := referralCredit env student mainKlass referer |}
            | None => None
            end
          else None).
  exists (if 0 <? p2 then
            Some {| transaction_id := mkId env (seq wd);
                    transaction_details :=
                      sale env p2 (paymentMethodNonce args)
                        (hd "" (classIds args) ++ studentId args)%string |}
          else None).
  split; [|split; [exact At|split; [|exact Sales]]].
  - unfold bodyWrites. rewrite Se, Sd, Sc, Sb, Sa.
    destruct (0 <? p2); destruct (isRegular (course mainKlass) && negb (paid (parent student)));
      try destruct (truthy (refererId (parent student))); reflexivity.
  - unfold Applies. split; [exact Pa|]. split; [exact Pb|]. split.
    + destruct (isRegular (course mainKlass) && negb (paid (parent student)));
        [|now left].
      destruct (Z.ltb_spec 0 p2) as [Pos|Neg]; [|right; left; lia].
      destruct (truthy (refererId (parent student))) as [referer|]; [|now right; right].
      repeat split; eauto.
    + destruct (Z.ltb_spec 0 p2) as [Pos|Neg]; [|exact Neg].
      split; [exact Pos | reflexivity].
Qed.

(** The calls of a run, by the place where it stops: balance lookups;
    then [sequelize.transaction()]; then the calls of the body; then the
    rollback when the body failed, and otherwise the commit, the event when
    the commit went through, and the rollback when either of them failed.
    When the body failed the request fails with the error of the body, or
    with that of the rollback if the rollback was rejected. *)
Lemma enrollClass_trace w r w' :
  enrollClass env args req w = (r, w') ->
  exists l0, forallb isBalanceLookup l0 = true /\
    ((since w w' = l0 /\ finished w' = finished w /\ store w' = store w /\
      exists e, r = Err e) \/
     (since w w' = l0 ++ [CTransaction] /\ finished w' = finished w /\
      fault env CTransaction <> None /\ store w' = store w /\ exists e, r = Err e) \/
     (exists v w1 rb w2 l2 tl,
        validate env args req w = (Ok v, w1) /\
        fault env CTransaction = None /\
        transactionBody env args req v (begun (record CTransaction w1)) = (rb, w2) /\
        since (begun (record CTransaction w1)) w2 = l2 /\
        forallb bodyCall l2 = true /\
        since w w' = l0 ++ CTransaction :: l2 ++ tl /\
        sales tl = [] /\
        ((exists e, rb = Err e /\
                    r = Err (match fault env CRollback with Some e' => e' | None => e end) /\
                    tl = [CRollback] /\
                    finished w' = Some FRollback /\ store w' = store w) \/
         (exists es, rb = Ok es /\ tl = [CCommit; CRollback] /\
                     r = Err (TransactionFinished FCommit) /\
                     fault env CCommit <> None /\
                     finished w' = Some FCommit /\ store w' = store w) \/
         (exists es, rb = Ok es /\
                     tl = [CCommit; CEmitEnrollClassEvent es; CRollback] /\
                     r = Err (TransactionFinished FCommit) /\
                     finished w' = Some FCommit /\ store w' = staged w2) \/
         (exists es, rb = Ok es /\ tl = [CCommit; CEmitEnrollClassEvent es] /\
                     r = Ok es /\
                     finished w' = Some FCommit /\ store w' = staged w2)))).
Proof.
  rewrite enrollClass_eq.
  destruct (validate env args req w) as [[v|e] w1] eqn:EV.
  2: { intros E. inversion E; subst.
       pose proof (validate_within env args req w) as V. rewrite EV in V.
       destruct V as (S & F & _ & l & T & A). simpl in *.
       exists l. split; [exact A|]. left.
       rewrite (since_app _ _ _ T). eauto. }
  destruct (fault env CTransaction) as [e|] eqn:FT.
  { intros E. inversion E; subst.
    pose proof (validate_within env args req w) as V. rewrite EV in V.
    destruct V as (S & F & _ & l & T & A). simpl in *.
    exists l. split; [exact A|]. right. left.
    rewrite (since_app w _ (l ++ [CTransaction])).
    - repeat split; eauto. discriminate.
    - simpl. now rewrite T, app_assoc. }
  destruct (transactionBody env args req v _) as [rb w2] eqn:EB.
  destruct (run_prefix env args req _ _ _ _ _ EV EB)
    as (l0 & l2 & T1 & T2 & A0 & A2 & S1 & S2 & _ & F2).
  assert (since (begun (record CTransaction w1)) w2 = l2) as Sb.
  { apply since_app. simpl. rewrite T2, T1, <- !app_assoc. reflexivity. }
  intros E. exists l0. split; [exact A0|]. right. right.
  exists v, w1, rb, w2, l2.
  destruct rb as [es|e].
  - destruct (fault env CCommit) eqn:FC;
      [|destruct (fault env (CEmitEnrollClassEvent es)) eqn:FE]; inversion E; subst.
    + exists [CCommit; CRollback]. repeat split; auto.
      * apply since_app. simpl. rewrite T2, <- !app_assoc. reflexivity.
      * right. left. exists es. repeat split; auto. discriminate.
    + exists [CCommit; CEmitEnrollClassEvent es; CRollback]. repeat split; auto.
      * apply since_app. simpl. rewrite T2, <- !app_assoc. reflexivity.
      * right. right. left. exists es. repeat split; auto.
    + exists [CCommit; CEmitEnrollClassEvent es]. repeat split; auto.
      * apply since_app. simpl. rewrite T2, <- !app_assoc. reflexivity.
      * right. right. right. exists es. repeat split; auto.
  - inversion E; subst. exists [CRollback]. repeat split; auto.
    + apply since_app. simpl. rewrite T2, <- !app_assoc. reflexivity.
    + left. exists e. repeat split; auto.
Qed.

(** A run either leaves the store as it was and fails, or has committed
    the writes of a body that returned. *)
Lemma run_effect w r w' :
  enrollClass env args req w = (r, w') ->
  (store w' = store w /\ exists e, r = Err e) \/
  exists uid student k0 klasses w1 es appliedPromo afterPromo usedCredit remaining bonus
         saleRecord,
    validate env args req w = (Ok (uid, student, k0, klasses), w1) /\
    (r = Ok es \/ r = Err (TransactionFinished FCommit)) /\
    store w' =
      bodyWrites student appliedPromo usedCredit
        (isRegular (course (findMainKlass k0 klasses)) && negb (paid (parent student)))
        bonus es saleRecord (store w) /\
    map enrollment_attrs es = enrollmentRows req student klasses appliedPromo usedCredit /\
    Applies env args uid student (findMainKlass k0 klasses) (isBundleOf klasses args)
      (getTotalPriceInCents env klasses (wholeSeries args)) (store w)
      appliedPromo afterPromo usedCredit remaining bonus saleRecord /\
    sales (since w w') = (if 0 <? remaining then [remaining] else []).
Proof.
  intros E.
  destruct (enrollClass_trace w r w' E) as (l0 & A0 & [(_ & _ & St & R) | [(_ & _ & _ & St & R) | T]]);
    [left; auto | left; auto |].
  destruct T as (v & w1 & rb & w2 & l2 & tl & EV & FT & EB & T2 & A2 & T & ST & Cases).
  destruct Cases as [(e & -> & -> & _ & _ & St) | [(es & -> & _ & -> & _ & _ & St) | Done]].
  { left. split; [exact St | eauto]. }
  { left. split; [exact St | eauto]. }
  right.
  assert (exists es, rb = Ok es /\ store w' = staged w2 /\
                     (r = Ok es \/ r = Err (TransactionFinished FCommit)))
    as (es & -> & St & R).
  { destruct Done as [(es & -> & _ & -> & _ & St) | (es & -> & _ & -> & _ & St)]; eauto. }
  destruct v as [[[uid student] k0] klasses]. cbn [transactionBody] in EB.
  pose proof (respects_run _ _ _ _ _ (validate_within env args req) EV) as (S1 & _).
  simpl in S1.
  destruct (body_effect _ _ _ _ _ _ _ _ _ EB)
    as (ap & p1 & uc & p2 & bonus & saleRecord & Sw & At & Ap & Sl).
  simpl in Sw, Ap. rewrite S1 in Sw, Ap.
  exists uid, student, k0, klasses, w1, es, ap, p1, uc, p2, bonus, saleRecord.
  split; [exact EV|]. split; [exact R|]. split; [now rewrite St|].
  split; [exact At|]. split; [exact Ap|].
  rewrite T, sales_app. cbn [sales]. rewrite sales_app, <- T2, Sl, ST.
  rewrite (sales_none l0), app_nil_r; [reflexivity|].
  clear - A0. induction l0 as [|c l IH]; [reflexivity|].
  simpl in A0. apply andb_true_iff in A0. destruct A0 as [C A0].
  simpl. rewrite (IH A0), andb_true_r. now destruct c.
Qed.

End Effect.

(** The tables of [bodyWrites], one by one. *)

Lemma bodyWrites_credits student ap uc paidNow bonus es saleRecord t :
  credits (bodyWrites student ap uc paidNow bonus es saleRecord t) =
  credits t ++ match uc with Some c => [c] | None => [] end
            ++ match bonus with Some c => [c] | None => [] end.
Proof.
  destruct ap, uc, paidNow, bonus, saleRecord; simpl;
    rewrite <- ?app_assoc, ?app_nil_r; reflexivity.
Qed.

Lemma bodyWrites_accounts student ap uc paidNow bonus es saleRecord t :
  accounts (bodyWrites student ap uc paidNow bonus es saleRecord t) =
  if paidNow then accounts (setPaid (account_id (parent student)) t) else accounts t.
Proof.
  destruct ap, uc, paidNow, bonus, saleRecord; reflexivity.
Qed.

Lemma bodyWrites_enrollments student ap uc paidNow bonus es saleRecord t :
  enrollments (bodyWrites student ap uc paidNow bonus es saleRecord t) =
  enrollments t ++ es.
Proof.
  destruct ap, uc, paidNow, bonus, saleRecord; reflexivity.
Qed.

Lemma bodyWrites_transactions student ap uc paidNow bonus es saleRecord t :
  transactions (bodyWrites student ap uc paidNow bonus es saleRecord t) =
  transactions t ++ match saleRecord with Some p => [p] | None => [] end /\
  transactionEnrollments (bodyWrites student ap uc paidNow bonus es saleRecord t) =
  transactionEnrollments t ++
  match saleRecord with
  | Some p => map (fun e => (transaction_id p, enrollment_id e)) es
  | None => []
  end.
Proof.
  destruct ap, uc, paidNow, bonus, saleRecord; simpl;
    rewrite ?map_map, ?app_nil_r; split; reflexivity.
Qed.

Lemma bodyWrites_promotions student ap uc paidNow bonus es saleRecord t :
  promotions (bodyWrites student ap uc paidNow bonus es saleRecord t) =
  match ap with
  | Some promo => promotions (incrementCounts (promotion_id promo) t)
  | None => promotions t
  end.
Proof.
  destruct ap, uc, paidNow, bonus, saleRecord; reflexivity.
Qed.

Lemma bodyWrites_catalogue student ap uc paidNow bonus es saleRecord t :
  students (bodyWrites student ap uc paidNow bonus es saleRecord t) = students t /\
  classes (bodyWrites student ap uc paidNow bonus es saleRecord t) = classes t.
Proof.
  destruct ap, uc, paidNow, bonus, saleRecord; split; reflexivity.
Qed.

Lemma validate_same env args req w v w1 v' w1' :
  validate env args req w = (Ok v, w1) ->
  validate env args req w = (Ok v', w1') ->
  v' = v /\ w1' = w1.
Proof.
  intros E E'. rewrite E in E'. now inversion E'.
Qed.

(** ** The price the later steps see *)

Lemma filter_none {A} (f : A -> bool) l :
  forallb (fun c => negb (f c)) l = true -> filter f l = [].
Proof.
  induction l as [|c l IH]; [reflexivity|]. simpl. intros H.
  apply andb_true_iff in H. destruct H as [C H].
  apply negb_true_iff in C. rewrite C. auto.
Qed.

Lemma lookups_accepted (P : Call -> bool) l :
  (forall a, P (CGetBalanceInCents a) = true) ->
  forallb isBalanceLookup l = true -> forallb P l = true.
Proof.
  intros H A. rewrite forallb_forall in *. intros c I. specialize (A c I).
  destruct c; try discriminate. apply H.
Qed.

Section Prices.

Variable env : Env.
Variable args : EnrollClassArgs.
Variable req : Request.

Lemma promotionStep_price student mainKlass isBundle priceInCents w appliedPromo
    afterPromo wa :
  promotionStep env args student mainKlass isBundle priceInCents w
    = (Ok (appliedPromo, afterPromo), wa) ->
  afterPromo = priceAfterPromo env args student mainKlass isBundle (store w) priceInCents.
Proof.
  unfold priceAfterPromo.
  destruct (Z.ltb_spec 0 priceInCents) as [Pos|Neg].
  - destruct (truthy (promotionId args)) as [pid|] eqn:T.
    + rewrite (promotionStep_eq env args student mainKlass isBundle priceInCents pid w Pos T).
      destruct (fault env (CGetPromotionIfQualified pid)); [discriminate|].
      destruct (getPromotionIfQualified env (store w) pid (parent student)
                  (course mainKlass)) as [promo|]; [|discriminate].
      cbv zeta. destruct (fault env (CIncrementCounts _)); [discriminate|].
      intros E. now inversion E.
    + rewrite promotionStep_skipped by (now right). intros E. now inversion E.
  - rewrite promotionStep_skipped by (left; lia). intros E. now inversion E.
Qed.

Lemma creditStep_price uid mainKlass priceInCents w usedCredit remaining wb :
  creditStep env args uid mainKlass priceInCents w = (Ok (usedCredit, remaining), wb) ->
  remaining = priceAfterCredit env args priceInCents.
Proof.
  unfold priceAfterCredit.
  destruct (Z.ltb_spec 0 priceInCents) as [Pos|Neg];
    [destruct (Z.ltb_spec 0 (credit args)) as [C|C]|]; cbn [andb].
  - rewrite (creditStep_eq env args uid mainKlass priceInCents w Pos C). cbv zeta.
    destruct (fault env (CCreditCreate _)); [discriminate|].
    intros E. now inversion E.
  - rewrite creditStep_skipped by (right; lia). intros E. now inversion E.
  - rewrite creditStep_skipped by (left; lia). intros E. now inversion E.
Qed.

Lemma Applies_prices uid student mainKlass isBundle priceInCents t appliedPromo afterPromo
    usedCredit remaining bonus saleRecord :
  Applies env args uid student mainKlass isBundle priceInCents t
    appliedPromo afterPromo usedCredit remaining bonus saleRecord ->
  remaining =
    priceAfterCredit env args
      (priceAfterPromo env args student mainKlass isBundle t priceInCents).
Proof.
  intros (Pa & Pb & _).
  assert (afterPromo = priceAfterPromo env args student mainKlass isBundle t priceInCents)
    as <-.
  { unfold priceAfterPromo. destruct appliedPromo as [promo|].
    - destruct Pa as (Pos & (pid & T & G) & ->). apply Z.ltb_lt in Pos.
      now rewrite Pos, T, G.
    - destruct Pa as ([Neg | T] & ->).
      + apply Z.ltb_ge in Neg. now rewrite Neg.
      + rewrite T. now destruct (0 <? priceInCents). }
  unfold priceAfterCredit. destruct usedCredit as [c|].
  - destruct Pb as (Pos & C & _ & ->). apply Z.ltb_lt in Pos, C. now rewrite Pos, C.
  - destruct Pb as ([Neg | Neg] & ->); apply Z.ltb_ge in Neg; rewrite Neg;
      [reflexivity | now rewrite andb_false_r].
Qed.

(** The calls of the first-purchase step are first-purchase calls, they
    begin [firstPurchaseCalls], and they are all of it when the step
    returns. *)
Lemma firstPurchaseStep_prefix student mainKlass remaining w r w' :
  firstPurchaseStep env student mainKlass remaining w = (r, w') ->
  filter isFirstPurchase (since w w') = since w w' /\
  (exists l, firstPurchaseCalls env student mainKlass remaining = since w w' ++ l) /\
  (r = Ok tt -> since w w' = firstPurchaseCalls env student mainKlass remaining).
Proof.
  intros E. pose proof (firstPurchaseStep_calls _ _ _ _ _ _ _ E) as Calls.
  unfold firstPurchaseCalls. rewrite Calls.
  destruct (isRegular (course mainKlass) && negb (paid (parent student))) eqn:F.
  2: { split; [reflexivity|]. split; [now exists []|reflexivity]. }
  rewrite firstPurchaseStep_eq in E by exact F. cbv zeta in E.
  destruct (fault env (CUpdatePaid _)).
  { inversion E; subst. split; [reflexivity|]. split; [|discriminate].
    eexists. reflexivity. }
  destruct (if 0 <? remaining then truthy (refererId (parent student)) else None).
  - split; [reflexivity|]. split; [|reflexivity].
    exists []. now rewrite app_nil_r.
  - split; [reflexivity|]. split; [|reflexivity].
    exists []. reflexivity.
Qed.

Lemma first_purchase_among (la lf lr : list Call) :
  forallb (fun c => negb (isFirstPurchase c)) la = true ->
  forallb (fun c => negb (isFirstPurchase c)) lr = true ->
  filter isFirstPurchase lf = lf ->
  filter isFirstPurchase (la ++ lf ++ lr) = lf.
Proof.
  intros A R F. rewrite !filter_app, (filter_none _ _ A), (filter_none _ _ R), F.
  apply app_nil_r.
Qed.

Local Abbreviation notFirst := (fun c : Call => negb (isFirstPurchase c)).

(** The first-purchase calls of the body, whatever its outcome: they begin
    [firstPurchaseCalls] for the price after promotion and credit, and are
    all of it when the body returns. *)
Lemma body_first_purchase uid student klasses mainKlass isBundle priceInCents w rb w' :
  inTransaction env args req uid student klasses mainKlass isBundle priceInCents w
    = (rb, w') ->
  let expected :=
    firstPurchaseCalls env student mainKlass
      (priceAfterCredit env args
         (priceAfterPromo env args student mainKlass isBundle (store w) priceInCents)) in
  (exists l, expected = filter isFirstPurchase (since w w') ++ l) /\
  (forall es, rb = Ok es -> filter isFirstPurchase (since w w') = expected).
Proof.
  intros E expected. rewrite inTransaction_eq in E.
  destruct (promotionStep env args student mainKlass isBundle priceInCents w)
    as [[[ap p1]|e] wa] eqn:EP.
  2: { inversion E; subst.
       assert (Within notFirst anyTables w w') as (_ & _ & _ & l & T & A).
       { eapply respects_run; [|exact EP]. apply promotionStep_within; frame. }
       rewrite (since_app _ _ _ T), (filter_none _ _ A).
       split; [now exists expected | discriminate]. }
  assert (Within notFirst anyTables w wa) as (_ & _ & _ & la & Ta & Aa).
  { eapply respects_run; [|exact EP]. apply promotionStep_within; frame. }
  apply promotionStep_price in EP. subst p1.
  destruct (creditStep env args uid mainKlass _ wa) as [[[uc p2]|e] wb] eqn:ECr.
  2: { inversion E; subst.
       assert (Within notFirst anyTables wa w') as (_ & _ & _ & l & T & A).
       { eapply respects_run; [|exact ECr]. apply creditStep_within; frame. }
       rewrite (since_app w w' (la ++ l)) by (now rewrite T, Ta, app_assoc).
       rewrite filter_app, (filter_none _ _ Aa), (filter_none _ _ A).
       split; [now exists expected | discriminate]. }
  assert (Within notFirst anyTables wa wb) as (_ & _ & _ & lb & Tb & Ab).
  { eapply respects_run; [|exact ECr]. apply creditStep_within; frame. }
  apply creditStep_price in ECr. subst p2.
  assert (forallb notFirst (la ++ lb) = true) as Aab by (now rewrite forallb_app, Aa, Ab).
  assert (trace wb = trace w ++ (la ++ lb)) as Tab by (now rewrite Tb, Ta, app_assoc).
  clear Ta Tb Aa Ab.
  destruct (firstPurchaseStep env student mainKlass _ wb) as [rf wc] eqn:EF.
  assert (exists lf, trace wc = trace wb ++ lf /\ since wb wc = lf) as (lf & Tf & Sf).
  { pose proof (respects_run _ _ _ _ _
                  (firstPurchaseStep_within env anyCall anyTables
                     (fun _ => I) (fun _ _ _ _ _ => I) student mainKlass _
                     (fun _ => eq_refl) (fun _ _ => eq_refl)
                     (fun _ _ => I) (fun _ _ _ => I)) EF) as (_ & _ & _ & lf & T & _).
    simpl in T. exists lf. split; [exact T | now apply since_app]. }
  destruct (firstPurchaseStep_prefix _ _ _ _ _ _ EF) as (Ff & (l & Pre) & Pf).
  rewrite Sf in Ff, Pre, Pf.
  destruct rf as [[]|e].
  2: { injection E as Er Ew. subst rb w'.
       rewrite (since_app w wc ((la ++ lb) ++ lf ++ []))
         by (now rewrite app_nil_r, Tf, Tab, <- !app_assoc).
       rewrite (first_purchase_among _ _ [] Aab eq_refl Ff).
       split; [exists l; exact Pre | discriminate]. }
  specialize (Pf eq_refl).
  assert (exists lr, trace w' = trace wc ++ lr /\ forallb notFirst lr = true)
    as (lr & Tr & Ar).
  { destruct (EnrollmentModel_bulkCreate env _ wc) as [[es|e] wd] eqn:EB.
    2: { inversion E; subst.
         assert (Within notFirst anyTables wc w') as (_ & _ & _ & l' & T & A).
         { eapply respects_run; [|exact EB]. apply bulkCreate_within; frame. }
         eauto. }
    assert (Within notFirst anyTables wc wd) as (_ & _ & _ & ld & Td & Ad).
    { eapply respects_run; [|exact EB]. apply bulkCreate_within; frame. }
    destruct (chargeStep env args _ es wd) as [[[]|e] we] eqn:EC; inversion E; subst;
      (assert (Within notFirst anyTables wd w') as (_ & _ & _ & l' & T & A);
       [eapply respects_run; [|exact EC]; apply chargeStep_within; frame|]);
      exists (ld ++ l'); (split; [now rewrite T, Td, app_assoc
                                | now rewrite forallb_app, Ad, A]). }
  rewrite (since_app w w' ((la ++ lb) ++ lf ++ lr))
    by (now rewrite Tr, Tf, Tab, <- !app_assoc).
  rewrite (first_purchase_among _ _ _ Aab Ar Ff), Pf.
  split; [exists []; now rewrite app_nil_r | reflexivity].
Qed.

(** The body makes no promotion call and leaves the promotions alone when
    the price is not positive or no promotion id is given. *)
Lemma body_no_promotion uid student klasses mainKlass isBundle priceInCents :
  priceInCents <= 0 \/ truthy (promotionId args) = None ->
  respects (Within (fun c => negb (isPromotionCall c)) (sameOn promotions))
    (inTransaction env args req uid student klasses mainKlass isBundle priceInCents).
Proof.
  intros H. unfold inTransaction, promotionStep.
  assert ((if 0 <? priceInCents then truthy (promotionId args) else None) = None) as ->.
  { destruct H as [H | ->].
    - apply Z.ltb_ge in H. now rewrite H.
    - now destruct (0 <? priceInCents). }
  unfold creditStep, firstPurchaseStep, chargeStep, updatePaid.
  within.
Qed.

(** What holds of the calls of validation, of the body and of the calls
    around them holds of the calls of the run; what the body leaves alone is
    the same in the store afterwards. *)
Lemma run_calls {A} (P : Call -> bool) (f : Tables -> A) w v w1 r w' :
  validate env args req w = (Ok v, w1) ->
  enrollClass env args req w = (r, w') ->
  respects (Within P (sameOn f)) (transactionBody env args req v) ->
  (forall a, P (CGetBalanceInCents a) = true) ->
  P CTransaction = true -> P CCommit = true -> P CRollback = true ->
  (forall es, P (CEmitEnrollClassEvent es) = true) ->
  forallb P (since w w') = true /\ f (store w') = f (store w).
Proof.
  intros EV E HB PL PT PC PR PE.
  destruct (enrollClass_trace env args req w r w' E)
    as (l0 & A0 & [(T & _ & St & _) | [(T & _ & _ & St & _) | Run]]).
  - rewrite T, St. split; [now apply lookups_accepted | reflexivity].
  - rewrite T, St, forallb_app. simpl.
    rewrite (lookups_accepted P l0 PL A0), PT. auto.
  - destruct Run as (v' & w1' & rb & w2 & l2 & tl & EV' & _ & EB & T2 & _ & T & _ & Cases).
    rewrite EV in EV'. inversion EV'; subst v' w1'. clear EV'.
    pose proof (respects_run _ _ _ _ _ HB EB) as (_ & _ & Q & l & Tl & Al).
    rewrite (since_app _ _ _ Tl) in T2. subst l2.
    pose proof (respects_run _ _ _ _ _ (validate_within env args req) EV) as (S1 & _).
    simpl in S1. unfold sameOn in Q. simpl in Q.
    rewrite T, forallb_app. cbn [forallb]. rewrite forallb_app.
    rewrite (lookups_accepted P l0 PL A0), PT, Al. cbn [andb].
    destruct Cases as [(e & _ & _ & -> & _ & St) | [(es & _ & -> & _ & _ & _ & St)
                      | [(es & _ & -> & _ & _ & St) | (es & _ & -> & _ & _ & St)]]];
      simpl; rewrite ?PC, ?PR, ?PE, St; split; auto; now rewrite ?Q, S1.
Qed.

(** The first-purchase calls of a run. *)
Lemma run_first_purchase w uid student k0 klasses w1 r w' :
  validate env args req w = (Ok (uid, student, k0, klasses), w1) ->
  enrollClass env args req w = (r, w') ->
  let expected :=
    firstPurchaseCalls env student (findMainKlass k0 klasses)
      (remainingPrice env args student k0 klasses (store w)) in
  (exists l, expected = filter isFirstPurchase (since w w') ++ l) /\
  (forall es, r = Ok es -> filter isFirstPurchase (since w w') = expected).
Proof.
  intros EV E expected.
  destruct (enrollClass_trace env args req w r w' E)
    as (l0 & A0 & [(T & _ & _ & e & ->) | [(T & _ & _ & _ & e & ->) | Run]]).
  - rewrite T, (filter_none isFirstPurchase l0).
    + split; [now exists expected | discriminate].
    + now apply lookups_accepted.
  - rewrite T, filter_app, (filter_none isFirstPurchase l0).
    + split; [now exists expected | discriminate].
    + now apply lookups_accepted.
  - destruct Run as (v' & w1' & rb & w2 & l2 & tl & EV' & _ & EB & T2 & _ & T & _ & Cases).
    rewrite EV in EV'. inversion EV'; subst v' w1'. clear EV'.
    cbn [transactionBody] in EB.
    pose proof (respects_run _ _ _ _ _ (validate_within env args req) EV) as (S1 & _).
    simpl in S1.
    destruct (body_first_purchase _ _ _ _ _ _ _ _ _ EB) as [Pre All].
    cbn [store begun record] in Pre, All. rewrite S1, T2 in Pre, All.
    fold (remainingPrice env args student k0 klasses (store w)) in Pre, All.
    fold expected in Pre, All.
    assert (filter isFirstPurchase (since w w') = filter isFirstPurchase l2) as ->.
    { rewrite T, filter_app. cbn [filter isFirstPurchase]. rewrite filter_app.
      rewrite (filter_none isFirstPurchase l0) by (now apply lookups_accepted).
      assert (filter isFirstPurchase tl = []) as ->.
      { destruct Cases as [(e & _ & _ & -> & _) | [(es & _ & -> & _)
                          | [(es & _ & -> & _) | (es & _ & -> & _)]]]; reflexivity. }
      now rewrite app_nil_r. }
    split; [exact Pre|].
    intros es ->.
    destruct Cases as [(e & _ & R & _) | [(es' & _ & _ & R & _)
                      | [(es' & _ & _ & R & _) | (es' & -> & _ & R & _)]]];
      try discriminate.
    now apply (All es').
Qed.

End Prices.

(** ** The promotion *)

Section Promotion.

Variable env : Env.
Variable args : EnrollClassArgs.
Variable req : Request.

(** A body that returns on a positive price with a promotion id has found
    the promotion qualified and has incremented its counter. *)
Lemma body_promotion uid student klasses mainKlass isBundle priceInCents pid w es w' :
  0 < priceInCents ->
  truthy (promotionId args) = Some pid ->
  inTransaction env args req uid student klasses mainKlass isBundle priceInCents w
    = (Ok es, w') ->
  exists promo,
    getPromotionIfQualified env (store w) pid (parent student) (course mainKlass)
      = Some promo /\
    promotions (staged w') = promotions (incrementCounts (promotion_id promo) (staged w)) /\
    In (CIncrementCounts (promotion_id promo)) (since w w').
Proof.
  intros Pos T E.
  apply inTransaction_Ok_inv in E.
  destruct E as (ap & p1 & wa & uc & p2 & wb & wc & wd & EP & ECr & EF & EB & EC).
  rewrite (promotionStep_eq env args student mainKlass isBundle priceInCents pid w Pos T)
    in EP.
  destruct (fault env (CGetPromotionIfQualified pid)); [discriminate|].
  destruct (getPromotionIfQualified env (store w) pid (parent student) (course mainKlass))
    as [promo|]; [|discriminate].
  cbv zeta in EP.
  destruct (fault env (CIncrementCounts (promotion_id promo))); [discriminate|].
  inversion EP; subst. clear EP.
  exists promo. split; [reflexivity|].
  assert (Within anyCall (sameOn promotions)
            (withStaged (incrementCounts (promotion_id promo))
               (record (CIncrementCounts (promotion_id promo))
                  (record (CGetPromotionIfQualified pid) w))) w') as W.
  { eapply Within_trans; [frame | |].
    { eapply respects_run; [|exact ECr]. apply creditStep_within; frame. }
    eapply Within_trans; [frame | |].
    { eapply respects_run; [|exact EF]. apply firstPurchaseStep_within; frame. }
    eapply Within_trans; [frame | |].
    { eapply respects_run; [|exact EB]. apply bulkCreate_within; frame. }
    eapply respects_run; [|exact EC]. apply chargeStep_within; frame. }
  destruct W as (_ & _ & Q & l & Tr & _). simpl in *. split.
  - exact Q.
  - rewrite (since_app w w' ([CGetPromotionIfQualified pid;
                              CIncrementCounts (promotion_id promo)] ++ l)).
    + simpl. auto.
    + rewrite Tr, <- !app_assoc. reflexivity.
Qed.

(** C4, as the code has it.  For a request that passes validation: with a
    truthy [promotionId] and a positive computed price, when
    [getPromotionIfQualified] returns nothing the request fails and nothing
    is committed; unless an earlier call failed, it fails with [BadRequest]
    "promotion ... is not valid", or with the error of the rollback if the
    rollback is rejected.  When the helper returns a promotion, the
    committed [counts] of that promotion is one more than before if and only
    if the transaction commits, the increment is issued at most once in the
    run and, when the transaction commits, exactly for that promotion; a
    request that returns has committed.  When the computed price is not
    positive, or no [promotionId] is given, no run looks a promotion up or
    increments a counter, and the promotions of the store are as they
    were. *)
Theorem promotion_checked_and_counted uid student k0 klasses w w1 r w' :
  validate env args req w = (Ok (uid, student, k0, klasses), w1) ->
  enrollClass env args req w = (r, w') ->
  (forall pid,
     0 < getTotalPriceInCents env klasses (wholeSeries args) ->
     truthy (promotionId args) = Some pid ->
     match getPromotionIfQualified env (store w) pid (parent student)
             (course (findMainKlass k0 klasses)) with
     | None =>
         (exists e, r = Err e) /\
         store w' = store w /\
         (fault env CTransaction = None ->
          fault env (CGetPromotionIfQualified pid) = None ->
          r = Err (match fault env CRollback with
                   | Some e' => e'
                   | None => BadRequest ("promotion " ++ pid ++ " is not valid")%string
                   end))
     | Some promo =>
         promotions (store w') =
           (if commits env (since w w')
            then promotions (incrementCounts (promotion_id promo) (store w))
            else promotions (store w)) /\
         (length (filter isIncrement (since w w')) <= 1)%nat /\
         (commits env (since w w') = true ->
          In (CIncrementCounts (promotion_id promo)) (since w w')) /\
         (forall es, r = Ok es -> commits env (since w w') = true)
     end) /\
  (getTotalPriceInCents env klasses (wholeSeries args) <= 0 \/
   truthy (promotionId args) = None ->
   forallb (fun c => negb (isPromotionCall c)) (since w w') = true /\
   promotions (store w') = promotions (store w)).
Proof.
  intros EV E. split.
  2: { intros Off.
       apply (run_calls env args req (fun c => negb (isPromotionCall c)) promotions
                w (uid, student, k0, klasses) w1 r w' EV E); try reflexivity.
       cbn [transactionBody]. now apply body_no_promotion. }
  intros pid Pos T.
  pose proof (validate_within env args req w) as V. rewrite EV in V.
  destruct V as (S1 & _). simpl in S1.
  destruct (enrollClass_commits env args req w r w' E)
    as [(C & v & w1' & es & w2 & EV' & FT & EB & St & _ & R & _ & _) | (C & St & R & _)].
  - rewrite EV in EV'. inversion EV'; subst v w1'. clear EV'.
    cbn [transactionBody] in EB.
    destruct (body_promotion _ _ _ _ _ _ pid _ _ _ Pos T EB) as (promo & G & Q & I).
    cbn [store staged begun record] in G, Q. rewrite S1 in G, Q. rewrite G, C.
    split; [now rewrite St|]. split; [|split].
    + destruct (Ordered_since _ _ _ _ (enrollClass_ordered env args req w)) as (_ & A & _).
      rewrite E in A. simpl in A.
      apply (ascending_once isIncrement 3%nat) with (lo := 0%nat); auto.
      intros []; simpl; intros; auto; discriminate.
    + intros _.
      eapply body_calls_in_run; eauto.
    + auto.
  - destruct (getPromotionIfQualified env (store w) pid (parent student)
                (course (findMainKlass k0 klasses))) as [promo|] eqn:G.
    + rewrite C. split; [now rewrite St|]. split; [|split].
      * destruct (Ordered_since _ _ _ _ (enrollClass_ordered env args req w))
          as (_ & A & _).
        rewrite E in A. simpl in A.
        apply (ascending_once isIncrement 3%nat) with (lo := 0%nat); auto.
        intros []; simpl; intros; auto; discriminate.
      * discriminate.
      * intros es ->. destruct R as [e R]. discriminate.
    + split; [exact R|]. split; [exact St|].
      intros FT FG.
      rewrite enrollClass_eq, EV, FT in E. cbn [transactionBody] in E.
      rewrite inTransaction_eq in E.
      rewrite (promotionStep_eq env args student _ _ _ pid _ Pos T), FG in E.
      cbn [store begun record] in E. rewrite S1, G in E.
      inversion E. now destruct (fault env CRollback).
Qed.

End Promotion.

(** ** The gateway *)

Section Gateway.

Variable env : Env.
Variable args : EnrollClassArgs.
Variable req : Request.

Lemma run_sales_positive w :
  forallb salePositive (since w (snd (enrollClass env args req w))) = true.
Proof.
  apply enrollClass_calls; try reflexivity.
  - eapply respects_weaken; [| |apply validate_within]; auto.
    intros []; simpl; intros; auto; discriminate.
  - intros v. eapply respects_weaken; [| |apply transactionBody_within]; auto.
    intros []; simpl; intros; auto; discriminate.
Qed.

(** C5.  In every run the gateway is called at most once, and only for a
    positive amount.  With nothing left to pay the charging step does
    nothing.  A body that returns has staged one enrollment row per class
    found; when the price remaining after the promotion and credit steps is
    zero or less it has made no gateway call and staged no payment
    transaction, and otherwise it has made exactly one gateway call, for the
    remaining price.  A request that returns has committed its enrollment
    rows, and no payment transaction when the gateway was not called.  More
    precisely, a request that returns has created one row per class found,
    at least one, and these are the rows now in the store; when the price
    remaining after promotion and credit is zero or less it has not called
    the gateway and the payment transactions and their links are as they
    were, and otherwise it has called the gateway once, for that price, and
    added one payment transaction.  And a request that passes validation
    does return when no call fails and the promotion, if one is looked up,
    is found; so with nothing left to pay the rows are created all the
    same. *)
Theorem gateway_once_for_positive_price :
  (forall w r w',
     enrollClass env args req w = (r, w') ->
     sales (since w w') = [] \/ exists p, sales (since w w') = [p] /\ 0 < p) /\
  (forall priceInCents es w,
     priceInCents <= 0 -> chargeStep env args priceInCents es w = (Ok tt, w)) /\
  (forall uid student klasses mainKlass isBundle priceInCents w es w',
     inTransaction env args req uid student klasses mainKlass isBundle priceInCents w
       = (Ok es, w') ->
     exists appliedPromo afterPromo wa usedCredit remaining wb,
       promotionStep env args student mainKlass isBundle priceInCents w
         = (Ok (appliedPromo, afterPromo), wa) /\
       creditStep env args uid mainKlass afterPromo wa
         = (Ok (usedCredit, remaining), wb) /\
       enrollments (staged w') = enrollments (staged w) ++ es /\
       length es = length klasses /\
       (remaining <= 0 ->
        sales (since w w') = [] /\
        transactions (staged w') = transactions (staged w)) /\
       (0 < remaining -> sales (since w w') = [remaining])) /\
  (forall w es w',
     enrollClass env args req w = (Ok es, w') ->
     enrollments (store w') = enrollments (store w) ++ es /\
     (sales (since w w') = [] -> transactions (store w') = transactions (store w))) /\
  (forall w uid student k0 klasses w1 es w',
     validate env args req w = (Ok (uid, student, k0, klasses), w1) ->
     enrollClass env args req w = (Ok es, w') ->
     let remaining := remainingPrice env args student k0 klasses (store w) in
     es <> [] /\
     map (fun e => e_classId (enrollment_attrs e)) es = map klass_id klasses /\
     enrollments (store w') = enrollments (store w) ++ es /\
     (remaining <= 0 ->
      sales (since w w') = [] /\
      transactions (store w') = transactions (store w) /\
      transactionEnrollments (store w') = transactionEnrollments (store w)) /\
     (0 < remaining ->
      sales (since w w') = [remaining] /\
      length (transactions (store w')) = S (length (transactions (store w))))) /\
  (forall w uid student k0 klasses w1,
     validate env args req w = (Ok (uid, student, k0, klasses), w1) ->
     (forall c, fault env c = None) ->
     (forall pid,
        0 < getTotalPriceInCents env klasses (wholeSeries args) ->
        truthy (promotionId args) = Some pid ->
        getPromotionIfQualified env (store w) pid (parent student)
          (course (findMainKlass k0 klasses)) <> None) ->
     exists es w', enrollClass env args req w = (Ok es, w')).
Proof.
  split; [|split; [|split; [|split; [|split]]]].
  - intros w r w' E.
    pose proof (run_sales_positive w) as Pos.
    destruct (Ordered_since _ _ _ _ (enrollClass_ordered env args req w)) as (_ & A & _).
    rewrite E in Pos, A. simpl in Pos, A.
    assert (length (sales (since w w')) <= 1)%nat as L.
    { rewrite sales_length.
      apply (ascending_once isSale 8%nat) with (lo := 0%nat); auto.
      intros []; simpl; intros; auto; discriminate. }
    destruct (sales (since w w')) as [|p [|q t]] eqn:S; [now left | right | simpl in L; lia].
    exists p. split; [reflexivity|].
    apply (sales_positive _ _ Pos). rewrite S. now left.
  - intros. now apply chargeStep_free.
  - intros uid student klasses mainKlass isBundle priceInCents w es w' E.
    destruct (body_enrollments _ _ _ _ _ _ _ _ _ _ _ _ E)
      as (ap & p1 & wa & uc & p2 & wb & EP & ECr & En & At & Zero & Pos).
    exists ap, p1, wa, uc, p2, wb.
    split; [exact EP|]. split; [exact ECr|]. split; [exact En|].
    split; [|split; [exact Zero | exact Pos]].
    rewrite <- (length_map enrollment_attrs), At. unfold enrollmentRows.
    apply length_map.
  - intros w es w' E.
    destruct (enrollClass_commits env args req w _ _ E)
      as [(_ & v & w1 & es0 & w2 & EV & FT & EB & St & _ & R & _ & _) | (_ & _ & [e R] & _)];
      [|discriminate].
    destruct R as [R | [R _]]; [|discriminate]. inversion R; subst es0. clear R.
    pose proof (respects_run _ _ _ _ _ (validate_within env args req) EV) as (S1 & _).
    destruct v as [[[uid student] k0] klasses]. cbn [transactionBody] in EB.
    destruct (body_enrollments _ _ _ _ _ _ _ _ _ _ _ _ EB)
      as (ap & p1 & wa & uc & p2 & wb & EP & ECr & En & At & Zero & Pos).
    cbn [staged begun record store] in *.
    rewrite St. split; [now rewrite En, S1|].
    intros NoSale.
    destruct (Z_le_gt_dec p2 0) as [Le | Gt].
    + destruct (Zero Le) as [_ X]. now rewrite X, S1.
    + exfalso. assert (0 < p2) as Gt' by lia.
      specialize (Pos Gt').
      assert (In p2 (sales (since (begun (record CTransaction w1)) w2))) as I.
      { rewrite Pos. now left. }
      apply sales_In in I. destruct I as (n & o & I).
      assert (In p2 (sales (since w w'))) as I'.
      { apply sales_In. exists n, o.
        eapply (body_calls_in_run env args req w (uid, student, k0, klasses));
          eauto. }
      now rewrite NoSale in I'.
  - intros w uid student k0 klasses w1 es w' EV E remaining.
    destruct (run_effect env args req w _ w' E) as [(_ & e & R) | Run]; [discriminate|].
    destruct Run as (uid' & student' & k0' & klasses' & w1' & es' & ap & p1 & uc & p2 & bonus
                     & saleRecord & EV' & R & St & At & Ap & Sl).
    destruct (validate_same _ _ _ _ _ _ _ _ EV EV') as [V _].
    inversion V; subst uid' student' k0' klasses'. clear V EV'.
    destruct R as [R | R]; [|discriminate]. injection R as <-.
    pose proof (Applies_prices _ _ _ _ _ _ _ _ _ _ _ _ _ _ Ap) as P2.
    fold (remainingPrice env args student k0 klasses (store w)) in P2.
    fold remaining in P2. subst p2.
    destruct Ap as (_ & _ & _ & Pd).
    destruct (validate_Ok_inv _ _ _ _ _ _ _ _ _ EV) as (_ & _ & _ & (rest & K) & _).
    assert (map (fun e => e_classId (enrollment_attrs e)) es = map klass_id klasses) as Ids.
    { rewrite <- (map_map enrollment_attrs e_classId), At. unfold enrollmentRows.
      rewrite map_map. reflexivity. }
    pose proof (bodyWrites_transactions student ap uc
                  (isRegular (course (findMainKlass k0 klasses))
                   && negb (paid (parent student))) bonus es saleRecord (store w))
      as [X1 X2].
    rewrite <- St in X1, X2.
    split; [|split; [exact Ids|split; [|split]]].
    + intros ->. rewrite K in Ids. discriminate.
    + now rewrite St, bodyWrites_enrollments.
    + intros Le. assert ((0 <? remaining) = false) as N by (now apply Z.ltb_ge).
      rewrite N in Sl. split; [exact Sl|].
      destruct saleRecord as [p|]; [destruct Pd; lia|].
      rewrite app_nil_r in X1, X2. auto.
    + intros Pos. pose proof Pos as Pos'. apply Z.ltb_lt in Pos'.
      rewrite Pos' in Sl. split; [exact Sl|].
      destruct saleRecord as [p|]; [|lia].
      rewrite X1, length_app. simpl. lia.
  - intros w uid student k0 klasses w1 EV NF HP.
    pose proof (respects_run _ _ _ _ _ (validate_within env args req) EV) as (S1 & _).
    simpl in S1.
    rewrite enrollClass_eq, EV, NF. cbn [transactionBody].
    destruct (body_succeeds env args req NF uid student klasses (findMainKlass k0 klasses)
                (isBundleOf klasses args)
                (getTotalPriceInCents env klasses (wholeSeries args))
                (begun (record CTransaction w1))) as (es & w2 & ->).
    { cbn [store begun record]. rewrite S1. exact HP. }
    rewrite !NF. eauto.
Qed.

End Gateway.

(** ** The first purchase, in the run *)

(** C2, as the code has it.  The first-purchase step updates [paid] exactly
    when the main course is regular and the account's [paid] is false,
    whatever the remaining price and the referer; it creates a credit
    exactly when, in addition, the update went through, the remaining price
    is above zero and the account has a [refererId], and that credit is a
    [Referral] credit of the fixed amount for the referer.  When the step
    returns, the staged tables are those before it with [paid] set for the
    account, which then reads true, and with the referral credit appended,
    under the same conditions; the store is untouched.  In every run, the
    calls that come after the gateway call are the transaction record, its
    link, the commit, the event and the rollback: none of this step.
    [enrollClass] runs the step on the main class, the student's account
    and the price that remains of the total after promotion and credit: in
    every run that has passed validation the first-purchase calls made are
    an initial part of [firstPurchaseCalls] for these, and all of it when
    the request returns; every call before one of them is a balance lookup,
    the opening of the transaction, a promotion call, the purchase credit
    or the paid flag, and none after it is a promotion call or the purchase
    credit.  When the request returns, the accounts of the store are those
    before with [paid] set for the account exactly under the first two
    conditions, and the [Referral] credits of the store are those before
    with one more, for the referer, exactly under all four. *)
Theorem paid_flag_and_referral_credit env :
  (forall student mainKlass remaining w r w',
     firstPurchaseStep env student mainKlass remaining w = (r, w') ->
     let first := isRegular (course mainKlass) && negb (paid (parent student)) in
     let owed := if 0 <? remaining then truthy (refererId (parent student)) else None in
     (forall a, In (CUpdatePaid a) (since w w') <->
                first = true /\ a = account_id (parent student)) /\
     (forall attrs,
        In (CCreditCreate attrs) (since w w') <->
        first = true /\
        fault env (CUpdatePaid (account_id (parent student))) = None /\
        0 < remaining /\
        exists referer,
          truthy (refererId (parent student)) = Some referer /\
          attrs = referralCredit env student mainKlass referer) /\
     (forall referer,
        let attrs := referralCredit env student mainKlass referer in
        userId attrs = referer /\ type attrs = Referral /\
        cents attrs = ReferralCredits_purchase env) /\
     (r = Ok tt ->
      staged w' =
        (if first then
           match owed with
           | Some referer =>
               insertCredit
                 {| credit_id := mkId env (seq w);
                    credit_attrs := referralCredit env student mainKlass referer |}
                 (setPaid (account_id (parent student)) (staged w))
           | None => setPaid (account_id (parent student)) (staged w)
           end
         else staged w)) /\
     (r = Ok tt -> first = true ->
      forall a, In a (accounts (staged w')) ->
                account_id a = account_id (parent student) -> paid a = true) /\
     store w' = store w) /\
  (forall args req w r w' l1 p n o l2,
     enrollClass env args req w = (r, w') ->
     since w w' = l1 ++ CSale p n o :: l2 ->
     forallb afterCapture l2 = true /\
     forallb (fun c => negb (isFirstPurchase c)) l2 = true) /\
  (forall args req w uid student k0 klasses w1 r w',
     validate env args req w = (Ok (uid, student, k0, klasses), w1) ->
     enrollClass env args req w = (r, w') ->
     let mainKlass := findMainKlass k0 klasses in
     let remaining := remainingPrice env args student k0 klasses (store w) in
     let first := isRegular (course mainKlass) && negb (paid (parent student)) in
     let owed :=
       if first
       then (if 0 <? remaining then truthy (refererId (parent student)) else None)
       else None in
     (exists l,
        firstPurchaseCalls env student mainKlass remaining =
        filter isFirstPurchase (since w w') ++ l) /\
     (forall l1 c l2,
        since w w' = l1 ++ c :: l2 ->
        isFirstPurchase c = true ->
        forallb (fun d => (phase d <? 6)%nat) l1 = true /\
        forallb (fun d => negb (isPromotionCall d || isPurchaseCredit d)) l2 = true) /\
     (forall es,
        r = Ok es ->
        filter isFirstPurchase (since w w') =
          firstPurchaseCalls env student mainKlass remaining /\
        accounts (store w') =
          (if first then accounts (setPaid (account_id (parent student)) (store w))
           else accounts (store w)) /\
        match owed with
        | Some referer =>
            exists c,
              credit_attrs c = referralCredit env student mainKlass referer /\
              referralCredits (store w') = referralCredits (store w) ++ [c]
        | None => referralCredits (store w') = referralCredits (store w)
        end)).
Proof.
  split; [|split].
  3: { intros args req w uid student k0 klasses w1 r w' EV E mainKlass remaining first owed.
       destruct (run_first_purchase env args req w uid student k0 klasses w1 r w' EV E)
         as [Pre All].
       split; [exact Pre|]. split.
       { intros l1 c l2 L Fc.
         destruct (Ordered_since _ _ _ _ (enrollClass_ordered env args req w))
           as (_ & A & _).
         rewrite E in A. simpl in A. rewrite L in A.
         apply ascending_split in A. destruct A as [A1 A2].
         rewrite forallb_forall in A1, A2.
         assert (5 <= phase c <= 6)%nat as Pc.
         { destruct c; try discriminate; simpl in *; [|lia].
           destruct (type attrs); [discriminate | lia]. }
         split; apply forallb_forall; intros d Id.
         - specialize (A1 d Id). apply Nat.ltb_lt in A1. apply Nat.ltb_lt. lia.
         - specialize (A2 d Id). apply Nat.ltb_lt in A2.
           destruct d; simpl in *; auto; try lia.
           destruct (type attrs); simpl in *; auto; lia. }
       intros es ->. split; [now apply (All es)|].
       destruct (run_effect env args req w _ w' E) as [(_ & e & R) | Run]; [discriminate|].
       destruct Run as (uid' & student' & k0' & klasses' & w1' & es' & ap & p1 & uc & p2
                        & bonus & saleRecord & EV' & _ & St & _ & Ap & _).
       destruct (validate_same _ _ _ _ _ _ _ _ EV EV') as [V _].
       inversion V; subst uid' student' k0' klasses'. clear V EV'.
       pose proof (Applies_prices _ _ _ _ _ _ _ _ _ _ _ _ _ _ Ap) as P2.
       fold (remainingPrice env args student k0 klasses (store w)) in P2.
       fold remaining in P2. subst p2.
       destruct Ap as (_ & Pb & Pc & _).
       fold mainKlass in St, Pc. fold first in St, Pc.
       split; [now rewrite St, bodyWrites_accounts|].
       assert (referralCredits (store w') =
               referralCredits (store w) ++ match bonus with Some c => [c] | None => [] end)
         as Rc.
       { unfold referralCredits. rewrite St, bodyWrites_credits, !filter_app.
         assert (filter (fun c => match type (credit_attrs c) with
                                  | Referral => true | Purchase => false end)
                   match uc with Some c => [c] | None => [] end = []) as ->.
         { destruct uc as [c|]; [|reflexivity].
           destruct Pb as (_ & _ & Ec & _). simpl. rewrite Ec. reflexivity. }
         cbn [app]. f_equal.
         destruct bonus as [c|]; [|reflexivity].
         destruct Pc as (_ & _ & referer & _ & Ec). simpl. rewrite Ec. reflexivity. }
       unfold owed. destruct bonus as [c|].
       - destruct Pc as (F & Pos & referer & T & Ec).
         apply Z.ltb_lt in Pos. rewrite F, Pos, T. exists c. auto.
       - rewrite app_nil_r in Rc.
         destruct first; [|exact Rc].
         destruct Pc as [F | [Neg | T]]; [discriminate | |].
         + apply Z.ltb_ge in Neg. now rewrite Neg.
         + rewrite T. now destruct (0 <? remaining). }
  - intros student mainKlass remaining w r w' E first owed.
    pose proof (firstPurchaseStep_calls _ _ _ _ _ _ _ E) as Calls.
    fold first in Calls.
    split; [|split; [|split; [|split; [|split]]]].
    + intros a. rewrite Calls. destruct first.
      * split.
        { intros [X | X].
          - inversion X. auto.
          - destruct (fault env (CUpdatePaid _)); [destruct X|].
            destruct (if 0 <? remaining then truthy (refererId (parent student))
                      else None); [destruct X as [X | []]; discriminate | destruct X]. }
        intros [_ ->]. now left.
      * split; [intros [] | intros [X _]; discriminate].
    + intros attrs. rewrite Calls. destruct first.
      2: { split; [intros [] | intros [X _]; discriminate]. }
      destruct (fault env (CUpdatePaid _)).
      { split; [intros [X | []]; discriminate | intros (_ & X & _); discriminate]. }
      destruct (0 <? remaining) eqn:Pos.
      2: { apply Z.ltb_ge in Pos.
           split; [intros [X | []]; discriminate | intros (_ & _ & X & _); lia]. }
      apply Z.ltb_lt in Pos.
      destruct (truthy (refererId (parent student))) as [referer|].
      2: { split; [intros [X | []]; discriminate|].
           intros (_ & _ & _ & x & X & _). discriminate. }
      split.
      * intros [X | [X | []]]; [discriminate|]. inversion X.
        repeat split; auto. exists referer. auto.
      * intros (_ & _ & _ & x & X & ->). inversion X. right. now left.
    + intros referer attrs. repeat split.
    + intros ->. now apply firstPurchaseStep_staged.
    + intros -> F a Ia Ea.
      rewrite (firstPurchaseStep_staged _ _ _ _ _ _ E) in Ia.
      fold first in Ia. rewrite F in Ia.
      apply setPaid_paid with (account_id (parent student)) (staged w); auto.
      destruct (if 0 <? remaining then truthy (refererId (parent student)) else None);
        exact Ia.
    + pose proof (respects_run _ _ _ _ _
                    (firstPurchaseStep_within env anyCall anyTables
                       (fun _ => I) (fun _ _ _ _ _ => I) student mainKlass remaining
                       (fun _ => eq_refl) (fun _ _ => eq_refl)
                       (fun _ _ => I) (fun _ _ _ => I)) E) as (S & _).
      exact S.
  - intros args req w r w' l1 p n o l2 E L.
    destruct (Ordered_since _ _ _ _ (enrollClass_ordered env args req w)) as (_ & A & _).
    rewrite E in A. simpl in A. rewrite L in A.
    apply ascending_split in A. destruct A as [_ A].
    rewrite forallb_forall in A.
    split; apply forallb_forall; intros c Ic; specialize (A c Ic);
      apply Nat.ltb_lt in A; simpl in A;
      destruct c; simpl in *; auto; try lia;
      destruct (type attrs); simpl in *; auto; lia.
Qed.

(** * The fixture, run *)

Module Scenarios.

Import Fixture.

(** The card is declined after the credit row, the paid flag, the referral
    credit and the enrollment rows were staged: nothing of it is in the
    store. *)
Lemma rolls_back_when_card_declined :
  validate (env declined) withCredit asAnn world = (Ok amyInOne, lookedUp) /\
  fault (env declined) CTransaction = None /\
  transactionBody (env declined) withCredit asAnn amyInOne opened
    = (Err (Failure "card declined"), declinedAt) /\
  Blamed (env declined) withCredit (@Err (list Enrollment) (Failure "card declined"))
    declinedAt /\
  exists w',
    enrollClass (env declined) withCredit asAnn world
      = (Err (Failure "card declined"), w') /\
    store w' = store world /\
    staged w' = store world /\
    finished w' = Some FRollback /\
    trace w' = trace declinedAt ++ [CRollback].
Proof.
  assert (validate (env declined) withCredit asAnn world = (Ok amyInOne, lookedUp)) as H1
    by (vm_compute; reflexivity).
  assert (fault (env declined) CTransaction = None) as H2 by reflexivity.
  assert (transactionBody (env declined) withCredit asAnn amyInOne opened
          = (Err (Failure "card declined"), declinedAt)) as H3
    by (vm_compute; reflexivity).
  split; [exact H1|]. split; [exact H2|]. split; [exact H3|].
  exact (enrollClass_failure_rolls_back (env declined) withCredit asAnn world
           amyInOne lookedUp (Failure "card declined") declinedAt H1 H2 H3).
Defined.

(** The card is declined and then the rollback is rejected: the caller
    gets the error of the rollback, not the one of the gateway. *)
Lemma rollback_error_replaces_original :
  validate (env declinedAndLost) withCredit asAnn world = (Ok amyInOne, lookedUp) /\
  fst (transactionBody (env declinedAndLost) withCredit asAnn amyInOne opened)
    = Err (Failure "card declined") /\
  fst (enrollClass (env declinedAndLost) withCredit asAnn world)
    = Err (Failure "connection lost") /\
  ~ (fst (enrollClass (env declinedAndLost) withCredit asAnn world)
       = Err (Failure "card declined")).
Proof.
  split; [vm_compute; reflexivity|]. split; [vm_compute; reflexivity|].
  split; [vm_compute; reflexivity|].
  intros H. vm_compute in H. discriminate.
Qed.


(** Promotion p1, used once before three times, has been used four times
    once the request has returned. *)
Lemma promotion_counted :
  validate (env noFault) withPromo asAnn world = (Ok amyInOne, world) /\
  0 < getTotalPriceInCents (env noFault) [kOne] (wholeSeries withPromo) /\
  truthy (promotionId withPromo) = Some "p1" /\
  promotions (store (snd promoted)) =
    [{| promotion_id := "p1"; code := "SAVE10"; counts := 4 |}] /\
  (length (filter isIncrement (since world (snd promoted))) <= 1)%nat /\
  In (CIncrementCounts "p1") (since world (snd promoted)) /\
  validate (env noFault) trialWithUnknownPromo asAnn world
    = (Ok ("ann", amy, kIntro, [kIntro]), world) /\
  getTotalPriceInCents (env noFault) [kIntro] (wholeSeries trialWithUnknownPromo) <= 0 /\
  forallb (fun c => negb (isPromotionCall c)) (since world (snd freeWithUnknownPromo))
    = true /\
  promotions (store (snd freeWithUnknownPromo)) = promotions (store world).
Proof.
  assert (validate (env noFault) withPromo asAnn world = (Ok amyInOne, world)) as H1
    by (vm_compute; reflexivity).
  assert (0 < getTotalPriceInCents (env noFault) [kOne] (wholeSeries withPromo)) as H2
    by (vm_compute; reflexivity).
  assert (truthy (promotionId withPromo) = Some "p1") as H3 by reflexivity.
  assert (enrollClass (env noFault) withPromo asAnn world = (fst promoted, snd promoted))
    as H4 by (vm_compute; reflexivity).
  assert (validate (env noFault) trialWithUnknownPromo asAnn world
          = (Ok ("ann", amy, kIntro, [kIntro]), world)) as H5
    by (vm_compute; reflexivity).
  assert (getTotalPriceInCents (env noFault) [kIntro] (wholeSeries trialWithUnknownPromo)
          <= 0) as H6 by (vm_compute; discriminate).
  assert (enrollClass (env noFault) trialWithUnknownPromo asAnn world
          = (fst freeWithUnknownPromo, snd freeWithUnknownPromo)) as H7
    by (vm_compute; reflexivity).
  split; [exact H1|]. split; [exact H2|]. split; [exact H3|].
  destruct (promotion_checked_and_counted (env noFault) withPromo asAnn
              "ann" amy kOne [kOne] world world (fst promoted) (snd promoted) H1 H4)
    as [T _].
  specialize (T "p1" H2 H3).
  change (getPromotionIfQualified (env noFault) (store world) "p1" (parent amy)
            (course (findMainKlass kOne [kOne]))) with (Some save) in T.
  cbv beta iota in T. destruct T as (T1 & T2 & T3 & _).
  assert (commits (env noFault) (since world (snd promoted)) = true) as C
    by (vm_compute; reflexivity).
  rewrite C in T1. split; [exact T1|]. split; [exact T2|]. split; [exact (T3 C)|].
  split; [exact H5|]. split; [exact H6|].
  destruct (promotion_checked_and_counted (env noFault) trialWithUnknownPromo asAnn
              "ann" amy kIntro [kIntro] world world
              (fst freeWithUnknownPromo) (snd freeWithUnknownPromo) H5 H7)
    as [_ Z0].
  exact (Z0 (or_introl H6)).
Defined.

(** The event bus is down: the request fails, and the enrollment row it
    had committed stays. *)
Lemma committed_though_unannounced :
  enrollClass (env busDown) withPromo asAnn world = (fst unannounced, snd unannounced) /\
  fst unannounced = Err (TransactionFinished FCommit) /\
  finished (snd unannounced) = Some FCommit /\
  exists es,
    In (CEmitEnrollClassEvent es) (since world (snd unannounced)) /\
    enrollments (store (snd unannounced)) = enrollments (store world) ++ es.
Proof.
  assert (enrollClass (env busDown) withPromo asAnn world
          = (fst unannounced, snd unannounced)) as H1 by (vm_compute; reflexivity).
  split; [exact H1|].
  destruct (event_after_commit (env busDown) withPromo asAnn world
              (fst unannounced) (snd unannounced) H1) as (T & _).
  pose (es := assignIds (env busDown) 1
                (enrollmentRows asAnn amy [kOne] (Some save) None)).
  assert (In (CEmitEnrollClassEvent es) (since world (snd unannounced))) as I
    by (vm_compute; auto 20).
  destruct (T es I) as (_ & Fi & En & _ & _ & R).
  split; [|split; [exact Fi|]].
  - apply R. discriminate.
  - exists es. split; [exact I | exact En].
Defined.

(** No credit asked for: no balance lookup, no purchase credit. *)
Lemma no_credit_no_lookup :
  credit withPromo <= 0 /\
  forallb noCreditCall (since world (snd promoted)) = true /\
  purchaseCredits (store (snd promoted)) = purchaseCredits (store world).
Proof.
  assert (credit withPromo <= 0) as H1 by (simpl; lia).
  split; [exact H1|].
  destruct (nonpositive_credit_skipped (env noFault) withPromo asAnn H1) as (T & _).
  apply (T world (fst promoted) (snd promoted)). vm_compute. reflexivity.
Defined.



(** Against C4 as stated: a promotion id that names no promotion, on a
    class that costs nothing.  The promotion is never looked up and the
    request returns. *)
Lemma unknown_promotion_skipped_on_free_class :
  promotionId trialWithUnknownPromo = Some "nope" /\
  getPromotionIfQualified (env noFault) (store world) "nope" ann intro = None /\
  existsb (fun c => match c with CGetPromotionIfQualified _ => true | _ => false end)
          (trace (snd freeWithUnknownPromo)) = false /\
  ~ (exists e, fst freeWithUnknownPromo = Err e).
Proof.
  split; [reflexivity|]. split; [reflexivity|]. split; [reflexivity|].
  intros (e & E). vm_compute in E. discriminate.
Qed.

(** Against C2 as stated: Bob has no referer, and his first regular
    purchase sets [paid] all the same. *)
Lemma paid_set_without_referer :
  refererId bob = None /\
  paid bob = false /\
  In (CUpdatePaid "bob") (trace (snd firstWithoutReferer)) /\
  find (fun a => (account_id a =? "bob")%string) (accounts (store (snd firstWithoutReferer)))
    = Some {| account_id := "bob"; firstName := "Bob"; paid := true; refererId := None |} /\
  ~ (In (CUpdatePaid "bob") (trace (snd firstWithoutReferer)) ->
     isRegular scratch1 = true /\ paid bob = false /\ 0 < 10000 /\
     refererId bob <> None).
Proof.
  assert (In (CUpdatePaid "bob") (trace (snd firstWithoutReferer))) as I
    by (vm_compute; auto).
  split; [reflexivity|]. split; [reflexivity|]. split; [exact I|].
  split; [reflexivity|].
  intros H. destruct (H I) as (_ & _ & _ & R). now apply R.
Qed.

(** Nobody is logged in, or more credit is asked for than Ann has: the
    request stops before any transaction. *)
Lemma stops_at_validation :
  enrollClass (env noFault) withCredit anonymous world
    = (Err (Unauthorized "You must login first"), world) /\
  enrollClass (env noFault) tooMuchCredit asAnn world
    = (Err (BadRequest "you do not have enough credit"), lookedUp).
Proof.
  destruct (validation_precedes_transaction (env noFault) withCredit anonymous world)
    as (T1 & _).
  destruct (validation_precedes_transaction (env noFault) tooMuchCredit asAnn world)
    as (_ & _ & _ & T4 & _).
  split.
  - apply T1. reflexivity.
  - apply (T4 "ann" amy).
    + reflexivity.
    + reflexivity.
    + vm_compute. discriminate.
    + simpl. lia.
    + reflexivity.
    + vm_compute. reflexivity.
Defined.

(** A free class: the enrollment row is committed, the gateway is not
    called and no payment transaction exists. *)
Lemma free_class_is_not_charged :
  validate (env noFault) trialWithCredit asAnn world
    = (Ok ("ann", amy, kIntro, [kIntro]), lookedUp) /\
  remainingPrice (env noFault) trialWithCredit amy kIntro [kIntro] (store world) <= 0 /\
  (exists es,
     fst freeWithCredit = Ok es /\
     es <> [] /\
     map (fun e => e_classId (enrollment_attrs e)) es = map klass_id [kIntro] /\
     enrollments (store (snd freeWithCredit)) = enrollments (store world) ++ es) /\
  sales (since world (snd freeWithCredit)) = [] /\
  transactions (store (snd freeWithCredit)) = transactions (store world) /\
  transactionEnrollments (store (snd freeWithCredit)) = transactionEnrollments (store world).
Proof.
  destruct (gateway_once_for_positive_price (env noFault) trialWithCredit asAnn)
    as (_ & _ & _ & _ & T & _).
  pose (es := assignIds (env noFault) 0 (enrollmentRows asAnn amy [kIntro] None None)).
  assert (validate (env noFault) trialWithCredit asAnn world
          = (Ok ("ann", amy, kIntro, [kIntro]), lookedUp)) as H1
    by (vm_compute; reflexivity).
  assert (enrollClass (env noFault) trialWithCredit asAnn world
          = (Ok es, snd freeWithCredit)) as H by (vm_compute; reflexivity).
  assert (remainingPrice (env noFault) trialWithCredit amy kIntro [kIntro] (store world)
          <= 0) as Le by (vm_compute; discriminate).
  pose proof (T world "ann" amy kIntro [kIntro] lookedUp es (snd freeWithCredit) H1 H)
    as T'.
  cbv zeta in T'. destruct T' as (N & Ids & En & Zero & _).
  destruct (Zero Le) as (S & X1 & X2).
  split; [exact H1|]. split; [exact Le|].
  split; [|split; [exact S | split; [exact X1 | exact X2]]].
  exists es. split; [reflexivity|]. split; [exact N|]. split; [exact Ids | exact En].
Defined.

(** Ids k2, zz and k1: zz names no class, and the request enrolls Amy in
    k2 and k1. *)
Lemma unknown_id_among_three :
  exists es w',
    enrollClass (env noFault) twoAndUnknown asAnn world = (Ok es, w') /\
    map (fun e => e_classId (enrollment_attrs e)) es = ["k2"; "k1"] /\
    enrollments (store w') = enrollments (store world) ++ es.
Proof.
  destruct (unknown_classIds_ignored (env noFault) twoAndUnknown asAnn world) as (T1 & T2).
  destruct (T2 "ann" amy kTwo [kOne]) as (es & w' & E).
  - reflexivity.
  - reflexivity.
  - reflexivity.
  - left. simpl. lia.
  - reflexivity.
  - intros pid _ X. discriminate.
  - exists es, w'. split; [exact E|].
    destruct (T1 es w' E) as (I1 & I2 & _). split; [exact I1 | exact I2].
Defined.

(** Ann's first regular purchase, 9000 cents being left to pay: the step
    sets her paid flag and creates Rae's referral credit; in the whole run
    nothing of the kind comes after the gateway call. *)
Lemma referral_before_capture :
  In (CUpdatePaid "ann")
     (since opened (snd (firstPurchaseStep (env noFault) amy kOne 9000 opened))) /\
  In (CCreditCreate (referralCredit (env noFault) amy kOne "ref"))
     (since opened (snd (firstPurchaseStep (env noFault) amy kOne 9000 opened))) /\
  forallb (fun c => negb (isFirstPurchase c))
    [CTransactionCreate "sale:k1amy"; CAddEnrollments "iii" ["ii"]; CCommit;
     CEmitEnrollClassEvent
       (assignIds (env noFault) 1 (enrollmentRows asAnn amy [kOne] (Some save) None))]
  = true /\
  validate (env noFault) withPromo asAnn world = (Ok amyInOne, world) /\
  enrollClass (env noFault) withPromo asAnn world
    = (Ok (assignIds (env noFault) 1 (enrollmentRows asAnn amy [kOne] (Some save) None)),
       snd promoted) /\
  filter isFirstPurchase (since world (snd promoted)) =
    firstPurchaseCalls (env noFault) amy kOne 9000 /\
  accounts (store (snd promoted)) = accounts (setPaid "ann" (store world)).
Proof.
  destruct (paid_flag_and_referral_credit (env noFault)) as (T1 & T2 & T3).
  destruct (T1 amy kOne 9000 opened
              (fst (firstPurchaseStep (env noFault) amy kOne 9000 opened))
              (snd (firstPurchaseStep (env noFault) amy kOne 9000 opened)))
    as (U & C & _).
  { vm_compute. reflexivity. }
  assert (validate (env noFault) withPromo asAnn world = (Ok amyInOne, world)) as H1
    by (vm_compute; reflexivity).
  assert (enrollClass (env noFault) withPromo asAnn world
          = (Ok (assignIds (env noFault) 1
                   (enrollmentRows asAnn amy [kOne] (Some save) None)),
             snd promoted)) as H2 by (vm_compute; reflexivity).
  split; [|split; [|split; [|split; [exact H1|split; [exact H2|]]]]].
  - apply U. split; reflexivity.
  - apply C. split; [reflexivity|]. split; [reflexivity|]. split; [lia|].
    exists "ref". split; reflexivity.
  - apply (T2 withPromo asAnn world (fst promoted) (snd promoted)
             [CTransaction; CGetPromotionIfQualified "p1"; CIncrementCounts "p1";
              CUpdatePaid "ann";
              CCreditCreate (referralCredit (env noFault) amy kOne "ref");
              CBulkCreate (enrollmentRows asAnn amy [kOne] (Some save) None)]
             9000 (Some "nonce") "k1amy").
    + vm_compute. reflexivity.
    + vm_compute. reflexivity.
  - pose proof (T3 withPromo asAnn world "ann" amy kOne [kOne] world _ (snd promoted)
                  H1 H2) as T'.
    cbv zeta in T'. destruct T' as (_ & _ & All).
    destruct (All _ eq_refl) as (Fl & Ac & _).
    split.
    + rewrite Fl. vm_compute. reflexivity.
    + rewrite Ac. vm_compute. reflexivity.
Defined.

(** A promotion id that names no promotion, on a class that has a price:
    the request fails and the store is as before. *)
Lemma unknown_promotion_fails_on_priced_class :
  fst (enrollClass (env noFault) unknownPromo asAnn world)
    = Err (BadRequest "promotion nope is not valid") /\
  store (snd (enrollClass (env noFault) unknownPromo asAnn world)) = store world.
Proof.
  split; vm_compute; reflexivity.
Qed.

End Scenarios.

(** * [enrollTrial] *)

Section TrialRuns.

Variable env : Env.
Variable args : EnrollTrialArgs.
Variable req : Request.

(** The runs of [enrollTrial], by the place where they stop. *)
Lemma enrollTrial_eq w :
  enrollTrial env args req w =
  match truthy (req_userId req) with
  | None => (Err (Unauthorized "You must login first"), w)
  | Some uid =>
      match getStudent (studentIdVars args) uid w with
      | (Err e, _) => (Err e, w)
      | (Ok student, _) =>
          match find (fun k => (klass_id k =? trial_classId args)%string)
                     (classes (store w)) with
          | None => (Err EmptyResultError, w)
          | Some klass =>
              if isTrial (course klass) then
                let row := trialRow req student klass in
                match fault env (CBulkCreate [row]) with
                | Some e => (Err e, record (CBulkCreate [row]) w)
                | None =>
                    let enrollment :=
                      {| enrollment_id := mkId env (seq w); enrollment_attrs := row |} in
                    let w1 := record (CEmitEnrollClassEvent [enrollment])
                                (withStore (insertEnrollments [enrollment])
                                   (advance 1 (record (CBulkCreate [row]) w))) in
                    match fault env (CEmitEnrollClassEvent [enrollment]) with
                    | Some e => (Err e, w1)
                    | None => (Ok (enrollment, student, klass), w1)
                    end
                end
              else
                (Err (BadRequest
                        "Only introductory class is available for express checkout"), w)
          end
      end
  end.
Proof.
  unfold enrollTrial.
  destruct (truthy (req_userId req)) as [uid|]; [|reflexivity].
  unfold bind at 1.
  pose proof (getStudent_same (studentIdVars args) uid w) as G.
  destruct (getStudent (studentIdVars args) uid w) as [[student|e] w0];
    simpl in G; subst w0; [|reflexivity].
  unfold bind at 1. unfold ClassModel_findByPk.
  destruct (find _ (classes (store w))) as [klass|]; [|reflexivity].
  destruct (isTrial (course klass)); [|reflexivity].
  cbn [negb]. cbv zeta.
  unfold EnrollmentModel_create, emitEnrollClassEvent, nextId, autocommit,
    bind, attempt, gets, take, ret.
  destruct (fault env (CBulkCreate _)); [reflexivity|].
  cbn [seq record].
  destruct (fault env (CEmitEnrollClassEvent _)); reflexivity.
Qed.

End TrialRuns.

(** ** Whose student *)

Lemma getStudent_Ok_inv args uid w student w' :
  getStudent args uid w = (Ok student, w') ->
  w' = w /\
  student_id student = studentId args /\
  parentId student = uid /\
  account_id (parent student) = uid /\
  In {| row_id := student_id student; row_parentId := parentId student;
        row_name := student_name student |} (students (store w)) /\
  find (fun a => (account_id a =? parentId student)%string) (accounts (store w))
    = Some (parent student).
Proof.
  unfold getStudent.
  destruct (find _ (students (store w))) as [s|] eqn:Fs; [|discriminate].
  destruct (find _ (accounts (store w))) as [a|] eqn:Fa; [|discriminate].
  intros E. inversion E; subst. clear E. simpl.
  apply find_some in Fs. destruct Fs as [Is Es].
  apply andb_true_iff in Es. destruct Es as [E1 E2].
  apply String.eqb_eq in E1, E2.
  pose proof (find_some _ _ Fa) as [Ia Ea]. apply String.eqb_eq in Ea.
  repeat split; auto; try congruence.
  destruct s; exact Is.
Qed.

Lemma getStudent_Err_inv args uid w e w' :
  getStudent args uid w = (Err e, w') -> e = EmptyResultError /\ w' = w.
Proof.
  unfold getStudent.
  destruct (find _ (students (store w))) as [s|].
  - destruct (find _ (accounts (store w))) as [a|]; [discriminate|].
    intros E. now inversion E.
  - intros E. now inversion E.
Qed.

(** X4.  A student that [getStudent] returns is the one asked for and the
    caller's: it has the [studentId] of the request and the caller as
    [parentId], and it is a row of the store.  The lookup leaves the world
    as it found it. *)
Theorem getStudent_returns_callers_student args uid w student w' :
  getStudent args uid w = (Ok student, w') ->
  w' = w /\
  student_id student = studentId args /\
  parentId student = uid /\
  In {| row_id := student_id student; row_parentId := parentId student;
        row_name := student_name student |} (students (store w)).
Proof.
  unfold getStudent.
  destruct (find _ (students (store w))) as [row|] eqn:Fs; [|discriminate].
  destruct (find _ (accounts (store w))) as [a|]; [|discriminate].
  intros E. inversion E; subst. clear E. cbn [student_id parentId student_name].
  apply find_some in Fs. destruct Fs as [Is Es].
  apply andb_true_iff in Es. destruct Es as [E1 E2].
  apply String.eqb_eq in E1, E2.
  split; [reflexivity|]. split; [exact E1|]. split; [exact E2|].
  destruct row; exact Is.
Qed.

(** ** What [enrollTrial] refuses *)

(** X1.  [enrollTrial] refuses, without a call or a write: a caller who is
    not logged in; a student who is not the caller's; a class id that names
    no class; and a class whose course is no trial. *)
Theorem enrollTrial_refusals env args req w :
  (truthy (req_userId req) = None ->
   enrollTrial env args req w = (Err (Unauthorized "You must login first"), w)) /\
  (forall uid,
     truthy (req_userId req) = Some uid ->
     (forall row, In row (students (store w)) ->
                  ~ (row_id row = trial_studentId args /\ row_parentId row = uid)) ->
     enrollTrial env args req w = (Err EmptyResultError, w)) /\
  (forall uid,
     truthy (req_userId req) = Some uid ->
     (forall k, In k (classes (store w)) -> klass_id k <> trial_classId args) ->
     enrollTrial env args req w = (Err EmptyResultError, w)) /\
  (forall uid student klass,
     truthy (req_userId req) = Some uid ->
     getStudent (studentIdVars args) uid w = (Ok student, w) ->
     find (fun k => (klass_id k =? trial_classId args)%string) (classes (store w))
       = Some klass ->
     isTrial (course klass) = false ->
     enrollTrial env args req w =
       (Err (BadRequest "Only introductory class is available for express checkout"), w)).
Proof.
  split; [|split; [|split]].
  - intros U. rewrite enrollTrial_eq. now rewrite U.
  - intros uid U N. rewrite enrollTrial_eq, U.
    destruct (getStudent (studentIdVars args) uid w) as [[student|e] w0] eqn:G.
    + exfalso. destruct (getStudent_Ok_inv _ _ _ _ _ G) as (_ & S1 & S2 & _ & S4 & _).
      apply (N _ S4). simpl. split; [exact S1 | exact S2].
    + destruct (getStudent_Err_inv _ _ _ _ _ G) as (-> & _).
      reflexivity.
  - intros uid U N. rewrite enrollTrial_eq, U.
    destruct (getStudent (studentIdVars args) uid w) as [[student|e] w0] eqn:G.
    + destruct (find _ (classes (store w))) as [k|] eqn:F; [|reflexivity].
      exfalso. apply find_some in F. destruct F as [I E].
      apply String.eqb_eq in E. now apply (N k).
    + destruct (getStudent_Err_inv _ _ _ _ _ G) as (-> & _).
      reflexivity.
  - intros uid student klass U G F T. rewrite enrollTrial_eq, U, G, F, T. reflexivity.
Qed.

(** ** What [enrollTrial] writes *)

Lemma since_same w : since w w = [].
Proof.
  unfold since. rewrite skipn_all2; [reflexivity | apply le_n].
Qed.

Ltac quiet :=
  let E := fresh in
  intros E; inversion E; subst; repeat split; left; split; [reflexivity|];
  eexists; split; [reflexivity|]; left; apply since_same.

(** X2.  [enrollTrial] has no transaction to roll back.  A run either fails
    with the store as it was, having made no call but possibly the refused
    insertion; or it has inserted exactly one enrollment row, for a trial
    class, and then announced it.  In the second case the row stays whether
    or not the announcement went through, and when it did not the request
    fails with the announcement's own error. *)
Theorem enrollTrial_writes_one_row env args req w r w' :
  enrollTrial env args req w = (r, w') ->
  staged w' = staged w /\ finished w' = finished w /\
  ((store w' = store w /\
    exists e, r = Err e /\
      (since w w' = [] \/
       exists row, since w w' = [CBulkCreate [row]] /\
                   fault env (CBulkCreate [row]) = Some e))
   \/
   (exists enrollment student klass,
      store w' = insertEnrollments [enrollment] (store w) /\
      enrollment_attrs enrollment = trialRow req student klass /\
      isTrial (course klass) = true /\
      since w w' = [CBulkCreate [trialRow req student klass];
                    CEmitEnrollClassEvent [enrollment]] /\
      r = match fault env (CEmitEnrollClassEvent [enrollment]) with
          | Some e => Err e
          | None => Ok (enrollment, student, klass)
          end)).
Proof.
  rewrite enrollTrial_eq.
  destruct (truthy (req_userId req)) as [uid|]; [|quiet].
  destruct (getStudent (studentIdVars args) uid w) as [[student|e] w0]; [|quiet].
  destruct (find _ (classes (store w))) as [klass|]; [|quiet].
  destruct (isTrial (course klass)) eqn:T; [|quiet].
  cbv zeta.
  destruct (fault env (CBulkCreate [trialRow req student klass])) as [e|] eqn:FB.
  - intros E. inversion E; subst. repeat split. left. split; [reflexivity|].
    exists e. split; [reflexivity|].
    right. exists (trialRow req student klass). split; [|exact FB].
    apply since_app. reflexivity.
  - intros E. repeat split; try (destruct (fault env (CEmitEnrollClassEvent _));
      inversion E; subst; reflexivity).
    right.
    exists {| enrollment_id := mkId env (seq w);
              enrollment_attrs := trialRow req student klass |}, student, klass.
    destruct (fault env (CEmitEnrollClassEvent _)) eqn:FE; inversion E; subst;
      (repeat split; [exact T | apply since_app; simpl; now rewrite <- app_assoc]).
Qed.

(** X3.  With a caller who is logged in, a student of the caller's, a trial
    class under the id given, and neither the insertion nor the announcement
    failing, [enrollTrial] returns.  The enrollment it returns is the row it
    stored: for the student and the class asked for, with the session's
    source and campaign (empty when absent) and neither promotion nor
    credit; nothing else in the store has changed. *)
Theorem enrollTrial_returns env args req w uid student klass :
  truthy (req_userId req) = Some uid ->
  getStudent (studentIdVars args) uid w = (Ok student, w) ->
  find (fun k => (klass_id k =? trial_classId args)%string) (classes (store w))
    = Some klass ->
  isTrial (course klass) = true ->
  (forall c, fault env c = None) ->
  exists enrollment w',
    enrollTrial env args req w = (Ok (enrollment, student, klass), w') /\
    enrollment_attrs enrollment =
      {| e_studentId := trial_studentId args; e_classId := trial_classId args;
         source := orEmpty (utmSource req); campaign := orEmpty (utmCampaign req);
         e_promotionId := None; e_creditId := None |} /\
    parentId student = uid /\
    enrollments (store w') = enrollments (store w) ++ [enrollment] /\
    students (store w') = students (store w) /\
    accounts (store w') = accounts (store w) /\
    classes (store w') = classes (store w) /\
    promotions (store w') = promotions (store w) /\
    credits (store w') = credits (store w) /\
    transactions (store w') = transactions (store w) /\
    transactionEnrollments (store w') = transactionEnrollments (store w).
Proof.
  intros U G F T NF.
  rewrite enrollTrial_eq, U, G, F, T. cbv zeta. rewrite !NF.
  eexists _, _. split; [reflexivity|].
  destruct (getStudent_Ok_inv _ _ _ _ _ G) as (_ & S1 & S2 & _).
  apply find_some in F. destruct F as [_ K]. apply String.eqb_eq in K.
  simpl in S1. simpl. unfold trialRow. rewrite S1, K.
  repeat split; auto.
Qed.

(** ** Promotion and credit on the rows *)

(** X5.  The rows of a completed [enrollClass] all carry the same
    promotion and the same credit.  The credit is the one [Purchase] credit
    that the request has added to the store, for the caller and only when
    credit was asked for; without one the rows carry none and no [Purchase]
    credit was added.  The promotion is the one the helper returned for the
    id in the request, and its counter is the only thing incremented;
    without one the promotions are as they were. *)
Theorem rows_reference_credit_and_promotion env args req w es w' :
  enrollClass env args req w = (Ok es, w') ->
  exists uid student k0 klasses w1 appliedPromo usedCredit,
    validate env args req w = (Ok (uid, student, k0, klasses), w1) /\
    (forall e, In e es ->
       e_promotionId (enrollment_attrs e) = option_map promotion_id appliedPromo /\
       e_creditId (enrollment_attrs e) = option_map credit_id usedCredit) /\
    purchaseCredits (store w') =
      purchaseCredits (store w) ++
      match usedCredit with Some c => [c] | None => [] end /\
    match usedCredit with
    | Some c =>
        0 < credit args /\ userId (credit_attrs c) = uid /\
        type (credit_attrs c) = Purchase
    | None => True
    end /\
    match appliedPromo with
    | Some promo =>
        (exists pid,
           truthy (promotionId args) = Some pid /\
           getPromotionIfQualified env (store w) pid (parent student)
             (course (findMainKlass k0 klasses)) = Some promo) /\
        promotions (store w') =
          promotions (incrementCounts (promotion_id promo) (store w))
    | None => promotions (store w') = promotions (store w)
    end.
Proof.
  intros E.
  destruct (run_effect env args req w _ w' E) as [(_ & e & R) | Run]; [discriminate|].
  destruct Run as (uid & student & k0 & klasses & w1 & es' & ap & p1 & uc & p2 & bonus
                   & saleRecord & EV & R & St & At & (Pa & Pb & Pc & Pd) & _).
  destruct R as [R | R]; [|discriminate]. injection R as <-.
  exists uid, student, k0, klasses, w1, ap, uc.
  split; [exact EV|]. split; [|split; [|split]].
  - intros e I. apply (in_map enrollment_attrs) in I. rewrite At in I.
    unfold enrollmentRows in I. apply in_map_iff in I.
    destruct I as (k & <- & _). simpl. auto.
  - unfold purchaseCredits. rewrite St, bodyWrites_credits, !filter_app.
    assert (filter (fun c => match type (credit_attrs c) with
                             | Purchase => true | Referral => false end)
              match bonus with Some c => [c] | None => [] end = []) as ->.
    { destruct bonus as [c|]; [|reflexivity].
      destruct Pc as (_ & _ & referer & _ & Ec). simpl. rewrite Ec. reflexivity. }
    rewrite app_nil_r. f_equal.
    destruct uc as [c|]; [|reflexivity].
    destruct Pb as (_ & _ & Ec & _). simpl. rewrite Ec. reflexivity.
  - destruct uc as [c|]; [|exact I].
    destruct Pb as (_ & C & Ec & _). rewrite Ec. auto.
  - rewrite St, bodyWrites_promotions.
    destruct ap as [promo|]; [|reflexivity].
    destruct Pa as (_ & Hp & _). auto.
Qed.

(** ** The payment and its record *)

(** X6.  A completed [enrollClass] has either charged nothing and left the
    payment transactions and their links as they were, or it has charged
    once, a positive amount, and has added one payment transaction, holding
    what the gateway returned for that amount, the nonce of the request and
    the order id made of the first class id and the student id, linked to
    every row it returns and to nothing else. *)
Theorem payment_recorded_and_linked env args req w es w' :
  enrollClass env args req w = (Ok es, w') ->
  (sales (since w w') = [] /\
   transactions (store w') = transactions (store w) /\
   transactionEnrollments (store w') = transactionEnrollments (store w))
  \/
  (exists p saleRecord,
     0 < p /\
     sales (since w w') = [p] /\
     transaction_details saleRecord =
       sale env p (paymentMethodNonce args)
         (hd "" (classIds args) ++ studentId args)%string /\
     transactions (store w') = transactions (store w) ++ [saleRecord] /\
     transactionEnrollments (store w') =
       transactionEnrollments (store w) ++
       map (fun e => (transaction_id saleRecord, enrollment_id e)) es).
Proof.
  intros E.
  destruct (run_effect env args req w _ w' E) as [(_ & e & R) | Run]; [discriminate|].
  destruct Run as (uid & student & k0 & klasses & w1 & es' & ap & p1 & uc & p2 & bonus
                   & saleRecord & EV & R & St & At & (Pa & Pb & Pc & Pd) & Sl).
  destruct R as [R | R]; [|discriminate]. injection R as <-.
  pose proof (bodyWrites_transactions student ap uc
                (isRegular (course (findMainKlass k0 klasses))
                 && negb (paid (parent student))) bonus es saleRecord (store w))
    as [X1 X2].
  rewrite <- St in X1, X2.
  destruct saleRecord as [p|].
  - right. destruct Pd as [Pos D]. exists p2, p.
    pose proof Pos as Pos'. apply Z.ltb_lt in Pos'. rewrite Pos' in Sl. auto.
  - left. assert ((0 <? p2) = false) as N by (apply Z.ltb_ge; exact Pd).
    rewrite N in Sl. rewrite app_nil_r in X1, X2. auto.
Qed.

(** X17.  What a completed [enrollClass] charges is the total price of
    the classes found, less the promotion, less the credit, in that order:
    the promotion is applied to the total when the total is positive and a
    promotion id was given, the credit to what is left when that is positive
    and credit was asked for, and the gateway is called, once, for what then
    remains if it is positive, and not at all otherwise. *)
Theorem charge_is_total_less_promotion_less_credit env args req w uid student k0 klasses
    w1 es w' :
  validate env args req w = (Ok (uid, student, k0, klasses), w1) ->
  enrollClass env args req w = (Ok es, w') ->
  let total := getTotalPriceInCents env klasses (wholeSeries args) in
  let asked := if 0 <? total then truthy (promotionId args) else None in
  let found :=
    match asked with
    | Some pid =>
        getPromotionIfQualified env (store w) pid (parent student)
          (course (findMainKlass k0 klasses))
    | None => None
    end in
  let afterPromo :=
    match found with
    | Some promo => applyPromo env total promo (isBundleOf klasses args) (wholeSeries args)
    | None => total
    end in
  let remaining :=
    if (0 <? afterPromo) && (0 <? credit args)
    then result (applyCredit env afterPromo (credit args))
    else afterPromo in
  (asked <> None -> found <> None) /\
  sales (since w w') = (if 0 <? remaining then [remaining] else []).
Proof.
  intros EV E.
  destruct (run_effect env args req w _ w' E) as [(_ & e & R) | Run]; [discriminate|].
  destruct Run as (uid' & student' & k0' & klasses' & w1' & es' & ap & p1 & uc & p2 & bonus
                   & saleRecord & EV' & _ & _ & _ & (Pa & Pb & _ & _) & Sl).
  destruct (validate_same _ _ _ _ _ _ _ _ EV EV') as [V _].
  inversion V; subst uid' student' k0' klasses'. clear V EV'.
  cbv zeta.
  set (total := getTotalPriceInCents env klasses (wholeSeries args)) in *.
  assert (match (if 0 <? total then truthy (promotionId args) else None) with
          | Some pid =>
              getPromotionIfQualified env (store w) pid (parent student)
                (course (findMainKlass k0 klasses))
          | None => None
          end = ap) as ->.
  { destruct ap as [promo|].
    - destruct Pa as (Pos & (pid & T & G) & _). apply Z.ltb_lt in Pos.
      now rewrite Pos, T.
    - destruct Pa as ([Neg | T] & _).
      + apply Z.ltb_ge in Neg. now rewrite Neg.
      + rewrite T. now destruct (0 <? total). }
  assert (match ap with
          | Some promo =>
              applyPromo env total promo (isBundleOf klasses args) (wholeSeries args)
          | None => total
          end = p1) as ->.
  { destruct ap; destruct Pa as (_ & Pa); [destruct Pa as (_ & ->)| subst p1]; reflexivity. }
  assert ((if (0 <? p1) && (0 <? credit args)
           then result (applyCredit env p1 (credit args)) else p1) = p2) as ->.
  { destruct uc as [c|].
    - destruct Pb as (Pos & C & _ & ->). apply Z.ltb_lt in Pos, C. now rewrite Pos, C.
    - destruct Pb as ([Neg | Neg] & ->); apply Z.ltb_ge in Neg; rewrite Neg;
        [reflexivity | now rewrite andb_false_r]. }
  split; [|exact Sl].
  destruct ap as [promo|]; [discriminate|].
  destruct Pa as ([Neg | T] & _).
  - apply Z.ltb_ge in Neg. rewrite Neg. intros N. now contradiction N.
  - rewrite T. destruct (0 <? total); intros N; now contradiction N.
Qed.

(** ** The accounts *)

Lemma Forall2_same {A} (R : A -> A -> Prop) (f : A -> A) l :
  (forall a, R a (f a)) -> Forall2 R l (map f l).
Proof.
  intros H. induction l as [|a l IH]; simpl; constructor; auto.
Qed.

Lemma find_setPaid aid key t :
  find (fun a => (account_id a =? key)%string) (accounts (setPaid aid t)) =
  option_map
    (fun a => if (account_id a =? aid)%string
              then {| account_id := account_id a; firstName := firstName a;
                      paid := true; refererId := refererId a |}
              else a)
    (find (fun a => (account_id a =? key)%string) (accounts t)).
Proof.
  unfold setPaid. cbn [accounts]. induction (accounts t) as [|a l IH]; [reflexivity|].
  cbn [map find]. destruct (account_id a =? aid)%string eqn:Ea; cbn [account_id];
    destruct (account_id a =? key)%string; cbn [option_map]; rewrite ?Ea; auto.
Qed.

(** X7.  Whatever the outcome of [enrollClass], the accounts in the store
    afterwards are the accounts before, in the same order, each with its id,
    first name and referer; nothing but [paid] can differ, and [paid] never
    goes back to false. *)
Theorem accounts_only_gain_paid env args req w r w' :
  enrollClass env args req w = (r, w') ->
  Forall2
    (fun a a' =>
       account_id a' = account_id a /\ firstName a' = firstName a /\
       refererId a' = refererId a /\ (paid a = true -> paid a' = true))
    (accounts (store w)) (accounts (store w')).
Proof.
  intros E.
  assert (forall l : list Account,
            Forall2 (fun a a' =>
                       account_id a' = account_id a /\ firstName a' = firstName a /\
                       refererId a' = refererId a /\ (paid a = true -> paid a' = true))
                    l l) as Same.
  { induction l; constructor; auto. }
  destruct (run_effect env args req w _ w' E) as [(St & _) | Run].
  { rewrite St. apply Same. }
  destruct Run as (uid & student & k0 & klasses & w1 & es' & ap & p1 & uc & p2 & bonus
                   & saleRecord & _ & _ & St & _).
  rewrite St, bodyWrites_accounts.
  destruct (isRegular _ && negb _); [|apply Same].
  unfold setPaid. simpl. apply Forall2_same.
  intros a. destruct (account_id a =? _)%string; simpl; auto.
Qed.

Lemma account_reads_paid uid (regular : bool) (account : Account) t :
  find (fun a => (account_id a =? uid)%string) (accounts t) = Some account ->
  account_id account = uid ->
  regular = true ->
  exists a,
    find (fun a => (account_id a =? uid)%string)
      (if regular && negb (paid account)
       then accounts (setPaid (account_id account) t) else accounts t) = Some a /\
    account_id a = uid /\
    paid a = true.
Proof.
  intros F Ea ->.
  destruct (paid account) eqn:P; cbn [andb negb].
  - exists account. auto.
  - rewrite find_setPaid, F. cbn [option_map]. rewrite Ea, String.eqb_refl.
    eexists. split; [reflexivity|]. simpl. auto.
Qed.

(** X8.  Once [enrollClass] has returned for a main course that is
    regular, the caller's account reads [paid] in the store, whether it was
    paid before or not and whatever was left to pay. *)
Theorem regular_purchase_marks_paid env args req w uid student k0 klasses w1 es w' :
  validate env args req w = (Ok (uid, student, k0, klasses), w1) ->
  isRegular (course (findMainKlass k0 klasses)) = true ->
  enrollClass env args req w = (Ok es, w') ->
  exists a,
    find (fun a => (account_id a =? uid)%string) (accounts (store w')) = Some a /\
    account_id a = uid /\
    paid a = true.
Proof.
  intros EV Reg E.
  destruct (run_effect env args req w _ w' E) as [(_ & e & R) | Run]; [discriminate|].
  destruct Run as (uid' & student' & k0' & klasses' & w1' & es' & ap & p1 & uc & p2 & bonus
                   & saleRecord & EV' & _ & St & _).
  destruct (validate_same _ _ _ _ _ _ _ _ EV EV') as [V _].
  inversion V; subst uid' student' k0' klasses'. clear V EV'.
  destruct (validate_Ok_inv _ _ _ _ _ _ _ _ _ EV) as (_ & G & _).
  destruct (getStudent_Ok_inv _ _ _ _ _ G) as (_ & _ & S2 & S3 & _ & F).
  rewrite S2 in F.
  rewrite St, bodyWrites_accounts.
  now apply account_reads_paid.
Qed.

(** X16.  The referral bonus is given once.  After [enrollClass] has
    returned for a main course that is regular, no later request of the
    same caller, whatever it asks for and however it ends, adds a
    [Referral] credit or changes an account, as long as it starts from the
    store the first one left. *)
Theorem referral_bonus_only_once env args req w uid student k0 klasses w1 es w'
    env2 args2 req2 w2 r2 w3 :
  validate env args req w = (Ok (uid, student, k0, klasses), w1) ->
  isRegular (course (findMainKlass k0 klasses)) = true ->
  enrollClass env args req w = (Ok es, w') ->
  store w2 = store w' ->
  truthy (req_userId req2) = Some uid ->
  enrollClass env2 args2 req2 w2 = (r2, w3) ->
  referralCredits (store w3) = referralCredits (store w2) /\
  accounts (store w3) = accounts (store w2).
Proof.
  intros EV Reg E S2 U2 E2.
  assert (exists a,
            find (fun a => (account_id a =? uid)%string) (accounts (store w')) = Some a /\
            paid a = true) as (a & Fa & Pa).
  { destruct (run_effect env args req w _ w' E) as [(_ & e & R) | Run]; [discriminate|].
    destruct Run as (uid' & student' & k0' & klasses' & wv' & es' & ap & p1 & uc & p2
                     & bonus & saleRecord & EV' & _ & St & _).
    destruct (validate_same _ _ _ _ _ _ _ _ EV EV') as [V _].
    inversion V; subst uid' student' k0' klasses'. clear V EV'.
    destruct (validate_Ok_inv _ _ _ _ _ _ _ _ _ EV) as (_ & G & _).
    destruct (getStudent_Ok_inv _ _ _ _ _ G) as (_ & _ & P1 & P3 & _ & F).
    rewrite P1 in F.
    destruct (account_reads_paid uid _ _ _ F P3 Reg) as (a & Fa & _ & Pa).
    exists a. rewrite St, bodyWrites_accounts. auto. }
  destruct (run_effect env2 args2 req2 w2 _ w3 E2) as [(St & _) | Run].
  { now rewrite St. }
  destruct Run as (uid2 & student2 & k2 & klasses2 & wv & es2 & ap & p1 & uc & p2 & bonus
                   & saleRecord & EV2 & _ & St & _ & (_ & Pb & Pc & _) & _).
  destruct (validate_Ok_inv _ _ _ _ _ _ _ _ _ EV2) as (U & G & _).
  rewrite U2 in U. injection U as <-.
  destruct (getStudent_Ok_inv _ _ _ _ _ G) as (_ & _ & P2 & _ & _ & F2).
  rewrite P2, S2, Fa in F2. injection F2 as Ea.
  assert (isRegular (course (findMainKlass k2 klasses2)) && negb (paid (parent student2))
          = false) as Off
    by (rewrite <- Ea, Pa; apply andb_false_r).
  rewrite Off in St.
  split.
  - unfold referralCredits. rewrite St, bodyWrites_credits, !filter_app.
    destruct bonus as [c|].
    { destruct Pc as (On & _). rewrite Off in On. discriminate. }
    destruct uc as [c|]; [|now rewrite !app_nil_r].
    destruct Pb as (_ & _ & Ec & _). simpl. rewrite Ec. simpl.
    now rewrite !app_nil_r.
  - now rewrite St, bodyWrites_accounts.
Qed.

(** ** Credit and balance *)

(** X9.  When the pricing rule never uses more credit than it is offered,
    no run of [enrollClass] leaves in the store a [Purchase] credit that was
    not there before, unless it is the caller's and debits no more than the
    credit asked for, which is no more than the balance that was read
    before the transaction. *)
Theorem credit_spent_within_balance env args req w uid student k0 klasses w1 r w' :
  (forall price requested,
     0 < price -> 0 < requested -> used (applyCredit env price requested) <= requested) ->
  validate env args req w = (Ok (uid, student, k0, klasses), w1) ->
  enrollClass env args req w = (r, w') ->
  forall c,
    In c (purchaseCredits (store w')) ->
    In c (purchaseCredits (store w)) \/
    (userId (credit_attrs c) = uid /\
     - cents (credit_attrs c) <= credit args /\
     credit args <= getBalanceInCents env (store w) (parent student)).
Proof.
  intros Rule EV E c I.
  destruct (run_effect env args req w _ w' E) as [(St & _) | Run].
  { left. now rewrite <- St. }
  destruct Run as (uid' & student' & k0' & klasses' & w1' & es' & ap & p1 & uc & p2 & bonus
                   & saleRecord & EV' & _ & St & _ & (_ & Pb & Pc & _) & _).
  destruct (validate_same _ _ _ _ _ _ _ _ EV EV') as [V _].
  inversion V; subst uid' student' k0' klasses'. clear V EV'.
  unfold purchaseCredits in I. rewrite St, bodyWrites_credits, !filter_app in I.
  apply in_app_or in I. destruct I as [I | I]; [now left|].
  apply in_app_or in I. destruct I as [I | I].
  - right. destruct uc as [c0|]; [|contradiction].
    apply filter_In in I. destruct I as [[<- | []] _].
    destruct Pb as (Pos & C & -> & _). simpl.
    split; [reflexivity|].
    destruct (validate_Ok_inv _ _ _ _ _ _ _ _ _ EV) as (_ & _ & _ & _ & [(N & _) | B]);
      [lia|].
    destruct B as (_ & _ & B & _).
    pose proof (Rule p1 (credit args) Pos C). split; [lia | exact B].
  - exfalso. destruct bonus as [c0|]; [|contradiction].
    apply filter_In in I. destruct I as [[<- | []] T].
    destruct Pc as (_ & _ & referer & _ & Ec). rewrite Ec in T. discriminate.
Qed.

(** ** The transaction is always finished *)

(** X10.  No run of [enrollClass] leaves its transaction open.  Without a
    transaction there is neither commit nor rollback.  Once
    [sequelize.transaction()] has returned, the transaction is finished when
    the request ends: a request that returns has committed and has not
    rolled back, and a request that fails has called rollback last. *)
Theorem transaction_never_left_open env args req w r w' :
  enrollClass env args req w = (r, w') ->
  (In CTransaction (since w w') /\ fault env CTransaction = None ->
   finished w' <> None /\
   match r with
   | Ok _ => In CCommit (since w w') /\ ~ In CRollback (since w w')
   | Err _ => exists l, since w w' = l ++ [CRollback]
   end) /\
  (~ (In CTransaction (since w w') /\ fault env CTransaction = None) ->
   finished w' = finished w /\ store w' = store w /\
   ~ In CCommit (since w w') /\ ~ In CRollback (since w w') /\
   exists e, r = Err e).
Proof.
  intros E.
  assert (forall l c, forallb isBalanceLookup l = true -> In c l -> isBalanceLookup c = true)
    as Look.
  { intros l c A I. rewrite forallb_forall in A. auto. }
  assert (forall l c, forallb bodyCall l = true -> In c l -> bodyCall c = true)
    as Body.
  { intros l c A I. rewrite forallb_forall in A. auto. }
  destruct (enrollClass_trace env args req w r w' E)
    as (l0 & A0 & [(T & F & St & R) | [(T & F & FT & St & R) | Run]]).
  - split.
    + intros [I _]. rewrite T in I. apply (Look _ _ A0) in I. discriminate.
    + intros _. rewrite T. repeat split; auto; intros I; apply (Look _ _ A0) in I;
        discriminate.
  - split.
    + intros [_ N]. contradiction.
    + intros _. rewrite T. repeat split; auto; intros I; apply in_app_or in I;
        destruct I as [I | [I | []]]; try discriminate; apply (Look _ _ A0) in I;
        discriminate.
  - destruct Run as (v & w1 & rb & w2 & l2 & tl & EV & FT & EB & T2 & A2 & T & _ & Cases).
    split.
    2: { intros N. exfalso. apply N. split; [|exact FT].
         rewrite T. apply in_or_app. right. now left. }
    intros _.
    assert (forall c, In c (l0 ++ CTransaction :: l2) ->
                      c <> CCommit /\ c <> CRollback) as Early.
    { intros c I. apply in_app_or in I. destruct I as [I | [<- | I]].
      - apply (Look _ _ A0) in I. split; intros ->; discriminate.
      - split; discriminate.
      - apply (Body _ _ A2) in I. split; intros ->; discriminate. }
    replace (l0 ++ CTransaction :: l2 ++ tl) with ((l0 ++ CTransaction :: l2) ++ tl) in T
      by (rewrite <- app_assoc; reflexivity).
    destruct Cases as [(e & -> & -> & -> & F & _) | [(es & -> & -> & -> & _ & F & _)
                      | [(es & -> & -> & -> & F & _) | (es & -> & -> & -> & F & _)]]].
    + split; [rewrite F; discriminate|]. exists (l0 ++ CTransaction :: l2). exact T.
    + split; [rewrite F; discriminate|].
      exists ((l0 ++ CTransaction :: l2) ++ [CCommit]). rewrite T, <- !app_assoc.
      reflexivity.
    + split; [rewrite F; discriminate|].
      exists ((l0 ++ CTransaction :: l2) ++ [CCommit; CEmitEnrollClassEvent es]).
      rewrite T, <- !app_assoc. reflexivity.
    + split; [rewrite F; discriminate|]. rewrite T. split.
      * apply in_or_app. right. now left.
      * intros I. apply in_app_or in I. destruct I as [I | [I | [I | []]]];
          try discriminate. apply Early in I. now destruct I.
Qed.

(** ** Calls in the order of the text *)

(** X11.  In every run of [enrollClass], of two calls made one after the
    other the second stands later in the text than the first: balance
    lookup, transaction, promotion lookup, counter, purchase credit, paid
    flag, referral credit, rows, gateway, payment record, link, commit,
    event, rollback.  So none is made twice and none out of turn. *)
Theorem calls_in_source_order env args req w l1 c l2 d l3 :
  since w (snd (enrollClass env args req w)) = l1 ++ c :: l2 ++ d :: l3 ->
  (phase c < phase d)%nat.
Proof.
  intros T.
  pose proof (enrollClass_ordered env args req w) as O.
  apply Ordered_since in O. destruct O as (_ & A & _). rewrite T in A.
  apply ascending_split in A. destruct A as (_ & A).
  rewrite forallb_forall in A.
  assert (In d (l2 ++ d :: l3)) as I by (apply in_or_app; right; now left).
  apply A in I. now apply Nat.ltb_lt in I.
Qed.

(** ** Whose enrollments *)

(** X12.  Whatever the outcome of [enrollClass], an enrollment that is in
    the store afterwards and was not there before is for the student named
    in the request, who is a student of the caller, and for a class that
    exists and is among the class ids of the request. *)
Theorem new_enrollments_are_the_callers env args req w r w' :
  enrollClass env args req w = (r, w') ->
  forall e,
    In e (enrollments (store w')) ->
    In e (enrollments (store w)) \/
    (exists uid,
       truthy (req_userId req) = Some uid /\
       e_studentId (enrollment_attrs e) = studentId args /\
       (exists row, In row (students (store w)) /\
                    row_id row = studentId args /\ row_parentId row = uid) /\
       In (e_classId (enrollment_attrs e)) (classIds args) /\
       exists k, In k (classes (store w)) /\ klass_id k = e_classId (enrollment_attrs e)).
Proof.
  intros E e I.
  destruct (run_effect env args req w _ w' E) as [(St & _) | Run].
  { left. now rewrite <- St. }
  destruct Run as (uid & student & k0 & klasses & w1 & es & ap & p1 & uc & p2 & bonus
                   & saleRecord & EV & _ & St & At & _).
  rewrite St, bodyWrites_enrollments in I.
  apply in_app_or in I. destruct I as [I | I]; [now left | right].
  destruct (validate_Ok_inv _ _ _ _ _ _ _ _ _ EV) as (U & G & K & _).
  destruct (getStudent_Ok_inv _ _ _ _ _ G) as (_ & S1 & S2 & _ & S4 & _).
  apply (in_map enrollment_attrs) in I. rewrite At in I.
  unfold enrollmentRows in I. apply in_map_iff in I.
  destruct I as (k & <- & Ik). simpl.
  rewrite K in Ik. apply filter_In in Ik. destruct Ik as [Ik X].
  apply existsb_exists in X. destruct X as (i & Ii & Ei). apply String.eqb_eq in Ei.
  exists uid. split; [exact U|]. split; [exact S1|]. split.
  { eexists. split; [exact S4|]. simpl. auto. }
  split; [now rewrite Ei|]. eauto.
Qed.

(** ** The main class *)

Lemma first_lowest_fold l : forall m,
  let r := fold_left
             (fun mainKlass klass =>
                if level (course klass) <? level (course mainKlass) then klass
                else mainKlass) l m in
  (r = m /\ forall k, In k l -> level (course m) <= level (course k)) \/
  (exists l1 l2,
     l = l1 ++ r :: l2 /\
     level (course r) < level (course m) /\
     (forall k, In k l1 -> level (course r) < level (course k)) /\
     (forall k, In k l2 -> level (course r) <= level (course k))).
Proof.
  induction l as [|k l IH]; intros m; cbn zeta.
  { left. split; [reflexivity | intros k []]. }
  cbn [fold_left].
  destruct (Z.ltb_spec (level (course k)) (level (course m))) as [Lt|Ge].
  - right. destruct (IH k) as [(-> & All) | (l1 & l2 & El & Lr & B & A)].
    + exists [], l. repeat split; auto. intros ? [].
    + exists (k :: l1), l2. split; [simpl; now rewrite <- El|].
      split; [lia|]. split; [|exact A].
      intros x [<- | I]; [exact Lr | now apply B].
  - destruct (IH m) as [(-> & All) | (l1 & l2 & El & Lr & B & A)].
    + left. split; [reflexivity|]. intros x [<- | I]; [exact Ge | now apply All].
    + right. exists (k :: l1), l2. split; [simpl; now rewrite <- El|].
      split; [exact Lr|]. split; [|exact A].
      intros x [<- | I]; [lia | now apply B].
Qed.

(** X13.  The main class is the first, in the order of the classes found,
    of those whose course has the lowest level: every class before it has a
    strictly higher level and every class after it a level at least as
    high. *)
Theorem mainKlass_first_of_lowest k0 rest :
  exists before after,
    k0 :: rest = before ++ findMainKlass k0 (k0 :: rest) :: after /\
    (forall k, In k before ->
       level (course (findMainKlass k0 (k0 :: rest))) < level (course k)) /\
    (forall k, In k after ->
       level (course (findMainKlass k0 (k0 :: rest))) <= level (course k)).
Proof.
  unfold findMainKlass. destruct rest as [|k1 rest].
  { exists [], []. repeat split; intros ? []. }
  cbn [length Nat.ltb Nat.leb fold_left]. rewrite Z.ltb_irrefl.
  destruct (first_lowest_fold (k1 :: rest) k0) as [(E & All) | (l1 & l2 & El & Lr & B & A)];
    cbn zeta in *.
  - cbn [fold_left] in E. rewrite E. exists [], (k1 :: rest). repeat split; auto.
    intros ? [].
  - cbn [fold_left] in El, Lr, B, A.
    exists (k0 :: l1), l2. split; [simpl; now rewrite <- El|].
    split; [|exact A]. intros x [<- | I]; [exact Lr | now apply B].
Qed.

Lemma mainKlass_least k0 rest :
  In (findMainKlass k0 (k0 :: rest)) (k0 :: rest) /\
  forall k, In k (k0 :: rest) ->
    level (course (findMainKlass k0 (k0 :: rest))) <= level (course k).
Proof.
  unfold findMainKlass.
  destruct (1 <? length (k0 :: rest))%nat eqn:L.
  - destruct (lowest_fold (k0 :: rest) k0) as (I1 & I2 & I3). split.
    + destruct I1 as [-> | I1]; [now left | exact I1].
    + exact I3.
  - apply Nat.ltb_ge in L. destruct rest; [|simpl in L; lia].
    split; [now left|]. intros k [<- | []]. lia.
Qed.

(** X14.  The query that finds the classes fixes no order.  Whatever the
    order in which the same classes come back, the level of the main class
    is the same, although the main class itself need not be. *)
Theorem mainKlass_level_any_order k0 rest k0' rest' :
  Permutation (k0 :: rest) (k0' :: rest') ->
  level (course (findMainKlass k0 (k0 :: rest))) =
  level (course (findMainKlass k0' (k0' :: rest'))).
Proof.
  intros P.
  destruct (mainKlass_least k0 rest) as [M L].
  destruct (mainKlass_least k0' rest') as [M' L'].
  pose proof (L' _ (Permutation_in _ P M)).
  pose proof (L _ (Permutation_in _ (Permutation_sym P) M')).
  lia.
Qed.

(** ** A free trial, either way *)


(** * The properties above on the fixture *)

Module Cases.

Import Fixture TrialFixture.

(** Amy is found for Ann. *)
Lemma amy_is_anns :
  getStudent withCredit "ann" world = (Ok amy, world) /\
  student_id amy = "amy" /\
  parentId amy = "ann" /\
  In {| row_id := "amy"; row_parentId := "ann"; row_name := "Amy" |} (students tables).
Proof.
  assert (getStudent withCredit "ann" world = (Ok amy, world)) as H
    by (vm_compute; reflexivity).
  destruct (getStudent_returns_callers_student _ _ _ _ _ H) as (_ & S & P & R).
  split; [exact H|]. split; [exact S|]. split; [exact P | exact R].
Defined.

(** The four refusals of [enrollTrial]. *)
Lemma trial_refused_four_ways :
  enrollTrial (env noFault) amyIntro anonymous world
    = (Err (Unauthorized "You must login first"), world) /\
  enrollTrial (env noFault) benIntro asAnn world = (Err EmptyResultError, world) /\
  enrollTrial (env noFault) amyNowhere asAnn world = (Err EmptyResultError, world) /\
  enrollTrial (env noFault) amyOne asAnn world
    = (Err (BadRequest "Only introductory class is available for express checkout"),
       world).
Proof.
  destruct (enrollTrial_refusals (env noFault) amyIntro anonymous world) as (T1 & _).
  destruct (enrollTrial_refusals (env noFault) benIntro asAnn world) as (_ & T2 & _).
  destruct (enrollTrial_refusals (env noFault) amyNowhere asAnn world) as (_ & _ & T3 & _).
  destruct (enrollTrial_refusals (env noFault) amyOne asAnn world) as (_ & _ & _ & T4).
  split; [apply T1; reflexivity|].
  split.
  { apply (T2 "ann"); [reflexivity|].
    intros row [<- | [<- | []]] [E1 E2]; discriminate. }
  split.
  { apply (T3 "ann"); [reflexivity|].
    intros k [<- | [<- | [<- | []]]]; discriminate. }
  apply (T4 "ann" amy kOne); reflexivity.
Defined.

(** The event bus is down: Amy's trial row is in the store and the request
    fails with the error of the bus. *)
Lemma trial_row_stays_when_unannounced :
  enrollTrial (env busDown) amyIntro asAnn world
    = (Err (Failure "bus down"), snd trialUnannounced) /\
  exists enrollment,
    store (snd trialUnannounced) = insertEnrollments [enrollment] tables /\
    In (CEmitEnrollClassEvent [enrollment]) (since world (snd trialUnannounced)).
Proof.
  assert (enrollTrial (env busDown) amyIntro asAnn world
          = (Err (Failure "bus down"), snd trialUnannounced)) as H
    by (vm_compute; reflexivity).
  split; [exact H|].
  destruct (enrollTrial_writes_one_row _ _ _ _ _ _ H)
    as (_ & _ & [(St & _) | (enrollment & student & klass & St & _ & _ & T & _)]).
  - vm_compute in St. discriminate.
  - exists enrollment. split; [exact St|].
    rewrite T. right. left. reflexivity.
Defined.

(** Amy takes the trial class. *)
Lemma amy_takes_the_trial :
  exists enrollment w',
    enrollTrial (env noFault) amyIntro asAnn world = (Ok (enrollment, amy, kIntro), w') /\
    enrollment_attrs enrollment =
      {| e_studentId := "amy"; e_classId := "k0"; source := "ads"; campaign := "";
         e_promotionId := None; e_creditId := None |} /\
    enrollments (store w') = [enrollment] /\
    credits (store w') = [gift].
Proof.
  destruct (enrollTrial_returns (env noFault) amyIntro asAnn world "ann" amy kIntro)
    as (enrollment & w' & E & At & _ & En & _ & _ & _ & _ & Cr & _);
    try reflexivity.
  exists enrollment, w'.
  split; [exact E|]. split; [exact At|]. split; [exact En | exact Cr].
Defined.

(** Both rows of the purchase carry promotion p1 and the credit created. *)
Lemma both_rows_carry_promotion_and_credit :
  enrollClass (env noFault) everything asAnn world = (Ok everythingRows, everythingAfter) /\
  exists appliedPromo usedCredit,
    (forall e, In e everythingRows ->
       e_promotionId (enrollment_attrs e) = option_map promotion_id appliedPromo /\
       e_creditId (enrollment_attrs e) = option_map credit_id usedCredit) /\
    purchaseCredits (store everythingAfter) =
      purchaseCredits tables ++ match usedCredit with Some c => [c] | None => [] end.
Proof.
  assert (enrollClass (env noFault) everything asAnn world
          = (Ok everythingRows, everythingAfter)) as H by (vm_compute; reflexivity).
  split; [exact H|].
  destruct (rows_reference_credit_and_promotion _ _ _ _ _ _ H)
    as (uid & student & k0 & klasses & w1 & ap & uc & _ & R & P & _).
  exists ap, uc. split; [exact R | exact P].
Defined.

(** The purchase is charged once and the payment is linked to both rows. *)
Lemma one_payment_for_both_rows :
  enrollClass (env noFault) everything asAnn world = (Ok everythingRows, everythingAfter) /\
  exists p saleRecord,
    0 < p /\
    sales (since world everythingAfter) = [p] /\
    transaction_details saleRecord = "sale:k1amy" /\
    transactions (store everythingAfter) = transactions tables ++ [saleRecord] /\
    transactionEnrollments (store everythingAfter) =
      transactionEnrollments tables ++
      map (fun e => (transaction_id saleRecord, enrollment_id e)) everythingRows.
Proof.
  assert (enrollClass (env noFault) everything asAnn world
          = (Ok everythingRows, everythingAfter)) as H by (vm_compute; reflexivity).
  split; [exact H|].
  destruct (payment_recorded_and_linked _ _ _ _ _ _ H)
    as [(S & _) | (p & saleRecord & Pos & S & D & X1 & X2)].
  - vm_compute in S. discriminate.
  - exists p, saleRecord.
    split; [exact Pos|]. split; [exact S|]. split; [exact D|].
    split; [exact X1 | exact X2].
Defined.

(** The accounts after the purchase: Ann is paid, nothing else differs. *)
Lemma accounts_after_the_purchase :
  enrollClass (env noFault) everything asAnn world = (Ok everythingRows, everythingAfter) /\
  Forall2
    (fun a a' =>
       account_id a' = account_id a /\ firstName a' = firstName a /\
       refererId a' = refererId a /\ (paid a = true -> paid a' = true))
    [ann; bob; referer] (accounts (store everythingAfter)).
Proof.
  assert (enrollClass (env noFault) everything asAnn world
          = (Ok everythingRows, everythingAfter)) as H by (vm_compute; reflexivity).
  split; [exact H|].
  exact (accounts_only_gain_paid _ _ _ _ _ _ H).
Defined.

(** Ann reads paid after the purchase. *)
Lemma ann_is_paid_after_the_purchase :
  validate (env noFault) everything asAnn world = (Ok amyInBoth, lookedUp) /\
  isRegular (course (findMainKlass kTwo [kTwo; kOne])) = true /\
  enrollClass (env noFault) everything asAnn world = (Ok everythingRows, everythingAfter) /\
  exists a,
    find (fun a => (account_id a =? "ann")%string) (accounts (store everythingAfter))
      = Some a /\
    account_id a = "ann" /\ paid a = true.
Proof.
  assert (validate (env noFault) everything asAnn world = (Ok amyInBoth, lookedUp)) as H1
    by (vm_compute; reflexivity).
  assert (isRegular (course (findMainKlass kTwo [kTwo; kOne])) = true) as H2
    by reflexivity.
  assert (enrollClass (env noFault) everything asAnn world
          = (Ok everythingRows, everythingAfter)) as H3 by (vm_compute; reflexivity).
  split; [exact H1|]. split; [exact H2|]. split; [exact H3|].
  exact (regular_purchase_marks_paid _ _ _ _ _ _ _ _ _ _ _ H1 H2 H3).
Defined.

(** The credit of the purchase debits 3000 cents of Ann's 5000. *)
Lemma purchase_debits_within_balance :
  (forall price requested,
     0 < price -> 0 < requested ->
     used (applyCredit (env noFault) price requested) <= requested) /\
  validate (env noFault) everything asAnn world = (Ok amyInBoth, lookedUp) /\
  enrollClass (env noFault) everything asAnn world = (Ok everythingRows, everythingAfter) /\
  forall c,
    In c (purchaseCredits (store everythingAfter)) ->
    In c (purchaseCredits tables) \/
    (userId (credit_attrs c) = "ann" /\
     - cents (credit_attrs c) <= 3000 /\
     3000 <= balance tables ann).
Proof.
  assert (forall price requested,
            0 < price -> 0 < requested ->
            used (applyCredit (env noFault) price requested) <= requested) as H0
    by (intros price requested _ _; simpl; lia).
  assert (validate (env noFault) everything asAnn world = (Ok amyInBoth, lookedUp)) as H1
    by (vm_compute; reflexivity).
  assert (enrollClass (env noFault) everything asAnn world
          = (Ok everythingRows, everythingAfter)) as H2 by (vm_compute; reflexivity).
  split; [exact H0|]. split; [exact H1|]. split; [exact H2|].
  exact (credit_spent_within_balance _ _ _ _ _ _ _ _ _ _ _ H0 H1 H2).
Defined.

(** The card is declined: the transaction is rolled back, last of all. *)
Lemma declined_purchase_ends_with_rollback :
  enrollClass (env declined) everything asAnn world
    = (Err (Failure "card declined"), everythingDeclined) /\
  In CTransaction (since world everythingDeclined) /\
  fault (env declined) CTransaction = None /\
  finished everythingDeclined <> None /\
  exists l, since world everythingDeclined = l ++ [CRollback].
Proof.
  assert (enrollClass (env declined) everything asAnn world
          = (Err (Failure "card declined"), everythingDeclined)) as H
    by (vm_compute; reflexivity).
  assert (In CTransaction (since world everythingDeclined)) as I
    by (vm_compute; right; left; reflexivity).
  assert (fault (env declined) CTransaction = None) as F by reflexivity.
  split; [exact H|]. split; [exact I|]. split; [exact F|].
  destruct (transaction_never_left_open _ _ _ _ _ _ H) as [T _].
  exact (T (conj I F)).
Defined.

(** In the purchase the transaction is opened before it is committed. *)
Lemma transaction_before_commit :
  since world (snd (enrollClass (env noFault) everything asAnn world)) =
    firstn 1 (since world everythingAfter) ++
    CTransaction :: firstn 9 (skipn 2 (since world everythingAfter)) ++
    CCommit :: skipn 12 (since world everythingAfter) /\
  (phase CTransaction < phase CCommit)%nat.
Proof.
  assert (since world (snd (enrollClass (env noFault) everything asAnn world)) =
            firstn 1 (since world everythingAfter) ++
            CTransaction :: firstn 9 (skipn 2 (since world everythingAfter)) ++
            CCommit :: skipn 12 (since world everythingAfter)) as H
    by (vm_compute; reflexivity).
  split; [exact H|].
  exact (calls_in_source_order _ _ _ _ _ _ _ _ _ H).
Defined.

(** Every enrollment in the store after the purchase is Amy's. *)
Lemma enrollments_after_the_purchase_are_amys :
  enrollClass (env noFault) everything asAnn world = (Ok everythingRows, everythingAfter) /\
  forall e,
    In e (enrollments (store everythingAfter)) ->
    e_studentId (enrollment_attrs e) = "amy" /\
    In (e_classId (enrollment_attrs e)) ["k1"; "k2"].
Proof.
  assert (enrollClass (env noFault) everything asAnn world
          = (Ok everythingRows, everythingAfter)) as H by (vm_compute; reflexivity).
  split; [exact H|].
  intros e I.
  destruct (new_enrollments_are_the_callers _ _ _ _ _ _ H e I)
    as [[] | (uid & _ & S & _ & C & _)].
  split; [exact S | exact C].
Defined.

(** Ann's referer gets the bonus for the first purchase and none for the
    second. *)
Lemma no_second_bonus_for_anns_referer :
  validate (env noFault) everything asAnn world = (Ok amyInBoth, lookedUp) /\
  isRegular (course (findMainKlass kTwo [kTwo; kOne])) = true /\
  enrollClass (env noFault) everything asAnn world = (Ok everythingRows, everythingAfter) /\
  truthy (req_userId asAnn) = Some "ann" /\
  enrollClass (env noFault) withPromo asAnn everythingAfter
    = (fst secondDone, snd secondDone) /\
  length (referralCredits tables) = 1%nat /\
  length (referralCredits (store everythingAfter)) = 2%nat /\
  referralCredits (store (snd secondDone)) = referralCredits (store everythingAfter) /\
  accounts (store (snd secondDone)) = accounts (store everythingAfter).
Proof.
  assert (validate (env noFault) everything asAnn world = (Ok amyInBoth, lookedUp)) as H1
    by (vm_compute; reflexivity).
  assert (isRegular (course (findMainKlass kTwo [kTwo; kOne])) = true) as H2
    by reflexivity.
  assert (enrollClass (env noFault) everything asAnn world
          = (Ok everythingRows, everythingAfter)) as H3 by (vm_compute; reflexivity).
  assert (truthy (req_userId asAnn) = Some "ann") as H4 by reflexivity.
  assert (enrollClass (env noFault) withPromo asAnn everythingAfter
          = (fst secondDone, snd secondDone)) as H5 by (vm_compute; reflexivity).
  split; [exact H1|]. split; [exact H2|]. split; [exact H3|]. split; [exact H4|].
  split; [exact H5|].
  split; [vm_compute; reflexivity|]. split; [vm_compute; reflexivity|].
  exact (referral_bonus_only_once _ _ _ _ _ _ _ _ _ _ _ _ _ _ _ _ _
           H1 H2 H3 eq_refl H4 H5).
Defined.

(** The purchase: 20000 cents for both classes, less 1000 of promotion
    p1, less 3000 of credit. *)
Lemma purchase_charges_16000 :
  validate (env noFault) everything asAnn world = (Ok amyInBoth, lookedUp) /\
  enrollClass (env noFault) everything asAnn world = (Ok everythingRows, everythingAfter) /\
  sales (since world everythingAfter) = [16000].
Proof.
  assert (validate (env noFault) everything asAnn world = (Ok amyInBoth, lookedUp)) as H1
    by (vm_compute; reflexivity).
  assert (enrollClass (env noFault) everything asAnn world
          = (Ok everythingRows, everythingAfter)) as H2 by (vm_compute; reflexivity).
  split; [exact H1|]. split; [exact H2|].
  pose proof (charge_is_total_less_promotion_less_credit _ _ _ _ _ _ _ _ _ _ _ H1 H2)
    as [_ T].
  vm_compute in T. vm_compute. exact T.
Defined.

(** Classes k2 and k1 in either order: the main class has level 1. *)
Lemma level_of_main_class_either_way :
  Permutation [kTwo; kOne] [kOne; kTwo] /\
  level (course (findMainKlass kTwo [kTwo; kOne])) =
  level (course (findMainKlass kOne [kOne; kTwo])).
Proof.
  assert (Permutation [kTwo; kOne] [kOne; kTwo]) as H by apply perm_swap.
  split; [exact H|].
  exact (mainKlass_level_any_order _ _ _ _ H).
Defined.


End Cases.
